(** * agentmemory: the memory facade of [agentmemory/main.py]

    A shallow embedding of the category-scoped memory operations
    ([create_memory], [create_unique_memory], [search_memory], [get_memory],
    [get_memories], [update_memory], [delete_memory],
    [delete_similar_memories], [memory_exists], [count_memories]) over a
    reference model of the vector-collection backend they call.

    Python values are embedded as follows: a [dict] is an insertion-ordered
    association list, a float (distance, similarity, timestamp) is a rational
    [Q], an exception is a constructor of [exn], and every function of the
    module is a computation in a state-and-error monad whose state holds the
    backend store, the wall clock, the record of backend calls and the
    diagnostic log. *)

From Stdlib Require Import String Ascii List Bool Arith NArith ZArith QArith Lia.
From Stdlib Require Import Sorted Permutation.
Import ListNotations.

Set Warnings "-register-all".

Close Scope Q_scope.
Local Open Scope string_scope.
Local Open Scope list_scope.

(** ** Python values *)

Module Py.

(** The values that occur in metadata and in backend filter expressions. *)
Inductive pyval : Type :=
| VStr (s : string)
| VNum (q : Q)
| VBool (b : bool)
| VDict (d : list (string * pyval))
| VList (l : list pyval).

(** An insertion-ordered dictionary with string keys. *)
Definition dict (V : Type) : Type := list (string * V).

Fixpoint dict_get {V} (d : dict V) (k : string) : option V :=
  match d with
  | [] => None
  | (k', v) :: d' => if String.eqb k' k then Some v else dict_get d' k
  end.

(** [d[k] = v]: an existing key keeps its position, a new key goes last. *)
Fixpoint dict_set {V} (d : dict V) (k : string) (v : V) : dict V :=
  match d with
  | [] => [(k, v)]
  | (k', v') :: d' =>
      if String.eqb k' k then (k', v) :: d' else (k', v') :: dict_set d' k v
  end.

Definition dict_keys {V} (d : dict V) : list string := map fst d.

(** [str(b)] for a boolean. *)
Definition str_bool (b : bool) : string := if b then "True" else "False".

(** *** [str] of a non-negative integer and [str.zfill] *)

Definition digit_char (d : N) : ascii := ascii_of_N (48 + d).

(** One decimal digit per round, least significant first, accumulated to the
    left.  [N.size_nat n] rounds are enough: a number has no more decimal
    digits than binary ones. *)
Fixpoint str_digits (fuel : nat) (n : N) (acc : string) : string :=
  match fuel with
  | O => acc
  | S fuel' =>
      let acc' := String (digit_char (n mod 10)) acc in
      if (n / 10 =? 0)%N then acc' else str_digits fuel' (n / 10)%N acc'
  end.

Definition str_N (n : N) : string := str_digits (S (N.size_nat n)) n "".

Definition str_nat (n : nat) : string := str_N (N.of_nat n).

Fixpoint zeros (k : nat) : string :=
  match k with
  | O => ""
  | S k' => String "0" (zeros k')
  end.

(** [s.zfill(width)]: zeros are inserted on the left, after a leading sign,
    until the string is [width] characters long. *)
Definition zfill (width : nat) (s : string) : string :=
  let pad := zeros (width - String.length s) in
  match s with
  | String c s' =>
      if (Ascii.eqb c "+" || Ascii.eqb c "-")%bool
      then String c (pad ++ s')
      else pad ++ s
  | EmptyString => pad
  end.

(** Comparison of strings as Python does it, code point by code point. *)
Definition str_lt (s t : string) : Prop := String.ltb s t = true.

End Py.
Export Py.

(** ** The vector-collection backend

    The backend is an external store; this is the reference model of the part
    of its interface the facade calls.  A collection is the list of its rows
    in storage order, and the store maps collection names to collections. *)

Module Backend.

Definition embedding : Type := list Q.

Record row : Type := mkRow {
  row_id : string;
  row_document : string;
  row_metadata : dict pyval;
  row_embedding : embedding
}.

(** The response of [get] or of [query] for one query text: parallel columns.
    Every call site of the facade includes documents and metadatas; the
    embeddings and distances are present when asked for. *)
Record columns : Type := mkColumns {
  col_ids : list string;
  col_documents : list string;
  col_metadatas : list (dict pyval);
  col_embeddings : option (list embedding);
  col_distances : option (list Q)
}.

Inductive include_type : Type :=
| IncMetadatas | IncDocuments | IncEmbeddings | IncDistances.

Definition include_type_eqb (a b : include_type) : bool :=
  match a, b with
  | IncMetadatas, IncMetadatas | IncDocuments, IncDocuments
  | IncEmbeddings, IncEmbeddings | IncDistances, IncDistances => true
  | _, _ => false
  end.

Definition includes (inc : list include_type) (t : include_type) : bool :=
  existsb (include_type_eqb t) inc.

(** *** Filter expressions

    Modelled from the spec: the filter language of the backend, which is not
    part of the repository.  An expression is a dictionary with exactly one
    entry: a field with the value it must equal (written directly or as
    [{"$eq": value}]), or ["$and"] with a list of expressions. *)

Definition is_scalar (v : pyval) : bool :=
  match v with
  | VStr _ | VNum _ | VBool _ => true
  | VDict _ | VList _ => false
  end.

Definition scalar_eqb (a b : pyval) : bool :=
  match a, b with
  | VStr s, VStr t => String.eqb s t
  | VNum p, VNum q => Qeq_bool p q
  | VBool x, VBool y => Bool.eqb x y
  | _, _ => false
  end.

Definition field_eqb (md : dict pyval) (k : string) (x : pyval) : bool :=
  match dict_get md k with
  | Some v => scalar_eqb v x
  | None => false
  end.

Fixpoint wf_where (w : pyval) : bool :=
  match w with
  | VDict [(k, v)] =>
      if String.eqb k "$and" then
        match v with
        | VList ws => forallb wf_where ws
        | _ => false
        end
      else
        match v with
        | VDict [(op, x)] => String.eqb op "$eq" && is_scalar x
        | VDict _ | VList _ => false
        | _ => true
        end
  | _ => false
  end.

Fixpoint where_holds (w : pyval) (md : dict pyval) : bool :=
  match w with
  | VDict [(k, v)] =>
      if String.eqb k "$and" then
        match v with
        | VList ws => forallb (fun w' => where_holds w' md) ws
        | _ => false
        end
      else
        match v with
        | VDict [(op, x)] => String.eqb op "$eq" && field_eqb md k x
        | x => field_eqb md k x
        end
  | _ => false
  end.

(** [t] occurs in [s]. *)
Fixpoint contains (s t : string) : bool :=
  String.prefix t s ||
  match s with
  | String _ s' => contains s' t
  | EmptyString => false
  end.

Definition wf_where_document (wd : dict pyval) : bool :=
  match wd with
  | [(op, VStr _)] => String.eqb op "$contains"
  | _ => false
  end.

Definition where_document_holds (wd : dict pyval) (doc : string) : bool :=
  match wd with
  | [(op, VStr t)] => String.eqb op "$contains" && contains doc t
  | _ => false
  end.

Definition valid_filters (where_ where_document : option (dict pyval)) : bool :=
  match where_ with None => true | Some w => wf_where (VDict w) end &&
  match where_document with None => true | Some wd => wf_where_document wd end.

Definition row_matches (where_ where_document : option (dict pyval))
    (r : row) : bool :=
  match where_ with
  | None => true
  | Some w => where_holds (VDict w) (row_metadata r)
  end &&
  match where_document with
  | None => true
  | Some wd => where_document_holds wd (row_document r)
  end.

(** *** Collections *)

Definition has_id (ids : list string) (r : row) : bool :=
  existsb (String.eqb (row_id r)) ids.

Definition id_exists (id : string) (rows : list row) : bool :=
  existsb (fun r => String.eqb (row_id r) id) rows.

(** The entries of [new] written over [old]: a key of [old] keeps its place
    and takes the new value when there is one; the keys that are new follow
    in their order. *)
Definition written_over (old new : dict pyval) : dict pyval :=
  map (fun kv =>
         (fst kv,
          match dict_get new (fst kv) with
          | Some v => v
          | None => snd kv
          end)) old
  ++ filter (fun kv =>
               match dict_get old (fst kv) with
               | Some _ => false
               | None => true
               end) new.

(** The row stored for [r] in the place of [old], a row of the same id: the
    document and the embedding are those of [r]; the metadata of [r] is
    written over the stored metadata, whose other entries stay. *)
Definition overwritten (old r : row) : row :=
  mkRow (row_id old) (row_document r)
    (written_over (row_metadata old) (row_metadata r)) (row_embedding r).

(** A new id is appended; a row of the same id is written over. *)
Definition upsert_row (rows : list row) (r : row) : list row :=
  if id_exists (row_id r) rows
  then map (fun r' =>
              if String.eqb (row_id r') (row_id r) then overwritten r' r
              else r') rows
  else rows ++ [r].

(** [update]: the given document replaces the stored one, the given metadata
    entries are written over the stored metadata; an unknown id is skipped. *)
Definition update_row (id : string) (document : option string)
    (metadata : option (dict pyval)) (r : row) : row :=
  if String.eqb (row_id r) id then
    mkRow (row_id r)
          (match document with Some d => d | None => row_document r end)
          (match metadata with
           | Some md => fold_left (fun acc kv => dict_set acc (fst kv) (snd kv))
                                  md (row_metadata r)
           | None => row_metadata r
           end)
          (row_embedding r)
  else r.

Definition delete_rows (ids : list string) (rows : list row) : list row :=
  filter (fun r => negb (has_id ids r)) rows.

(** The next entry of an optional argument column, and the rest of it. *)
Definition col_head {A} (c : option (list A)) : option A :=
  match c with
  | Some (x :: _) => Some x
  | _ => None
  end.

Definition col_tail {A} (c : option (list A)) : option (list A) :=
  option_map (@tl A) c.

Fixpoint update_rows (ids : list string) (documents : option (list string))
    (metadatas : option (list (dict pyval))) (rows : list row) : list row :=
  match ids with
  | [] => rows
  | id :: ids' =>
      update_rows ids' (col_tail documents) (col_tail metadatas)
        (map (update_row id (col_head documents) (col_head metadatas)) rows)
  end.

Definition columns_of (inc : list include_type) (rows : list row) : columns :=
  mkColumns (map row_id rows) (map row_document rows) (map row_metadata rows)
    (if includes inc IncEmbeddings then Some (map row_embedding rows) else None)
    None.

(** [get]: the rows selected by id and by the filters, in storage order, at
    most [limit] of them. *)
Definition select_get (ids : option (list string))
    (where_ where_document : option (dict pyval)) (limit : option nat)
    (rows : list row) : list row :=
  let sel := filter (fun r =>
               match ids with Some l => has_id l r | None => true end &&
               row_matches where_ where_document r) rows in
  match limit with
  | Some n => firstn n sel
  | None => sel
  end.

Section Distance.

(** The embedding function of the collection and its distance. *)
Variable embed : string -> embedding.
Variable distance : embedding -> embedding -> Q.

Definition dist_to (query_text : string) (r : row) : Q :=
  distance (embed query_text) (row_embedding r).

(** [upsert]: an embedding that is not supplied is computed from the
    document. *)
Fixpoint upsert_rows (ids documents : list string)
    (metadatas : list (dict pyval)) (embeddings : option (list embedding))
    (rows : list row) : list row :=
  match ids, documents, metadatas with
  | id :: ids', d :: documents', md :: metadatas' =>
      upsert_rows ids' documents' metadatas' (col_tail embeddings)
        (upsert_row rows
           (mkRow id d md
              (match col_head embeddings with
               | Some e => e
               | None => embed d
               end)))
  | _, _, _ => rows
  end.

Fixpoint insert_nearest (q : string) (r : row) (l : list row) : list row :=
  match l with
  | [] => [r]
  | x :: l' =>
      if Qle_bool (dist_to q r) (dist_to q x)
      then r :: x :: l'
      else x :: insert_nearest q r l'
  end.

Definition nearest_first (q : string) (rows : list row) : list row :=
  fold_right (insert_nearest q) [] rows.

(** [query] for one query text: the [n_results] nearest of the rows that
    pass the filters, nearest first. *)
Definition select_query (q : string)
    (where_ where_document : option (dict pyval)) (n_results : nat)
    (rows : list row) : list row :=
  firstn n_results
    (nearest_first q (filter (row_matches where_ where_document) rows)).

(** The response of [query]: per column, one list for each query text. *)
Record query_result : Type := mkQueryResult {
  qr_ids : list (list string);
  qr_documents : list (list string);
  qr_metadatas : list (list (dict pyval));
  qr_embeddings : option (list (list embedding));
  qr_distances : option (list (list Q))
}.

Definition query_rows (query_texts : list string)
    (where_ where_document : option (dict pyval)) (n_results : nat)
    (inc : list include_type) (rows : list row) : query_result :=
  let hits := map (fun q => (q, select_query q where_ where_document
                                  n_results rows)) query_texts in
  mkQueryResult
    (map (fun h => map row_id (snd h)) hits)
    (map (fun h => map row_document (snd h)) hits)
    (map (fun h => map row_metadata (snd h)) hits)
    (if includes inc IncEmbeddings
     then Some (map (fun h => map row_embedding (snd h)) hits) else None)
    (if includes inc IncDistances
     then Some (map (fun h => map (dist_to (fst h)) (snd h)) hits) else None).

End Distance.

End Backend.
Export Backend.

(** ** State, exceptions and the monad of the facade *)

Module Run.

Inductive exn : Type :=
| Exception (msg : string)
| TypeError (msg : string)
| AttributeError (msg : string)
| KeyError (key : string)
| ValueError (msg : string).

Inductive result (A : Type) : Type :=
| Ok (a : A)
| Raise (e : exn).
Arguments Ok {A} a.
Arguments Raise {A} e.

(** The calls received by the backend, as the facade issues them. *)
Inductive event : Type :=
| EvGetOrCreateCollection (name : string)
| EvCount (name : string)
| EvUpsert (name : string) (ids documents : list string)
    (metadatas : list (dict pyval))
| EvQuery (name : string) (query_texts : list string)
    (where_ where_document : option (dict pyval)) (n_results : nat)
| EvGet (name : string) (ids : option (list string))
    (where_ where_document : option (dict pyval)) (limit : option nat)
| EvUpdate (name : string) (ids : list string)
    (documents : option (list string))
    (metadatas : option (list (dict pyval)))
| EvDelete (name : string) (ids : list string).

Record log_entry : Type := mkLog {
  log_type : string;
  log_message : string
}.

Record state : Type := mkState {
  st_store : dict (list row);   (* the collections of the backend, by name *)
  st_ticks : nat;               (* how often the clock has been read *)
  st_trace : list event;        (* backend calls, oldest first *)
  st_log : list log_entry;      (* debug_log calls, oldest first *)
  st_stdout : list string       (* printed lines, oldest first *)
}.

Definition M (A : Type) : Type := state -> result A * state.

Definition ret {A} (a : A) : M A := fun st => (Ok a, st).

Definition raise {A} (e : exn) : M A := fun st => (Raise e, st).

Definition bind {A B} (m : M A) (f : A -> M B) : M B :=
  fun st =>
    match m st with
    | (Ok a, st') => f a st'
    | (Raise e, st') => (Raise e, st')
    end.

Definition lift {A} (r : result A) : M A := fun st => (r, st).

Declare Scope run_scope.
Delimit Scope run_scope with run.
Notation "x <- m ;; k" := (bind m (fun x => k))
  (right associativity, at level 61, m at next level) : run_scope.
Notation "m ;; k" := (bind m (fun _ => k))
  (right associativity, at level 61) : run_scope.

Local Open Scope run_scope.

(** [for x in l: body(x)] *)
Fixpoint for_each {A} (l : list A) (body : A -> M unit) : M unit :=
  match l with
  | [] => ret tt
  | x :: l' => body x ;; for_each l' body
  end.

Definition rows_of (st : state) (name : string) : list row :=
  match dict_get (st_store st) name with
  | Some rows => rows
  | None => []
  end.

Definition set_rows (name : string) (rows : list row) (st : state) : state :=
  mkState (dict_set (st_store st) name rows) (st_ticks st) (st_trace st)
    (st_log st) (st_stdout st).

Definition record (e : event) (st : state) : state :=
  mkState (st_store st) (st_ticks st) (st_trace st ++ [e]) (st_log st)
    (st_stdout st).

Definition ticked (st : state) : state :=
  mkState (st_store st) (S (st_ticks st)) (st_trace st) (st_log st)
    (st_stdout st).

Definition logged (type message : string) (st : state) : state :=
  mkState (st_store st) (st_ticks st) (st_trace st)
    (st_log st ++ [mkLog type message]) (st_stdout st).

Definition printed (lines : list string) (st : state) : state :=
  mkState (st_store st) (st_ticks st) (st_trace st) (st_log st)
    (st_stdout st ++ lines).

(** The collection [name] exists afterwards, empty if it is new. *)
Definition ensure (name : string) (st : state) : state :=
  match dict_get (st_store st) name with
  | Some _ => st
  | None => set_rows name [] st
  end.

(** [print(line)] *)
Definition print (line : string) : M unit :=
  fun st => (Ok tt, printed [line] st).

(** Modelled from the spec: [helpers.debug_log], which is not among the
    sources; it records a diagnostic message of the given type. *)
Definition debug_log (type message : string) : M unit :=
  fun st => (Ok tt, logged type message st).

(** Modelled from the spec: [client.check_client_initialized], which is not
    among the sources; the lazily created client handle is always there. *)
Definition check_client_initialized : M unit := ret tt.

(** *** The calls of the backend *)

Definition collection : Type := string.

Definition get_or_create_collection (name : string) : M collection :=
  fun st => (Ok name, ensure name (record (EvGetOrCreateCollection name) st)).

Definition coll_count (c : collection) : M nat :=
  fun st => (Ok (List.length (rows_of st c)), record (EvCount c) st).

Definition default_include : list include_type := [IncMetadatas; IncDocuments].

Definition coll_get (c : collection) (ids : option (list string))
    (where_ where_document : option (dict pyval)) (limit : option nat)
    (inc : list include_type) : M columns :=
  fun st =>
    let st1 := record (EvGet c ids where_ where_document limit) st in
    if valid_filters where_ where_document
    then (Ok (columns_of inc
                (select_get ids where_ where_document limit (rows_of st c))),
          st1)
    else (Raise (ValueError "malformed filter"), st1).

Definition coll_update (c : collection) (ids : list string)
    (documents : option (list string))
    (metadatas : option (list (dict pyval))) : M unit :=
  fun st =>
    (Ok tt,
     set_rows c (update_rows ids documents metadatas (rows_of st c))
       (record (EvUpdate c ids documents metadatas) st)).

Definition coll_delete (c : collection) (ids : list string) : M unit :=
  fun st =>
    (Ok tt,
     set_rows c (delete_rows ids (rows_of st c)) (record (EvDelete c ids) st)).

End Run.
Export Run.

(** ** The facade: [agentmemory/main.py] *)

Module Facade.

Local Open Scope run_scope.

(** The record a caller gets back for one memory. *)
Record memory : Type := mkMemory {
  mem_id : string;
  mem_document : string;
  mem_metadata : dict pyval;
  mem_embedding : option embedding;
  mem_distance : option Q
}.

(** Modelled from the spec: [helpers.get_include_types], which is not among
    the sources; documents and metadata are always asked for. *)
Definition get_include_types (include_embeddings include_distances : bool)
    : list include_type :=
  [IncMetadatas; IncDocuments]
    ++ (if include_embeddings then [IncEmbeddings] else [])
    ++ (if include_distances then [IncDistances] else []).

(** Modelled from the spec: [helpers.flatten_arrays], which is not among the
    sources; the per-query lists of each column are joined. *)
Definition flatten_arrays (q : query_result) : columns :=
  mkColumns (concat (qr_ids q)) (concat (qr_documents q))
    (concat (qr_metadatas q))
    (option_map (@concat embedding) (qr_embeddings q))
    (option_map (@concat Q) (qr_distances q)).

(** Modelled from the spec: [helpers.chroma_collection_to_list], which is not
    among the sources; row [i] of the columns becomes the record
    [{id, document, metadata, embedding?, distance?}]. *)
Fixpoint rows_to_list (ids documents : list string)
    (metadatas : list (dict pyval)) (embeddings : option (list embedding))
    (distances : option (list Q)) : list memory :=
  match ids, documents, metadatas with
  | id :: ids', d :: documents', md :: metadatas' =>
      mkMemory id d md (col_head embeddings) (col_head distances)
        :: rows_to_list ids' documents' metadatas'
             (col_tail embeddings) (col_tail distances)
  | _, _, _ => []
  end.

Definition chroma_collection_to_list (c : columns) : list memory :=
  rows_to_list (col_ids c) (col_documents c) (col_metadatas c)
    (col_embeddings c) (col_distances c).

(** The loop of [create_memory] and [update_memory] over the metadata:
    a boolean value is replaced by its string, with a printed warning. *)
Definition stringify_value (v : pyval) : pyval :=
  match v with
  | VBool b => VStr (str_bool b)
  | _ => v
  end.

Fixpoint stringify_booleans (items : dict pyval) : M (dict pyval) :=
  match items with
  | [] => ret []
  | (key, value) :: items' =>
      match value with
      | VBool _ =>
          print ("WARNING: Boolean metadata field " ++ key
                   ++ " converted to string")
      | _ => ret tt
      end ;;
      rest <- stringify_booleans items' ;;
      ret ((key, stringify_value value) :: rest)
  end.

(** Lines 156-167 of [search_memory], repeated as lines 280-291 of
    [get_memories]: the filter handed to the backend. *)
Definition eq_clause (kv : string * pyval) : pyval :=
  VDict [(fst kv, VDict [("$eq", snd kv)])].

Definition where_filter (filter_metadata : option (dict pyval))
    (unique : bool) : option (dict pyval) :=
  let filter_metadata :=
    match filter_metadata with
    | Some fm =>
        if (1 <? List.length (dict_keys fm))%nat
        then Some [("$and", VList (map eq_clause fm))]
        else Some fm
    | None => None
    end in
  if unique then
    let filter_metadata :=
      match filter_metadata with
      | None => []
      | Some fm => fm
      end in
    Some (dict_set filter_metadata "unique" (VStr "True"))
  else filter_metadata.

(** [[res for res in result_list if keep(res["distance"])]] *)
Fixpoint filter_distance (keep : Q -> bool) (l : list memory)
    : result (list memory) :=
  match l with
  | [] => Ok []
  | res :: l' =>
      match mem_distance res with
      | None => Raise (KeyError "distance")
      | Some d =>
          match filter_distance keep l' with
          | Ok kept => Ok (if keep d then res :: kept else kept)
          | Raise e => Raise e
          end
      end
  end.

Definition Qlt_bool (x y : Q) : bool := negb (Qle_bool y x).

(** The loop of [delete_similar_memories]: the ids of the leading results
    whose similarity is above the threshold. *)
Fixpoint similar_ids (similarity_threshold : Q) (memories : list memory)
    : result (list string) :=
  match memories with
  | [] => Ok []
  | memory :: rest =>
      match mem_distance memory with
      | None => Raise (KeyError "distance")
      | Some distance =>
          let goal_similarity := (1 - distance)%Q in
          if Qlt_bool similarity_threshold goal_similarity then
            match similar_ids similarity_threshold rest with
            | Ok ids => Ok (mem_id memory :: ids)
            | Raise e => Raise e
            end
          else Ok []
      end
  end.

(** Insertion sort on the id, as [list.sort(key=id, reverse=...)]. *)
Fixpoint insert_by_id (desc : bool) (m : memory) (l : list memory)
    : list memory :=
  match l with
  | [] => [m]
  | x :: l' =>
      if (if desc then String.leb (mem_id x) (mem_id m)
          else String.leb (mem_id m) (mem_id x))
      then m :: x :: l'
      else x :: insert_by_id desc m l'
  end.

Definition sort_by_id (desc : bool) (l : list memory) : list memory :=
  fold_right (insert_by_id desc) [] l.

(** What [memories] is bound to in [count_memories]. *)
Inductive pyobj : Type :=
| ObjCollection (c : collection)
| ObjGetResult (r : columns).

Section Facade.

(** The wall clock ([k]-th reading since the start), the embedding function
    of the backend and its distance. *)
Variable clock : nat -> Q.
Variable embed : string -> embedding.
Variable distance : embedding -> embedding -> Q.

(** [datetime.datetime.now().timestamp()] *)
Definition now : M Q :=
  fun st => (Ok (clock (st_ticks st)), ticked st).

Definition coll_upsert (c : collection) (ids documents : list string)
    (metadatas : list (dict pyval)) (embeddings : option (list embedding))
    : M unit :=
  fun st =>
    (Ok tt,
     set_rows c
       (upsert_rows embed ids documents metadatas embeddings (rows_of st c))
       (record (EvUpsert c ids documents metadatas) st)).

(** The backend refuses a query for no results. *)
Definition no_results : string :=
  "Number of requested results 0, cannot be negative, or zero.".

Definition coll_query (c : collection) (query_texts : list string)
    (where_ where_document : option (dict pyval)) (n_results : nat)
    (inc : list include_type) : M query_result :=
  fun st =>
    let st1 :=
      record (EvQuery c query_texts where_ where_document n_results) st in
    if valid_filters where_ where_document
    then
      if (n_results =? 0)%nat
      then (Raise (TypeError no_results), st1)
      else (Ok (query_rows embed distance query_texts where_ where_document
                  n_results inc (rows_of st c)), st1)
    else (Raise (ValueError "malformed filter"), st1).

(** [memories.count()] *)
Definition obj_count (o : pyobj) : M nat :=
  match o with
  | ObjCollection c => coll_count c
  | ObjGetResult _ =>
      raise (AttributeError "'dict' object has no attribute 'count'")
  end.

Definition create_memory (category text : string) (metadata : dict pyval)
    (embedding : option embedding) (id : option string) : M unit :=
  check_client_initialized ;;
  memories <- get_or_create_collection category ;;
  created_at <- now ;;
  let metadata := dict_set metadata "created_at" (VNum created_at) in
  updated_at <- now ;;
  let metadata := dict_set metadata "updated_at" (VNum updated_at) in
  id <- match id with
        | None => n <- coll_count memories ;; ret (zfill 16 (str_nat n))
        | Some id => ret id
        end ;;
  metadata <- stringify_booleans metadata ;;
  coll_upsert memories [id] [text] [metadata]
    (match embedding with Some e => Some [e] | None => None end) ;;
  debug_log "info" ("Created memory " ++ id ++ ": " ++ text).

Definition search_memory (category search_text : string) (n_results : nat)
    (filter_metadata : option (dict pyval)) (contains_text : option string)
    (include_embeddings include_distances : bool)
    (max_distance min_distance : option Q) (unique : bool)
    : M (list memory) :=
  check_client_initialized ;;
  let contains_text :=
    match contains_text with
    | Some t => Some [("$contains", VStr t)]
    | None => None
    end in
  memories <- get_or_create_collection category ;;
  n <- coll_count memories ;;
  if (n =? 0)%nat then ret [] else
  n <- coll_count memories ;;
  let n_results := Nat.min n_results n in
  let include_types := get_include_types include_embeddings include_distances in
  let filter_metadata := where_filter filter_metadata unique in
  query <- coll_query memories [search_text] filter_metadata contains_text
             n_results include_types ;;
  let query := flatten_arrays query in
  let result_list := chroma_collection_to_list query in
  result_list <-
    match min_distance with
    | Some min_distance =>
        if Qlt_bool 0%Q min_distance
        then lift (filter_distance (fun d => Qle_bool min_distance d)
                     result_list)
        else ret result_list
    | None => ret result_list
    end ;;
  result_list <-
    match max_distance with
    | Some max_distance =>
        if Qlt_bool max_distance 1%Q
        then lift (filter_distance (fun d => Qle_bool d max_distance)
                     result_list)
        else ret result_list
    | None => ret result_list
    end ;;
  debug_log "info" ("Searched memory: " ++ search_text) ;;
  ret result_list.

Definition create_unique_memory (category content : string)
    (metadata : dict pyval) (similarity : Q) : M unit :=
  let max_distance := (1 - similarity)%Q in
  memories <- search_memory category content 1
                (Some [("unique", VStr "True")]) None true true
                (Some max_distance) (Some 0%Q) false ;;
  match memories with
  | [] =>
      let metadata := dict_set metadata "unique" (VStr "True") in
      create_memory category content metadata None None
  | first :: _ =>
      let metadata := dict_set metadata "unique" (VStr "False") in
      let metadata := dict_set metadata "related_to" (VStr (mem_id first)) in
      let metadata :=
        dict_set metadata "related_document" (VStr (mem_document first)) in
      create_memory category content metadata None None
  end.

Definition get_memory (category id : string) (include_embeddings : bool)
    : M (option memory) :=
  check_client_initialized ;;
  memories <- get_or_create_collection category ;;
  let include_types := get_include_types include_embeddings false in
  memory <- coll_get memories (Some [id]) None None (Some 1) include_types ;;
  let memory := chroma_collection_to_list memory in
  debug_log "info" ("Got memory " ++ id ++ " from category " ++ category) ;;
  match memory with
  | [] =>
      debug_log "warning"
        ("WARNING: Tried to get memory " ++ id ++ " from category "
           ++ category ++ " but it does not exist") ;;
      ret None
  | first :: _ => ret (Some first)
  end.

Definition get_memories (category sort_order : string)
    (contains_text : option string) (filter_metadata : option (dict pyval))
    (n_results : nat) (include_embeddings unique : bool)
    : M (list memory) :=
  check_client_initialized ;;
  memories <- get_or_create_collection category ;;
  n <- coll_count memories ;;
  let n_results := Nat.min n_results n in
  let include_types := get_include_types include_embeddings false in
  let where_document :=
    match contains_text with
    | Some t => Some [("$contains", VStr t)]
    | None => None
    end in
  let filter_metadata := where_filter filter_metadata unique in
  memories <- coll_get memories None filter_metadata where_document None
                include_types ;;
  let memories := chroma_collection_to_list memories in
  let memories := sort_by_id (String.eqb sort_order "desc") memories in
  let memories := firstn n_results memories in
  debug_log "info" ("Got memories from category " ++ category) ;;
  ret memories.

Definition update_memory (category id : string) (text : option string)
    (metadata : option (dict pyval)) : M unit :=
  check_client_initialized ;;
  memories <- get_or_create_collection category ;;
  match metadata, text with
  | None, None => raise (Exception "No text or metadata provided")
  | _, _ => ret tt
  end ;;
  metadata <- match metadata with
              | Some md => md' <- stringify_booleans md ;; ret (Some md')
              | None => ret None
              end ;;
  updated_at <- now ;;
  metadata <- match metadata with
              | Some md => ret (dict_set md "updated_at" (VNum updated_at))
              | None =>
                  raise (TypeError
                    "'NoneType' object does not support item assignment")
              end ;;
  let documents := match text with Some t => Some [t] | None => None end in
  let metadatas := Some [metadata] in
  coll_update memories [id] documents metadatas ;;
  debug_log "info"
    ("Updated memory " ++ id ++ " in category " ++ category).

Definition memory_exists (category id : string)
    (includes_metadata : option (dict pyval)) : M bool :=
  check_client_initialized ;;
  memories <- get_or_create_collection category ;;
  memory <- coll_get memories (Some [id]) includes_metadata None (Some 1)
              default_include ;;
  let exists_ := (0 <? List.length (col_ids memory))%nat in
  debug_log "info"
    ("Checking if memory " ++ id ++ " exists in category " ++ category
       ++ ". Exists: " ++ str_bool exists_) ;;
  ret exists_.

Definition delete_memory (category id : string) : M unit :=
  check_client_initialized ;;
  memories <- get_or_create_collection category ;;
  exists_ <- memory_exists category id None ;;
  if negb exists_ then
    debug_log "warning"
      ("WARNING: Tried could not delete memory " ++ id ++ " in category "
         ++ category)
  else
    coll_delete memories [id] ;;
    debug_log "info"
      ("Deleted memory " ++ id ++ " in category " ++ category).

(** [search_memory(category, content)]: every other argument at its
    default. *)
Definition search_memory_defaults (category content : string)
    : M (list memory) :=
  search_memory category content 5 None None true true None None false.

Definition delete_similar_memories (category content : string)
    (similarity_threshold : Q) : M bool :=
  memories <- search_memory_defaults category content ;;
  memories_to_delete <-
    (if (0 <? List.length memories)%nat
     then lift (similar_ids similarity_threshold memories)
     else ret []) ;;
  (if (0 <? List.length memories_to_delete)%nat then
     debug_log "info"
       ("Deleting similar memories to " ++ content ++ " in category "
          ++ category) ;;
     for_each memories_to_delete (fun memory => delete_memory category memory)
   else ret tt) ;;
  debug_log "warning"
    ("WARNING: Tried to delete similar memories to " ++ content
       ++ " in category " ++ category ++ " but none were found") ;;
  ret (0 <? List.length memories_to_delete)%nat.

Definition count_memories (category : string) (unique : bool) : M nat :=
  check_client_initialized ;;
  memories <- get_or_create_collection category ;;
  memories <-
    (if unique then
       r <- coll_get memories None (Some [("unique", VStr "True")]) None None
              default_include ;;
       ret (ObjGetResult r)
     else ret (ObjCollection memories)) ;;
  n <- obj_count memories ;;
  debug_log "info"
    ("Counted memories in " ++ category ++ ": " ++ str_nat n) ;;
  obj_count memories.

End Facade.

End Facade.
Export Facade.

(** * Properties *)

(** ** Dictionaries *)

Section DictFacts.

Context {V : Type}.
Implicit Types (d : dict V) (k : string) (v : V).

Lemma dict_get_set_same d k v : dict_get (dict_set d k v) k = Some v.
Proof.
  induction d as [|[k' v'] d IH]; simpl.
  - now rewrite String.eqb_refl.
  - destruct (String.eqb k' k) eqn:E; simpl; rewrite E; auto.
Qed.

Lemma dict_get_set_other d k k' v :
  k <> k' -> dict_get (dict_set d k v) k' = dict_get d k'.
Proof.
  intros Hne. induction d as [|[k0 v0] d IH]; simpl.
  - apply String.eqb_neq in Hne. now rewrite Hne.
  - destruct (String.eqb k0 k) eqn:E; simpl.
    + apply String.eqb_eq in E. subst k0.
      apply String.eqb_neq in Hne. now rewrite Hne.
    + destruct (String.eqb k0 k'); auto.
Qed.

Lemma dict_keys_set_length d k v :
  List.length (dict_set d k v) =
  if existsb (String.eqb k) (dict_keys d)
  then List.length d else S (List.length d).
Proof.
  induction d as [|[k' v'] d IH]; simpl; auto.
  rewrite (String.eqb_sym k k').
  destruct (String.eqb k' k); simpl; auto.
  rewrite IH. destruct (existsb _ _); auto.
Qed.

End DictFacts.

(** ** How the state transformers act on what is observed of a state *)

Section StateFacts.

Implicit Types (st : state) (c name : string) (e : event).

Lemma rows_of_set_rows_same st c rows : rows_of (set_rows c rows st) c = rows.
Proof. unfold rows_of, set_rows; simpl. now rewrite dict_get_set_same. Qed.

Lemma rows_of_set_rows_other st c c' rows :
  c <> c' -> rows_of (set_rows c rows st) c' = rows_of st c'.
Proof.
  intros H. unfold rows_of, set_rows; simpl. now rewrite dict_get_set_other.
Qed.

Lemma rows_of_ensure st name c : rows_of (ensure name st) c = rows_of st c.
Proof.
  unfold ensure. destruct (dict_get (st_store st) name) eqn:E; auto.
  destruct (String.eqb_spec name c) as [->|Hne].
  - rewrite rows_of_set_rows_same. unfold rows_of. now rewrite E.
  - now apply rows_of_set_rows_other.
Qed.

Lemma rows_of_record st e c : rows_of (record e st) c = rows_of st c.
Proof. reflexivity. Qed.

Lemma rows_of_ticked st c : rows_of (ticked st) c = rows_of st c.
Proof. reflexivity. Qed.

Lemma rows_of_logged st t m c : rows_of (logged t m st) c = rows_of st c.
Proof. reflexivity. Qed.

Lemma rows_of_printed st l c : rows_of (printed l st) c = rows_of st c.
Proof. reflexivity. Qed.

Lemma st_trace_set_rows st c rows :
  st_trace (set_rows c rows st) = st_trace st.
Proof. reflexivity. Qed.

Lemma st_trace_ensure st name : st_trace (ensure name st) = st_trace st.
Proof. unfold ensure. now destruct (dict_get _ _). Qed.

Lemma st_trace_record st e : st_trace (record e st) = st_trace st ++ [e].
Proof. reflexivity. Qed.

Lemma st_trace_ticked st : st_trace (ticked st) = st_trace st.
Proof. reflexivity. Qed.

Lemma st_trace_logged st t m : st_trace (logged t m st) = st_trace st.
Proof. reflexivity. Qed.

Lemma st_trace_printed st l : st_trace (printed l st) = st_trace st.
Proof. reflexivity. Qed.

Lemma st_ticks_set_rows st c rows :
  st_ticks (set_rows c rows st) = st_ticks st.
Proof. reflexivity. Qed.

Lemma st_ticks_ensure st name : st_ticks (ensure name st) = st_ticks st.
Proof. unfold ensure. now destruct (dict_get _ _). Qed.

Lemma st_ticks_record st e : st_ticks (record e st) = st_ticks st.
Proof. reflexivity. Qed.

Lemma st_ticks_ticked st : st_ticks (ticked st) = S (st_ticks st).
Proof. reflexivity. Qed.

Lemma st_ticks_logged st t m : st_ticks (logged t m st) = st_ticks st.
Proof. reflexivity. Qed.

Lemma st_ticks_printed st l : st_ticks (printed l st) = st_ticks st.
Proof. reflexivity. Qed.

Lemma st_log_set_rows st c rows : st_log (set_rows c rows st) = st_log st.
Proof. reflexivity. Qed.

Lemma st_log_ensure st name : st_log (ensure name st) = st_log st.
Proof. unfold ensure. now destruct (dict_get _ _). Qed.

Lemma st_log_record st e : st_log (record e st) = st_log st.
Proof. reflexivity. Qed.

Lemma st_log_ticked st : st_log (ticked st) = st_log st.
Proof. reflexivity. Qed.

Lemma st_log_logged st t m :
  st_log (logged t m st) = st_log st ++ [mkLog t m].
Proof. reflexivity. Qed.

Lemma st_log_printed st l : st_log (printed l st) = st_log st.
Proof. reflexivity. Qed.

End StateFacts.

Create Rewrite HintDb observe.

#[global] Hint Rewrite
  rows_of_set_rows_same rows_of_ensure rows_of_record rows_of_ticked
  rows_of_logged rows_of_printed
  st_trace_set_rows st_trace_ensure st_trace_record st_trace_ticked
  st_trace_logged st_trace_printed
  st_ticks_set_rows st_ticks_ensure st_ticks_record st_ticks_ticked
  st_ticks_logged st_ticks_printed
  st_log_set_rows st_log_ensure st_log_record st_log_ticked st_log_logged
  st_log_printed : observe.

#[global] Arguments Nat.min : simpl nomatch.
#[global] Arguments String.append : simpl never.
#[global] Arguments select_get : simpl never.
#[global] Arguments select_query : simpl never.
#[global] Arguments query_rows : simpl never.
#[global] Arguments columns_of : simpl never.
#[global] Arguments delete_rows : simpl never.
#[global] Arguments upsert_rows : simpl never.
#[global] Arguments update_rows : simpl never.
#[global] Arguments zfill : simpl never.
#[global] Arguments str_nat : simpl never.
#[global] Arguments rows_of : simpl never.
#[global] Arguments set_rows : simpl never.
#[global] Arguments record : simpl never.
#[global] Arguments ticked : simpl never.
#[global] Arguments logged : simpl never.
#[global] Arguments printed : simpl never.
#[global] Arguments ensure : simpl never.

(** Unfolds the monad and the backend calls, leaving the state as a stack of
    transformers over the initial one. *)
Ltac run :=
  unfold bind, ret, raise, lift, check_client_initialized, debug_log, print,
    get_or_create_collection, coll_count, coll_get, coll_update, coll_delete,
    coll_upsert, coll_query, now, obj_count; simpl.

(** ** The filter handed to the backend *)

Section WhereFacts.

(** A filter with more than one key becomes the conjunction of one
    equality clause per key, in the order of the keys. *)
Lemma where_filter_many (fm : dict pyval) :
  1 < List.length fm ->
  where_filter (Some fm) false = Some [("$and", VList (map eq_clause fm))].
Proof.
  intros H. unfold where_filter, dict_keys. rewrite length_map.
  apply Nat.ltb_lt in H. now rewrite H.
Qed.

Lemma wf_eq_clause (kv : string * pyval) :
  is_scalar (snd kv) = true -> String.eqb (fst kv) "$and" = false ->
  wf_where (eq_clause kv) = true.
Proof.
  intros Hs Hk. unfold eq_clause. simpl. now rewrite Hk, Hs.
Qed.

(** Without [unique], that conjunction is an expression of the filter
    language. *)
Lemma where_filter_many_wf (fm : dict pyval) :
  1 < List.length fm ->
  Forall (fun kv => is_scalar (snd kv) = true
                    /\ String.eqb (fst kv) "$and" = false) fm ->
  exists w, where_filter (Some fm) false = Some w
            /\ wf_where (VDict w) = true.
Proof.
  intros Hlen Hall. rewrite where_filter_many by assumption.
  eexists; split; [reflexivity|]. simpl.
  apply forallb_forall. intros w Hin.
  apply in_map_iff in Hin. destruct Hin as [kv [<- Hkv]].
  rewrite Forall_forall in Hall. destruct (Hall kv Hkv).
  now apply wf_eq_clause.
Qed.

(** With [unique], a second top-level entry is written next to ["$and"]. *)
Lemma where_filter_many_unique (fm : dict pyval) :
  1 < List.length fm ->
  where_filter (Some fm) true =
  Some [("$and", VList (map eq_clause fm)); ("unique", VStr "True")].
Proof.
  intros H. unfold where_filter, dict_keys. rewrite length_map.
  apply Nat.ltb_lt in H. now rewrite H.
Qed.

Lemma where_filter_none_unique :
  where_filter None true = Some [("unique", VStr "True")].
Proof. reflexivity. Qed.

End WhereFacts.


(** ** Printing and the metadata loop *)

Section PrintFacts.

Lemma printed_nil st : printed [] st = st.
Proof. destruct st. unfold printed; simpl. now rewrite app_nil_r. Qed.

Lemma printed_app l1 l2 st : printed l2 (printed l1 st) = printed (l1 ++ l2) st.
Proof. unfold printed; simpl. now rewrite app_assoc. Qed.

(** The metadata after the loop and the warnings it prints. *)
Definition stringified (items : dict pyval) : dict pyval :=
  map (fun kv => (fst kv, stringify_value (snd kv))) items.

Definition boolean_warnings (items : dict pyval) : list string :=
  flat_map (fun kv =>
              match snd kv with
              | VBool _ => [("WARNING: Boolean metadata field " ++ fst kv
                               ++ " converted to string")%string]
              | _ => []
              end) items.

Lemma stringify_booleans_run items st :
  stringify_booleans items st =
  (Ok (stringified items), printed (boolean_warnings items) st).
Proof.
  revert st. induction items as [|[k v] items IH]; intros st; simpl.
  - unfold ret. now rewrite printed_nil.
  - unfold bind at 1.
    destruct v; simpl; unfold bind, ret, print; rewrite IH;
      try rewrite printed_app; simpl; try reflexivity.
Qed.

Lemma dict_get_stringified items k :
  dict_get (stringified items) k = option_map stringify_value (dict_get items k).
Proof.
  induction items as [|[k' v] items IH]; simpl; auto.
  destruct (String.eqb k' k); auto.
Qed.

End PrintFacts.

(** ** [update_memory] *)

Section UpdateFacts.

Variable clock : nat -> Q.

(** With neither text nor metadata the call is refused before the backend is
    asked to change anything. *)
Lemma update_memory_no_arguments (category id : string) (st : state) :
  update_memory clock category id None None st =
  (Raise (Exception "No text or metadata provided"),
   ensure category (record (EvGetOrCreateCollection category) st)).
Proof. reflexivity. Qed.

Lemma update_memory_no_arguments_rows (category id c : string) (st : state) :
  rows_of (snd (update_memory clock category id None None st)) c = rows_of st c.
Proof.
  rewrite update_memory_no_arguments. simpl. now autorewrite with observe.
Qed.

(** With metadata the call goes through: the metadata, booleans turned into
    strings and stamped with [updated_at], is handed to the backend's
    [update] under the id given. *)
Lemma update_memory_with_metadata (category id : string)
    (text : option string) (md : dict pyval) (st : state) :
  let st1 :=
    ticked (printed (boolean_warnings md)
              (ensure category
                 (record (EvGetOrCreateCollection category) st))) in
  let md1 := dict_set (stringified md) "updated_at" (VNum (clock (st_ticks st))) in
  let documents := match text with Some t => Some [t] | None => None end in
  update_memory clock category id text (Some md) st =
  (Ok tt,
   logged "info" ("Updated memory " ++ id ++ " in category " ++ category)
     (set_rows category
        (update_rows [id] documents (Some [md1]) (rows_of st1 category))
        (record (EvUpdate category [id] documents (Some [md1])) st1))).
Proof.
  unfold update_memory. run.
  destruct text; run; rewrite stringify_booleans_run; run;
    autorewrite with observe; reflexivity.
Qed.

(** A text without metadata: the time stamp is written into the metadata
    outside the test for its presence. *)
Lemma update_memory_text_only (category id text : string) (st : state) :
  update_memory clock category id (Some text) None st =
  (Raise (TypeError "'NoneType' object does not support item assignment"),
   ticked (ensure category (record (EvGetOrCreateCollection category) st))).
Proof. reflexivity. Qed.

(** C1 (as the code behaves): a call of [update_memory] with a text and
    without metadata does not succeed.  The time stamp is written into the
    metadata outside the test for its presence, so the call raises
    [TypeError] after reading the clock, before the backend's [update] is
    reached; every collection is left as it was and no [update] is issued. *)
Theorem update_memory_text_only_raises (category id text : string)
    (st : state) :
  fst (update_memory clock category id (Some text) None st)
  = Raise (TypeError "'NoneType' object does not support item assignment")
  /\ (forall c,
        rows_of (snd (update_memory clock category id (Some text) None st)) c
        = rows_of st c)
  /\ st_trace (snd (update_memory clock category id (Some text) None st))
     = st_trace st ++ [EvGetOrCreateCollection category].
Proof.
  rewrite update_memory_text_only. simpl. split; [reflexivity|].
  split; intros; now autorewrite with observe.
Qed.

End UpdateFacts.

(** ** [count_memories] *)

Section CountFacts.

Lemma count_memories_all (category : string) (st : state) :
  fst (count_memories category false st)
  = Ok (List.length (rows_of st category)).
Proof.
  unfold count_memories. run. now autorewrite with observe.
Qed.

(** C4 (as the code behaves): with [unique] set, [memories] is rebound to the
    response of the backend's [get] for [unique = "True"], a dictionary, and
    the call of its [count] raises [AttributeError] whatever the collection
    holds: no number is returned.  The fetch has been made and every
    collection is as before.  Without [unique] the number of records of the
    collection is returned. *)
Theorem count_memories_unique_raises (category : string) (st : state) :
  fst (count_memories category true st)
  = Raise (AttributeError "'dict' object has no attribute 'count'")
  /\ st_trace (snd (count_memories category true st))
     = st_trace st
         ++ [EvGetOrCreateCollection category;
             EvGet category None (Some [("unique", VStr "True")]) None None]
  /\ (forall c, rows_of (snd (count_memories category true st)) c
                = rows_of st c)
  /\ fst (count_memories category false st)
     = Ok (List.length (rows_of st category)).
Proof.
  split; [reflexivity|]. split; [|split].
  - unfold count_memories. run. autorewrite with observe.
    now rewrite <- app_assoc.
  - intros c. unfold count_memories. run. now autorewrite with observe.
  - apply count_memories_all.
Qed.

End CountFacts.

(** ** From the backend's columns to the list of records *)

Section ListFacts.

Lemma filter_all {A} (f : A -> bool) (l : list A) :
  (forall x, In x l -> f x = true) -> filter f l = l.
Proof.
  induction l as [|x l IH]; simpl; intros H; auto.
  rewrite (H x) by auto. f_equal. apply IH. intros; apply H; auto.
Qed.

Lemma rows_to_list_map (e : option (row -> embedding)) (d : option (row -> Q))
    (rows : list row) :
  rows_to_list (map row_id rows) (map row_document rows)
    (map row_metadata rows)
    (option_map (fun f => map f rows) e) (option_map (fun f => map f rows) d)
  = map (fun r => mkMemory (row_id r) (row_document r) (row_metadata r)
                    (option_map (fun f => f r) e) (option_map (fun f => f r) d))
      rows.
Proof.
  induction rows as [|r rows IH]; simpl; auto.
  f_equal.
  - destruct e, d; reflexivity.
  - rewrite <- IH. destruct e, d; reflexivity.
Qed.

(** The record [get] yields for a row. *)
Definition fetched (inc : list include_type) (r : row) : memory :=
  mkMemory (row_id r) (row_document r) (row_metadata r)
    (if includes inc IncEmbeddings then Some (row_embedding r) else None) None.

Lemma chroma_collection_to_list_columns_of inc rows :
  chroma_collection_to_list (columns_of inc rows) = map (fetched inc) rows.
Proof.
  unfold chroma_collection_to_list, columns_of, fetched; simpl.
  destruct (includes inc IncEmbeddings).
  - apply (rows_to_list_map (Some row_embedding) None).
  - apply (rows_to_list_map None None).
Qed.

End ListFacts.

(** ** [search_memory] *)

Section SearchFacts.

Variable embed : string -> embedding.
Variable distance : embedding -> embedding -> Q.

(** The record [query] yields for a row. *)
Definition hit (inc : list include_type) (q : string) (r : row) : memory :=
  mkMemory (row_id r) (row_document r) (row_metadata r)
    (if includes inc IncEmbeddings then Some (row_embedding r) else None)
    (if includes inc IncDistances then Some (dist_to embed distance q r)
     else None).

Lemma query_to_list q where_ wd n inc rows :
  chroma_collection_to_list
    (flatten_arrays (query_rows embed distance [q] where_ wd n inc rows))
  = map (hit inc q) (select_query embed distance q where_ wd n rows).
Proof.
  unfold chroma_collection_to_list, flatten_arrays, query_rows, hit; simpl.
  rewrite !app_nil_r.
  destruct (includes inc IncEmbeddings), (includes inc IncDistances); simpl;
    rewrite ?app_nil_r.
  - apply (rows_to_list_map (Some row_embedding)
             (Some (dist_to embed distance q))).
  - apply (rows_to_list_map (Some row_embedding) None).
  - apply (rows_to_list_map None (Some (dist_to embed distance q))).
  - apply (rows_to_list_map None None).
Qed.

(** On a category without records the search answers at once: the backend
    is asked for the collection and its size, and for nothing else. *)
Lemma search_memory_empty category search_text n_results filter_metadata
    contains_text include_embeddings include_distances max_distance
    min_distance unique st :
  rows_of st category = [] ->
  search_memory embed distance category search_text n_results filter_metadata
    contains_text include_embeddings include_distances max_distance
    min_distance unique st
  = (Ok [],
     record (EvCount category)
       (ensure category (record (EvGetOrCreateCollection category) st))).
Proof.
  intros H. unfold search_memory. run. autorewrite with observe.
  now rewrite H.
Qed.

(** The number of results asked of the backend is zero only when the
    caller asks for none or the category is empty. *)
Lemma min_eqb_0 (n count : nat) :
  n <> 0 -> count <> 0 -> (Nat.min n count =? 0)%nat = false.
Proof. intros Hn Hc. apply Nat.eqb_neq. lia. Qed.

(** The state a search leaves when it reaches the query. *)
Definition searched (category search_text : string) (n_results : nat)
    (where_ where_document : option (dict pyval)) (st : state) : state :=
  record (EvQuery category [search_text] where_ where_document
            (Nat.min n_results (List.length (rows_of st category))))
    (record (EvCount category)
       (record (EvCount category)
          (ensure category (record (EvGetOrCreateCollection category) st)))).

(** With every argument at its default the search is the backend's query
    for the five nearest rows. *)
Lemma search_memory_defaults_run category content st :
  rows_of st category <> [] ->
  search_memory_defaults embed distance category content st
  = (Ok (map (hit (get_include_types true true) content)
           (select_query embed distance content None None
              (Nat.min 5 (List.length (rows_of st category)))
              (rows_of st category))),
     logged "info" ("Searched memory: " ++ content)
       (searched category content 5 None None st)).
Proof.
  intros H. unfold search_memory_defaults, search_memory, searched. run.
  autorewrite with observe.
  destruct (Nat.eqb_spec (List.length (rows_of st category)) 0) as [E|E].
  - apply length_zero_iff_nil in E. contradiction.
  - autorewrite with observe.
    rewrite (min_eqb_0 5) by (assumption || discriminate).
    rewrite query_to_list. now autorewrite with observe.
Qed.

End SearchFacts.

(** ** Rows of a collection *)

Section RowFacts.

Implicit Types (rows : list row) (id : string) (ids : list string).

Lemma has_id_one id r : has_id [id] r = String.eqb (row_id r) id.
Proof. unfold has_id; simpl. apply orb_false_r. Qed.

Lemma id_exists_In id rows :
  id_exists id rows = true <-> In id (map row_id rows).
Proof.
  unfold id_exists. rewrite existsb_exists, in_map_iff.
  split; intros [r [H1 H2]]; exists r.
  - apply String.eqb_eq in H2. auto.
  - rewrite String.eqb_eq. auto.
Qed.

Lemma id_exists_false id rows :
  id_exists id rows = false <-> ~ In id (map row_id rows).
Proof.
  rewrite <- id_exists_In. destruct (id_exists id rows); split; intros;
    congruence.
Qed.

Lemma delete_rows_cons id ids rows :
  delete_rows (id :: ids) rows = delete_rows ids (delete_rows [id] rows).
Proof.
  unfold delete_rows, has_id.
  induction rows as [|r rows IH]; simpl in *; auto.
  rewrite orb_false_r.
  destruct (String.eqb (row_id r) id) eqn:E; simpl; auto.
  destruct (existsb (String.eqb (row_id r)) ids); simpl; rewrite IH; auto.
Qed.

Lemma delete_rows_nil rows : delete_rows [] rows = rows.
Proof. unfold delete_rows. now apply filter_all. Qed.

Lemma delete_rows_missing id rows :
  id_exists id rows = false -> delete_rows [id] rows = rows.
Proof.
  intros H. unfold delete_rows. apply filter_all. intros r Hr.
  rewrite has_id_one. destruct (String.eqb_spec (row_id r) id); auto.
  apply id_exists_false in H. exfalso. apply H. subst id. now apply in_map.
Qed.

Lemma In_delete_rows ids r rows :
  In r (delete_rows ids rows) <-> In r rows /\ ~ In (row_id r) ids.
Proof.
  unfold delete_rows. rewrite filter_In. unfold has_id.
  split; intros [H1 H2]; split; auto.
  - intros Hin. apply negb_true_iff in H2.
    assert (existsb (String.eqb (row_id r)) ids = true); [|congruence].
    apply existsb_exists. exists (row_id r). split; auto.
    apply String.eqb_refl.
  - apply negb_true_iff. destruct (existsb _ ids) eqn:E; auto.
    apply existsb_exists in E. destruct E as [x [Hx Hx']].
    apply String.eqb_eq in Hx'. subst x. contradiction.
Qed.

Lemma id_exists_delete_rows id rows :
  id_exists id (delete_rows [id] rows) = false.
Proof.
  apply id_exists_false. rewrite in_map_iff. intros [r [H1 H2]].
  apply In_delete_rows in H2. destruct H2 as [_ H2]. apply H2. simpl. auto.
Qed.

(** Selecting rows keeps their ids distinct. *)
Lemma NoDup_ids_filter (keep : row -> bool) rows :
  NoDup (map row_id rows) -> NoDup (map row_id (filter keep rows)).
Proof.
  intros Hnd. induction rows as [|r rows IH]; simpl in *; [constructor|].
  inversion Hnd as [|? ? Hr Hrows]; subst.
  destruct (keep r); simpl; [|now apply IH].
  constructor; [|now apply IH].
  rewrite in_map_iff. intros [r' [E Hr']]. apply filter_In in Hr'.
  apply Hr. rewrite <- E. apply in_map. tauto.
Qed.


Lemma NoDup_delete_rows ids rows :
  NoDup (map row_id rows) -> NoDup (map row_id (delete_rows ids rows)).
Proof. apply NoDup_ids_filter. Qed.



Lemma upsert_row_ids_same rows (new : row) :
  id_exists (row_id new) rows = true ->
  map row_id (upsert_row rows new) = map row_id rows.
Proof.
  intros E. unfold upsert_row. rewrite E, map_map. apply map_ext.
  intros r. destruct (String.eqb_spec (row_id r) (row_id new)); auto.
Qed.

(** The backend's writes keep the ids of a collection distinct. *)
Lemma NoDup_upsert_row rows (new : row) :
  NoDup (map row_id rows) -> NoDup (map row_id (upsert_row rows new)).
Proof.
  intros Hnd. destruct (id_exists (row_id new) rows) eqn:E.
  - now rewrite upsert_row_ids_same.
  - unfold upsert_row. rewrite E, map_app. simpl.
    apply NoDup_app; auto.
    + repeat constructor. simpl. tauto.
    + intros id Hin [<-|[]]. apply id_exists_false in E. contradiction.
Qed.

(** *** The row an upsert stores *)

Lemma dict_get_entries (a b : dict pyval) k :
  dict_get (a ++ b) k
  = match dict_get a k with
    | Some v => Some v
    | None => dict_get b k
    end.
Proof.
  induction a as [|[k' v] a IH]; simpl; auto.
  now destruct (String.eqb k' k).
Qed.

(** A lookup in the metadata written over finds the new value when there is
    one and the stored value otherwise. *)
Lemma dict_get_written_over (old new : dict pyval) k :
  dict_get (written_over old new) k
  = match dict_get new k with
    | Some v => Some v
    | None => dict_get old k
    end.
Proof.
  unfold written_over. rewrite dict_get_entries.
  assert (Hold : dict_get
                   (map (fun kv =>
                           (fst kv,
                            match dict_get new (fst kv) with
                            | Some v => v
                            | None => snd kv
                            end)) old) k
                 = match dict_get old k with
                   | Some v0 => Some match dict_get new k with
                                     | Some v => v
                                     | None => v0
                                     end
                   | None => None
                   end).
  { induction old as [|[k' v'] old IH]; simpl; auto.
    destruct (String.eqb_spec k' k) as [->|Hne]; auto. }
  rewrite Hold. clear Hold. destruct (dict_get old k) as [v0|] eqn:E.
  - now destruct (dict_get new k).
  - induction new as [|[k' v'] new IH]; simpl; auto.
    destruct (String.eqb_spec k' k) as [->|Hne].
    + rewrite E. simpl. now rewrite String.eqb_refl.
    + destruct (dict_get old k'); simpl; auto.
      apply String.eqb_neq in Hne. now rewrite Hne.
Qed.

(** The row stored under the id of [r] once [r] is upserted. *)
Definition upserted (rows : list row) (r : row) : row :=
  match find (fun r' => String.eqb (row_id r') (row_id r)) rows with
  | Some old => overwritten old r
  | None => r
  end.

Lemma find_id_exists id rows :
  id_exists id rows = false ->
  find (fun r => String.eqb (row_id r) id) rows = None.
Proof.
  unfold id_exists. induction rows as [|r rows IH]; simpl; auto.
  destruct (String.eqb (row_id r) id); simpl; [discriminate|auto].
Qed.

Lemma upserted_fresh rows (r : row) :
  id_exists (row_id r) rows = false -> upserted rows r = r.
Proof. intros E. unfold upserted. now rewrite find_id_exists. Qed.

Lemma upserted_id rows (r : row) : row_id (upserted rows r) = row_id r.
Proof.
  unfold upserted.
  destruct (find _ rows) as [old|] eqn:E; auto.
  apply find_some in E. destruct E as [_ E]. now apply String.eqb_eq in E.
Qed.

Lemma upserted_document rows (r : row) :
  row_document (upserted rows r) = row_document r.
Proof. unfold upserted. now destruct (find _ rows). Qed.

Lemma upserted_embedding rows (r : row) :
  row_embedding (upserted rows r) = row_embedding r.
Proof. unfold upserted. now destruct (find _ rows). Qed.

(** What is written is read back; a key that is not written keeps the value
    it had in the row of that id, if there was one. *)
Lemma upserted_metadata rows (r : row) k :
  dict_get (row_metadata (upserted rows r)) k
  = match dict_get (row_metadata r) k with
    | Some v => Some v
    | None =>
        match find (fun r' => String.eqb (row_id r') (row_id r)) rows with
        | Some old => dict_get (row_metadata old) k
        | None => None
        end
    end.
Proof.
  unfold upserted. destruct (find _ rows) as [old|]; simpl.
  - apply dict_get_written_over.
  - now destruct (dict_get (row_metadata r) k).
Qed.

Lemma upserted_metadata_written rows (r : row) k v :
  dict_get (row_metadata r) k = Some v ->
  dict_get (row_metadata (upserted rows r)) k = Some v.
Proof. intros H. now rewrite upserted_metadata, H. Qed.

Lemma In_upserted rows (r : row) : In (upserted rows r) (upsert_row rows r).
Proof.
  unfold upserted, upsert_row.
  destruct (id_exists (row_id r) rows) eqn:E.
  - unfold id_exists in E.
    induction rows as [|r' rows IH]; simpl in *; [discriminate|].
    destruct (String.eqb (row_id r') (row_id r)); simpl; auto.
  - rewrite find_id_exists by assumption. apply in_or_app. simpl. auto.
Qed.

End RowFacts.

(** ** [memory_exists] and [delete_memory] *)

Section DeleteFacts.

Lemma existsb_firstn_filter {A} (f : A -> bool) (l : list A) :
  (0 <? List.length (firstn 1 (filter f l)))%nat = existsb f l.
Proof.
  induction l as [|x l IH]; simpl; auto.
  destruct (f x); simpl; auto.
Qed.

Lemma existsb_eq {A} (f g : A -> bool) (l : list A) :
  (forall x, f x = g x) -> existsb f l = existsb g l.
Proof. intros H. induction l; simpl; auto. now rewrite H, IHl. Qed.

(** The state after the lookup of [memory_exists]. *)
Definition looked_up (category id : string) (st : state) : state :=
  logged "info"
    ("Checking if memory " ++ id ++ " exists in category " ++ category
       ++ ". Exists: " ++ str_bool (id_exists id (rows_of st category)))
    (record (EvGet category (Some [id]) None None (Some 1))
       (ensure category (record (EvGetOrCreateCollection category) st))).

Lemma memory_exists_run category id st :
  memory_exists category id None st
  = (Ok (id_exists id (rows_of st category)), looked_up category id st).
Proof.
  unfold memory_exists, looked_up. run. autorewrite with observe.
  unfold columns_of, select_get; simpl col_ids.
  rewrite length_map, existsb_firstn_filter.
  rewrite (existsb_eq _ (fun r => String.eqb (row_id r) id)).
  - reflexivity.
  - intros r. rewrite has_id_one. unfold row_matches. simpl.
    apply andb_true_r.
Qed.

Lemma rows_of_looked_up category id st c :
  rows_of (looked_up category id st) c = rows_of st c.
Proof. unfold looked_up. now autorewrite with observe. Qed.

Definition delete_warning (category id : string) : log_entry :=
  mkLog "warning"
    ("WARNING: Tried could not delete memory " ++ id ++ " in category "
       ++ category).

Lemma delete_memory_run category id st :
  let st1 :=
    looked_up category id
      (ensure category (record (EvGetOrCreateCollection category) st)) in
  delete_memory category id st
  = (Ok tt,
     if id_exists id (rows_of st category) then
       logged "info" ("Deleted memory " ++ id ++ " in category " ++ category)
         (set_rows category (delete_rows [id] (rows_of st category))
            (record (EvDelete category [id]) st1))
     else
       logged "warning" (log_message (delete_warning category id)) st1).
Proof.
  unfold delete_memory. unfold bind at 1. unfold check_client_initialized, ret.
  unfold bind at 1. unfold get_or_create_collection.
  unfold bind at 1. rewrite memory_exists_run. autorewrite with observe.
  destruct (id_exists id (rows_of st category)); simpl; run.
  - now rewrite rows_of_looked_up; autorewrite with observe.
  - reflexivity.
Qed.

(** In either case the rows left are those whose id is not the one given. *)
Lemma delete_memory_rows category id st c :
  rows_of (snd (delete_memory category id st)) c
  = if String.eqb category c then delete_rows [id] (rows_of st c)
    else rows_of st c.
Proof.
  rewrite delete_memory_run. simpl.
  destruct (String.eqb_spec category c) as [->|Hne].
  - destruct (id_exists id (rows_of st c)) eqn:E.
    + now autorewrite with observe.
    + autorewrite with observe. rewrite rows_of_looked_up.
      autorewrite with observe. now rewrite delete_rows_missing.
  - destruct (id_exists id (rows_of st category)).
    + autorewrite with observe. rewrite rows_of_set_rows_other by auto.
      autorewrite with observe. rewrite rows_of_looked_up.
      now autorewrite with observe.
    + autorewrite with observe. rewrite rows_of_looked_up.
      now autorewrite with observe.
Qed.

Lemma delete_memory_ok category id st :
  fst (delete_memory category id st) = Ok tt.
Proof. now rewrite delete_memory_run. Qed.

(** C9: [delete_memory] returns normally whether or not the id exists.  On an
    id that does not exist every collection, and so the record count of the
    category, is left as it was, the backend receives no [delete] (only the
    two collection handles are fetched and the existence lookup is made), and
    the log receives the note of the lookup followed by the warning.  On an
    id that exists the backend's [delete] is called and exactly the record of
    that id is gone afterwards. *)
Theorem delete_memory_missing_or_present (category id : string) (st : state) :
  let st' := snd (delete_memory category id st) in
  fst (delete_memory category id st) = Ok tt
  /\ (id_exists id (rows_of st category) = false ->
        (forall c, rows_of st' c = rows_of st c)
        /\ List.length (rows_of st' category)
           = List.length (rows_of st category)
        /\ st_log st'
           = st_log st
               ++ [mkLog "info"
                     ("Checking if memory " ++ id ++ " exists in category "
                        ++ category ++ ". Exists: False");
                   delete_warning category id]
        /\ st_trace st'
           = st_trace st
               ++ [EvGetOrCreateCollection category;
                   EvGetOrCreateCollection category;
                   EvGet category (Some [id]) None None (Some 1)])
  /\ (id_exists id (rows_of st category) = true ->
        (forall r, In r (rows_of st' category)
                   <-> In r (rows_of st category) /\ row_id r <> id)
        /\ id_exists id (rows_of st' category) = false
        /\ (forall c, c <> category -> rows_of st' c = rows_of st c)
        /\ In (EvDelete category [id]) (st_trace st')).
Proof.
  intros st'. split; [apply delete_memory_ok|]. split; intros E.
  - assert (Hrows : forall c, rows_of st' c = rows_of st c).
    { intros c. unfold st'. rewrite delete_memory_rows.
      destruct (String.eqb_spec category c) as [->|]; auto.
      now apply delete_rows_missing. }
    split; [exact Hrows|]. split; [now rewrite Hrows|].
    unfold st'. rewrite delete_memory_run. simpl. rewrite E.
    unfold looked_up. autorewrite with observe. rewrite E.
    simpl. rewrite <- !app_assoc. auto.
  - assert (Hrows : rows_of st' category
                    = delete_rows [id] (rows_of st category)).
    { unfold st'. rewrite delete_memory_rows. now rewrite String.eqb_refl. }
    split; [|split; [|split]].
    + intros r. rewrite Hrows, In_delete_rows. simpl. intuition.
    + rewrite Hrows. apply id_exists_delete_rows.
    + intros c Hc. unfold st'. rewrite delete_memory_rows.
      destruct (String.eqb_spec category c); congruence.
    + unfold st'. rewrite delete_memory_run. simpl. rewrite E.
      autorewrite with observe. apply in_or_app. right. simpl. auto.
Qed.

End DeleteFacts.

(** ** [delete_similar_memories] *)

Section DeleteSimilarFacts.

Variable embed : string -> embedding.
Variable distance : embedding -> embedding -> Q.

(** The longest prefix whose members all satisfy [p]. *)
Fixpoint take_while {A} (p : A -> bool) (l : list A) : list A :=
  match l with
  | [] => []
  | x :: l' => if p x then x :: take_while p l' else []
  end.



Lemma take_while_map {A B} (f : A -> B) (p : B -> bool) (l : list A) :
  take_while p (map f l) = map f (take_while (fun x => p (f x)) l).
Proof.
  induction l as [|x l IH]; simpl; auto.
  destruct (p (f x)); simpl; now rewrite ?IH.
Qed.

(** [1 - distance > similarity_threshold] for a search result. *)
Definition similar (similarity_threshold : Q) (m : memory) : bool :=
  match mem_distance m with
  | Some d => Qlt_bool similarity_threshold (1 - d)%Q
  | None => false
  end.

Lemma Qlt_bool_iff (x y : Q) : Qlt_bool x y = true <-> (x < y)%Q.
Proof.
  unfold Qlt_bool. rewrite negb_true_iff.
  split; intros H.
  - apply Qnot_le_lt. intros Hle. apply Qle_bool_iff in Hle. congruence.
  - destruct (Qle_bool y x) eqn:E; auto.
    apply Qle_bool_iff in E. exfalso. now apply (Qlt_not_le x y).
Qed.


(** The loop collects the ids of that prefix when every result carries its
    distance. *)
Lemma similar_ids_take_while thr (l : list memory) :
  Forall (fun m => mem_distance m <> None) l ->
  similar_ids thr l = Ok (map mem_id (take_while (similar thr) l)).
Proof.
  induction 1 as [|m l Hm Hl IH]; simpl; auto.
  unfold similar at 1. destruct (mem_distance m) as [d|]; [|congruence].
  destruct (Qlt_bool thr (1 - d)); auto. now rewrite IH.
Qed.

Lemma hits_have_distance q (rows : list row) :
  Forall (fun m => mem_distance m <> None)
    (map (hit embed distance (get_include_types true true) q) rows).
Proof.
  apply Forall_forall. intros m Hm. apply in_map_iff in Hm.
  destruct Hm as [r [<- _]]. simpl. discriminate.
Qed.

(** Deleting the collected ids one by one. *)
Lemma for_each_delete_memory category ids st :
  exists st',
    for_each ids (fun memory => delete_memory category memory) st = (Ok tt, st')
    /\ forall c, rows_of st' c
                 = if String.eqb category c then delete_rows ids (rows_of st c)
                   else rows_of st c.
Proof.
  revert st. induction ids as [|id ids IH]; intros st; simpl.
  - exists st. split; auto. intros c. rewrite delete_rows_nil.
    now destruct (String.eqb category c).
  - unfold bind at 1.
    pose proof (delete_memory_ok category id st) as Hok.
    pose proof (delete_memory_rows category id st) as Hrows.
    destruct (delete_memory category id st) as [res st1]. simpl in *.
    subst res. destruct (IH st1) as [st' [Hrun Hst']].
    exists st'. split; auto. intros c. rewrite Hst', Hrows.
    destruct (String.eqb category c); auto.
    symmetry. apply delete_rows_cons.
Qed.

(** What [search_memory(category, content)] returns: the records of the
    (at most five) nearest rows, nearest first. *)
Definition search_hits (category content : string) (st : state)
    : list memory :=
  map (hit embed distance (get_include_types true true) content)
    (select_query embed distance content None None
       (Nat.min 5 (List.length (rows_of st category))) (rows_of st category)).

Lemma search_memory_defaults_spec category content st :
  exists st1,
    search_memory_defaults embed distance category content st
    = (Ok (search_hits category content st), st1)
    /\ forall c, rows_of st1 c = rows_of st c.
Proof.
  destruct (rows_of st category) as [|r rows] eqn:E.
  - eexists. split.
    + unfold search_memory_defaults. rewrite search_memory_empty by auto.
      unfold search_hits. rewrite E. reflexivity.
    + intros c. now autorewrite with observe.
  - eexists. split.
    + rewrite search_memory_defaults_run by congruence.
      unfold search_hits. reflexivity.
    + intros c. unfold searched. now autorewrite with observe.
Qed.


(** The ids [delete_similar_memories] hands to [delete_memory]. *)
Definition similar_prefix (category content : string)
    (similarity_threshold : Q) (st : state) : list memory :=
  take_while (similar similarity_threshold) (search_hits category content st).

Lemma delete_similar_memories_run category content thr st :
  exists st',
    delete_similar_memories embed distance category content thr st
    = (Ok (0 <? List.length (similar_prefix category content thr st))%nat, st')
    /\ forall c,
         rows_of st' c
         = if String.eqb category c
           then delete_rows (map mem_id (similar_prefix category content thr st))
                  (rows_of st c)
           else rows_of st c.
Proof.
  destruct (search_memory_defaults_spec category content st)
    as [st1 [Hsearch Hrows1]].
  unfold delete_similar_memories. unfold bind at 1. rewrite Hsearch.
  assert (Hids : similar_ids thr (search_hits category content st)
                 = Ok (map mem_id (similar_prefix category content thr st))).
  { apply similar_ids_take_while. apply hits_have_distance. }
  assert (Hsel :
    (if (0 <? List.length (search_hits category content st))%nat
     then lift (similar_ids thr (search_hits category content st))
     else ret []) st1
    = (Ok (map mem_id (similar_prefix category content thr st)), st1)).
  { unfold similar_prefix in *.
    destruct (search_hits category content st); simpl in *; auto.
    unfold lift. now rewrite Hids. }
  unfold bind at 1. rewrite Hsel. rewrite length_map.
  destruct (map mem_id (similar_prefix category content thr st))
    as [|id ids] eqn:Eids.
  - assert (El : similar_prefix category content thr st = []).
    { destruct (similar_prefix category content thr st); auto. discriminate. }
    rewrite El. simpl. run. eexists. split; [reflexivity|].
    intros c. autorewrite with observe. rewrite Hrows1, delete_rows_nil.
    now destruct (String.eqb category c).
  - assert (Hlen : (0 <? List.length (similar_prefix category content thr st))%nat
                   = true).
    { destruct (similar_prefix category content thr st); [discriminate|auto]. }
    rewrite Hlen.
    change (0 <? List.length (id :: ids))%nat with true. cbv iota.
    unfold bind at 1. unfold bind at 1. unfold debug_log at 1.
    destruct (for_each_delete_memory category (id :: ids)
                (logged "info"
                   ("Deleting similar memories to " ++ content
                      ++ " in category " ++ category) st1))
      as [st2 [Hrun Hrows2]].
    rewrite Hrun. run. eexists. split; [reflexivity|].
    intros c. autorewrite with observe. rewrite Hrows2.
    autorewrite with observe. now rewrite Hrows1.
Qed.

End DeleteSimilarFacts.

(** ** The backend's query: nearest first *)

Section QueryFacts.

Variable embed : string -> embedding.
Variable distance : embedding -> embedding -> Q.

Local Abbreviation dist := (dist_to embed distance).
Local Abbreviation nearest := (nearest_first embed distance).

Definition nearer (q : string) (a b : row) : Prop := (dist q a <= dist q b)%Q.

Lemma insert_nearest_perm q r l :
  Permutation (insert_nearest embed distance q r l) (r :: l).
Proof.
  induction l as [|x l IH]; simpl; auto.
  destruct (Qle_bool (dist q r) (dist q x)); auto.
  rewrite IH. apply perm_swap.
Qed.

Lemma nearest_first_perm q l : Permutation (nearest q l) l.
Proof.
  induction l as [|x l IH]; simpl; auto.
  rewrite insert_nearest_perm. now constructor.
Qed.

Lemma insert_nearest_sorted q r l :
  StronglySorted (nearer q) l ->
  StronglySorted (nearer q) (insert_nearest embed distance q r l).
Proof.
  induction 1 as [|x l Hl IH Hx]; simpl.
  - repeat constructor.
  - destruct (Qle_bool (dist q r) (dist q x)) eqn:E.
    + apply Qle_bool_iff in E. constructor; [now constructor|].
      constructor; auto.
      eapply Forall_impl; [|exact Hx]. intros y Hy. unfold nearer in *.
      now apply Qle_trans with (dist q x).
    + constructor; auto.
      assert (Hxr : nearer q x r).
      { unfold nearer. destruct (Qlt_le_dec (dist q x) (dist q r)) as [H|H].
        - now apply Qlt_le_weak.
        - apply Qle_bool_iff in H. congruence. }
      eapply Permutation_Forall.
      * symmetry. apply insert_nearest_perm.
      * constructor; auto.
Qed.

(** The rows come back ordered by non-decreasing distance. *)
Lemma nearest_first_sorted q l : StronglySorted (nearer q) (nearest q l).
Proof.
  induction l as [|x l IH]; simpl; [constructor|].
  now apply insert_nearest_sorted.
Qed.

(** The first row of the answer is a nearest one. *)
Lemma nearest_first_head q l r rest :
  nearest q l = r :: rest -> forall x, In x l -> nearer q r x.
Proof.
  intros E x Hx.
  pose proof (nearest_first_sorted q l) as Hs. rewrite E in Hs.
  apply (Permutation_in _ (Permutation_sym (nearest_first_perm q l))) in Hx.
  rewrite E in Hx. destruct Hx as [<-|Hx].
  - unfold nearer. apply Qle_refl.
  - inversion Hs as [|? ? _ Hall]; subst.
    rewrite Forall_forall in Hall. auto.
Qed.

Lemma select_query_incl q where_ wd n rows r :
  In r (select_query embed distance q where_ wd n rows) ->
  In r rows /\ row_matches where_ wd r = true.
Proof.
  unfold select_query. intros H.
  assert (Hin : In r (nearest q (filter (row_matches where_ wd) rows))).
  { rewrite <- (firstn_skipn n (nearest q _)). apply in_or_app. auto. }
  apply (Permutation_in _ (nearest_first_perm q _)) in Hin.
  now apply filter_In in Hin.
Qed.


End QueryFacts.

(** ** What [delete_similar_memories] deletes *)

Section DeleteSimilarClaims.

Variable embed : string -> embedding.
Variable distance : embedding -> embedding -> Q.





End DeleteSimilarClaims.

(** ** A category without records *)

Section EmptyCategory.

Variable embed : string -> embedding.
Variable distance : embedding -> embedding -> Q.

Definition contains_clause (contains_text : option string)
    : option (dict pyval) :=
  match contains_text with
  | Some t => Some [("$contains", VStr t)]
  | None => None
  end.

(** [get_memories] has no early return: it always reaches the backend's
    [get]. *)
Lemma get_memories_run category sort_order contains_text filter_metadata
    n_results include_embeddings unique st :
  let where_ := where_filter filter_metadata unique in
  let wd := contains_clause contains_text in
  let st1 :=
    record (EvGet category None where_ wd None)
      (record (EvCount category)
         (ensure category (record (EvGetOrCreateCollection category) st))) in
  get_memories category sort_order contains_text filter_metadata n_results
    include_embeddings unique st
  = if valid_filters where_ wd then
      (Ok (firstn (Nat.min n_results (List.length (rows_of st category)))
             (sort_by_id (String.eqb sort_order "desc")
                (map (fetched (get_include_types include_embeddings false))
                   (select_get None where_ wd None (rows_of st category))))),
       logged "info" ("Got memories from category " ++ category) st1)
    else (Raise (ValueError "malformed filter"), st1).
Proof.
  unfold get_memories, contains_clause. run. autorewrite with observe.
  destruct contains_text;
    destruct (valid_filters (where_filter filter_metadata unique) _);
    try reflexivity;
    now rewrite chroma_collection_to_list_columns_of.
Qed.

(** C8 (as the code behaves): on a category without records [search_memory]
    returns the empty list after asking the backend only for the collection
    and its size, without a query; [get_memories] asks for the collection and
    its size and then does issue the backend's [get] with the filters built,
    and it never issues a query; it returns the empty list whenever the
    backend accepts those filters. *)
Theorem empty_category_search_and_get_memories (category : string)
    (st : state) :
  rows_of st category = [] ->
  (forall search_text n_results filter_metadata contains_text
          include_embeddings include_distances max_distance min_distance
          unique,
      exists st',
        search_memory embed distance category search_text n_results
          filter_metadata contains_text include_embeddings include_distances
          max_distance min_distance unique st = (Ok [], st')
        /\ st_trace st'
           = st_trace st
               ++ [EvGetOrCreateCollection category; EvCount category])
  /\ (forall sort_order contains_text filter_metadata n_results
             include_embeddings unique,
        exists res st',
          get_memories category sort_order contains_text filter_metadata
            n_results include_embeddings unique st = (res, st')
          /\ st_trace st'
             = st_trace st
                 ++ [EvGetOrCreateCollection category; EvCount category;
                     EvGet category None
                       (where_filter filter_metadata unique)
                       (contains_clause contains_text) None]
          /\ (valid_filters (where_filter filter_metadata unique)
                (contains_clause contains_text) = true -> res = Ok [])
          /\ (valid_filters (where_filter filter_metadata unique)
                (contains_clause contains_text) = false ->
              res = Raise (ValueError "malformed filter"))).
Proof.
  intros Hempty. split.
  - intros. eexists. split.
    + now apply search_memory_empty.
    + autorewrite with observe. now rewrite <- app_assoc.
  - intros. rewrite get_memories_run. cbv zeta.
    destruct (valid_filters _ _) eqn:E; eexists; eexists;
      (split; [reflexivity|]); autorewrite with observe;
      rewrite <- !app_assoc; simpl; (split; [reflexivity|]);
      split; intros; try discriminate; auto.
    rewrite Hempty. unfold select_get. simpl. now rewrite firstn_nil.
Qed.

End EmptyCategory.

(** ** [create_memory] and [get_memory] *)

Section CreateFacts.

Variable clock : nat -> Q.
Variable embed : string -> embedding.

(** The id given to a record created without one. *)
Definition auto_id (rows : list row) : string :=
  zfill 16 (str_nat (List.length rows)).

(** The metadata after the two time stamps of [create_memory], taken at the
    clock readings [t] and [t + 1]. *)
Definition stamped (t : nat) (metadata : dict pyval) : dict pyval :=
  dict_set (dict_set metadata "created_at" (VNum (clock t)))
    "updated_at" (VNum (clock (S t))).

Definition created_row (id text : string) (metadata : dict pyval)
    (embedding : option embedding) : row :=
  mkRow id text metadata
    (match embedding with Some e => e | None => embed text end).

Lemma create_memory_run category text metadata embedding id st :
  let rows := rows_of st category in
  let new_id := match id with Some i => i | None => auto_id rows end in
  let md := stringified (stamped (st_ticks st) metadata) in
  let st1 :=
    ticked (ticked (ensure category
                      (record (EvGetOrCreateCollection category) st))) in
  let st2 := match id with Some _ => st1 | None => record (EvCount category) st1 end in
  create_memory clock embed category text metadata embedding id st
  = (Ok tt,
     logged "info" ("Created memory " ++ new_id ++ ": " ++ text)
       (set_rows category
          (upsert_row rows (created_row new_id text md embedding))
          (record (EvUpsert category [new_id] [text] [md])
             (printed (boolean_warnings (stamped (st_ticks st) metadata))
                st2)))).
Proof.
  unfold create_memory, stamped, auto_id, created_row. run.
  destruct id as [i|]; run; rewrite stringify_booleans_run; run;
    autorewrite with observe; destruct embedding; reflexivity.
Qed.

Lemma filter_none {A} (p : A -> bool) (l : list A) :
  existsb p l = false -> filter p l = [].
Proof.
  induction l as [|x l IH]; simpl; auto.
  destruct (p x); simpl; [discriminate|auto].
Qed.

(** After an upsert the lookup of the id finds the row stored for it. *)
Lemma select_get_upsert_row rows (new : row) :
  select_get (Some [row_id new]) None None (Some 1) (upsert_row rows new)
  = [upserted rows new].
Proof.
  unfold select_get.
  rewrite (filter_ext _ (fun r => String.eqb (row_id r) (row_id new))).
  2:{ intros r. rewrite has_id_one. unfold row_matches. simpl.
      apply andb_true_r. }
  unfold upsert_row, upserted, id_exists.
  destruct (existsb _ rows) eqn:E.
  - induction rows as [|r rows IH]; simpl in *; [discriminate|].
    destruct (String.eqb (row_id r) (row_id new)) eqn:Er; simpl.
    + now rewrite Er.
    + rewrite Er. auto.
  - rewrite filter_app, filter_none by assumption. simpl.
    rewrite String.eqb_refl.
    now rewrite (find_id_exists _ _ E).
Qed.

Lemma get_memory_run category id include_embeddings st :
  let found :=
    map (fetched (get_include_types include_embeddings false))
      (select_get (Some [id]) None None (Some 1) (rows_of st category)) in
  fst (get_memory category id include_embeddings st)
  = Ok (match found with [] => None | first :: _ => Some first end).
Proof.
  unfold get_memory. run. autorewrite with observe.
  rewrite chroma_collection_to_list_columns_of.
  now destruct (map _ _).
Qed.

(** C7 (as the code behaves): after [create_memory(category, "x",
    {"k": "v"})], [get_memory] on the id of the created record returns a
    record with that id whose document is ["x"] and whose metadata has
    ["k"] equal to ["v"]; its [created_at] and [updated_at] are two
    successive readings of the clock, the first and the second taken by
    the call. *)
Theorem create_memory_then_get_memory (category : string)
    (id : option string) (st : state) :
  let new_id :=
    match id with Some i => i | None => auto_id (rows_of st category) end in
  let st1 :=
    snd (create_memory clock embed category "x" [("k", VStr "v")] None id st) in
  exists m,
    fst (get_memory category new_id true st1) = Ok (Some m)
    /\ mem_id m = new_id
    /\ mem_document m = "x"
    /\ dict_get (mem_metadata m) "k" = Some (VStr "v")
    /\ dict_get (mem_metadata m) "created_at"
       = Some (VNum (clock (st_ticks st)))
    /\ dict_get (mem_metadata m) "updated_at"
       = Some (VNum (clock (S (st_ticks st)))).
Proof.
  intros new_id st1. unfold st1. rewrite create_memory_run. cbv zeta.
  fold new_id. simpl snd. rewrite get_memory_run.
  autorewrite with observe.
  set (new := created_row new_id "x"
                (stringified (stamped (st_ticks st) [("k", VStr "v")])) None).
  change new_id with (row_id new) at 1.
  rewrite select_get_upsert_row. simpl.
  eexists. split; [reflexivity|]. simpl.
  split; [apply upserted_id|]. split; [apply upserted_document|].
  repeat split; now apply upserted_metadata_written.
Qed.

End CreateFacts.

(** ** Decimal ids: [str(n).zfill(16)] *)

Section DecimalFacts.

Local Open Scope N_scope.
#[local] Arguments String.append !s1 s2 : simpl nomatch.

Fixpoint pow10 (w : nat) : N :=
  match w with
  | O => 1
  | S w' => 10 * pow10 w'
  end.

(** The [w] low decimal digits of [n], most significant first. *)
Fixpoint fixed (w : nat) (n : N) : string :=
  match w with
  | O => ""
  | S w' => (fixed w' (n / 10) ++ String (digit_char (n mod 10)) "")%string
  end.

Lemma append_assoc (s t u : string) :
  ((s ++ t) ++ u = s ++ (t ++ u))%string.
Proof. induction s; simpl; auto. now rewrite IHs. Qed.

Lemma append_nil_r (s : string) : (s ++ "" = s)%string.
Proof. induction s; simpl; auto. now rewrite IHs. Qed.

Lemma length_append (s t : string) :
  String.length (s ++ t) = (String.length s + String.length t)%nat.
Proof. induction s; simpl; auto. Qed.

Lemma length_fixed w n : String.length (fixed w n) = w.
Proof.
  revert n. induction w as [|w IH]; intros n; simpl; auto.
  rewrite length_append, IH. simpl. lia.
Qed.

Lemma zeros_snoc k : (zeros k ++ "0" = String "0" (zeros k))%string.
Proof. induction k; simpl; auto. now rewrite IHk. Qed.

Lemma fixed_zero w : fixed w 0 = zeros w.
Proof.
  induction w as [|w IH]; simpl; auto.
  change (0 / 10) with 0. rewrite IH. apply zeros_snoc.
Qed.

Lemma div10_lt_pow10 w n : n < pow10 (S w) -> n / 10 < pow10 w.
Proof.
  intros H. change (pow10 (S w)) with (10 * pow10 w) in H.
  now apply N.Div0.div_lt_upper_bound.
Qed.

(** Enough fuel: [str_digits] yields the [k] significant digits of [n], and
    padding them with zeros gives the [w] fixed digits. *)
Lemma str_digits_fixed (f : nat) :
  forall (n : N) (acc : string) (w : nat),
    n < 2 ^ N.of_nat f -> n < pow10 w -> (1 <= w)%nat ->
    exists k, (1 <= k <= w)%nat
              /\ str_digits (S f) n acc = (fixed k n ++ acc)%string
              /\ fixed w n = (zeros (w - k) ++ fixed k n)%string.
Proof.
  induction f as [|f IH]; intros n acc w Hf Hw Hw1.
  - assert (n = 0) by (simpl in Hf; lia). subst n.
    exists 1%nat. split; [lia|]. split; [reflexivity|].
    destruct w as [|w]; [lia|]. simpl. rewrite Nat.sub_0_r.
    change (0 / 10) with 0. now rewrite fixed_zero.
  - destruct w as [|w]; [lia|].
    change (str_digits (S (S f)) n acc)
      with (if n / 10 =? 0
            then String (digit_char (n mod 10)) acc
            else str_digits (S f) (n / 10)
                   (String (digit_char (n mod 10)) acc)).
    destruct (N.eqb_spec (n / 10) 0) as [E|E].
    + exists 1%nat. split; [lia|]. simpl. rewrite E. simpl.
      rewrite Nat.sub_0_r. split; [reflexivity|]. now rewrite fixed_zero.
    + assert (Hn10 : n / 10 < 2 ^ N.of_nat f).
      { apply N.Div0.div_lt_upper_bound.
        rewrite Nat2N.inj_succ, N.pow_succ_r' in Hf. lia. }
      assert (Hw' : n / 10 < pow10 w) by now apply div10_lt_pow10.
      assert (Hw1' : (1 <= w)%nat).
      { destruct w; [|lia]. change (pow10 0) with 1 in Hw'.
        exfalso. apply E. now apply N.lt_1_r. }
      destruct (IH (n / 10) (String (digit_char (n mod 10)) acc) w
                  Hn10 Hw' Hw1') as [k [Hk [Hrun Hpad]]].
      exists (S k). split; [lia|]. split.
      * rewrite Hrun. simpl. now rewrite append_assoc.
      * simpl. rewrite Hpad. now rewrite append_assoc.
Qed.

Lemma digit_char_not_sign d :
  d < 10 ->
  (Ascii.eqb (digit_char d) "+" || Ascii.eqb (digit_char d) "-")%bool = false.
Proof.
  intros H.
  assert (Hd : d = 0 \/ d = 1 \/ d = 2 \/ d = 3 \/ d = 4 \/ d = 5 \/ d = 6
               \/ d = 7 \/ d = 8 \/ d = 9) by lia.
  repeat (destruct Hd as [->|Hd]; [reflexivity|]). now subst d.
Qed.

Lemma fixed_first k n :
  (1 <= k)%nat -> exists d s, d < 10 /\ fixed k n = String (digit_char d) s.
Proof.
  revert n. induction k as [|k IH]; intros n Hk; [lia|].
  destruct k as [|k].
  - exists (n mod 10), ""%string. split; [|reflexivity].
    now apply N.mod_lt.
  - destruct (IH (n / 10)) as [d [s [Hd Hs]]]; [lia|].
    exists d, (s ++ String (digit_char (n mod 10)) "")%string.
    split; auto. change (fixed (S (S k)) n)
      with (fixed (S k) (n / 10) ++ String (digit_char (n mod 10)) "")%string.
    now rewrite Hs.
Qed.

Lemma size_nat_bound n : n < 2 ^ N.of_nat (N.size_nat n).
Proof.
  destruct n as [|p]; [reflexivity|].
  simpl N.size_nat.
  induction p as [p IH|p IH|]; simpl Pos.size_nat;
    rewrite ?Nat2N.inj_succ, ?N.pow_succ_r'; lia.
Qed.

(** A count below [10 ^ w] is written with exactly [w] digits. *)
Lemma zfill_str_N w n :
  (1 <= w)%nat -> n < pow10 w -> zfill w (str_N n) = fixed w n.
Proof.
  intros Hw Hn. unfold str_N.
  destruct (str_digits_fixed (N.size_nat n) n "" w (size_nat_bound n) Hn Hw)
    as [k [Hk [Hrun Hpad]]].
  rewrite Hrun, append_nil_r, Hpad.
  pose proof (length_fixed k n) as Hlen.
  destruct (fixed_first k n) as [d [s [Hd Hs]]]; [lia|].
  rewrite Hs in *. unfold zfill. cbv zeta iota beta.
  rewrite digit_char_not_sign by assumption.
  now rewrite Hlen.
Qed.

Lemma compare_append_same (s u v : string) :
  String.compare (s ++ u) (s ++ v) = String.compare u v.
Proof.
  induction s as [|c s IH]; simpl; auto.
  unfold Ascii.compare. now rewrite N.compare_refl.
Qed.

Lemma compare_append_lt (s t u v : string) :
  String.length s = String.length t ->
  String.compare s t = Lt -> String.compare (s ++ u) (t ++ v) = Lt.
Proof.
  revert t. induction s as [|c s IH]; intros [|d t] Hlen H; simpl in *;
    try discriminate.
  destruct (Ascii.compare c d); try discriminate; auto.
Qed.

Lemma compare_digit_char x y :
  x < y -> y < 10 -> Ascii.compare (digit_char x) (digit_char y) = Lt.
Proof.
  intros Hxy Hy. unfold Ascii.compare, digit_char.
  rewrite !N_ascii_embedding by lia. apply N.compare_lt_iff. lia.
Qed.

(** On counts below [10 ^ w] the fixed-width digits grow with the count in
    the order of strings. *)
Lemma fixed_lt w :
  forall a b, a < b -> b < pow10 w ->
              String.ltb (fixed w a) (fixed w b) = true.
Proof.
  induction w as [|w IH]; intros a b Hab Hb.
  - change (pow10 0) with 1 in Hb. lia.
  - unfold String.ltb.
    change (fixed (S w) a)
      with (fixed w (a / 10) ++ String (digit_char (a mod 10)) "")%string.
    change (fixed (S w) b)
      with (fixed w (b / 10) ++ String (digit_char (b mod 10)) "")%string.
    pose proof (N.div_mod a 10) as Ha'. pose proof (N.div_mod b 10) as Hb'.
    pose proof (N.mod_lt a 10) as Hma. pose proof (N.mod_lt b 10) as Hmb.
    assert (Hle : a / 10 <= b / 10) by (apply N.Div0.div_le_mono; lia).
    destruct (N.eq_dec (a / 10) (b / 10)) as [E|E].
    + rewrite E, compare_append_same. simpl.
      rewrite compare_digit_char; auto; lia.
    + rewrite compare_append_lt; auto.
      * now rewrite !length_fixed.
      * assert (Hlt : String.ltb (fixed w (a / 10)) (fixed w (b / 10)) = true).
        { apply IH; [lia|]. now apply div10_lt_pow10. }
        unfold String.ltb in Hlt.
        now destruct (String.compare (fixed w (a / 10)) (fixed w (b / 10))).
Qed.


End DecimalFacts.

(** ** Ids assigned from the record count *)

Section AutoIdFacts.

(** [str(n).zfill(16)] for a record count [n]. *)
Definition id_of_count (n : nat) : string := zfill 16 (str_nat n).

(** Counts that fit in sixteen digits. *)
Definition fits (n : nat) : Prop := (N.of_nat n < 10000000000000000)%N.

Lemma id_of_count_fixed n : fits n -> id_of_count n = fixed 16 (N.of_nat n).
Proof.
  intros H. unfold id_of_count, str_nat. apply zfill_str_N; [lia|exact H].
Qed.


Lemma id_of_count_lt n m :
  n < m -> fits m -> str_lt (id_of_count n) (id_of_count m).
Proof.
  intros Hnm Hm. unfold str_lt.
  assert (Hn : fits n) by (unfold fits in *; lia).
  rewrite !id_of_count_fixed by assumption.
  apply fixed_lt; [lia|exact Hm].
Qed.


(** Successive counts give strictly increasing ids. *)
Lemma ids_of_counts_sorted n k :
  fits (n + k) -> StronglySorted str_lt (map id_of_count (seq n k)).
Proof.
  revert n. induction k as [|k IH]; intros n H; simpl; constructor.
  - apply IH. unfold fits in *. lia.
  - apply Forall_forall. intros s Hs. apply in_map_iff in Hs.
    destruct Hs as [m [<- Hm]]. apply in_seq in Hm.
    apply id_of_count_lt; [lia|]. unfold fits in *. lia.
Qed.

End AutoIdFacts.

(** ** Sequences of calls on a category *)

Section Calls.

Variable clock : nat -> Q.
Variable embed : string -> embedding.
Variable distance : embedding -> embedding -> Q.

(** One call of the facade on the category at hand. *)
Inductive call : Type :=
| CallCreate (text : string) (metadata : dict pyval)
    (embedding : option embedding)              (* create_memory, no id *)
| CallUpdate (id : string) (text : option string)
    (metadata : option (dict pyval))            (* update_memory *)
| CallGet (id : string)                         (* get_memory *)
| CallSearch (search_text : string)             (* search_memory, defaults *)
| CallDelete (id : string).                     (* delete_memory *)

Definition is_create (c : call) : bool :=
  match c with CallCreate _ _ _ => true | _ => false end.

Definition is_delete (c : call) : bool :=
  match c with CallDelete _ => true | _ => false end.

(** The state after the call, whether it returned or raised. *)
Definition after_call (category : string) (c : call) (st : state) : state :=
  match c with
  | CallCreate text metadata embedding =>
      snd (create_memory clock embed category text metadata embedding None st)
  | CallUpdate id text metadata =>
      snd (update_memory clock category id text metadata st)
  | CallGet id => snd (get_memory category id true st)
  | CallSearch search_text =>
      snd (search_memory_defaults embed distance category search_text st)
  | CallDelete id => snd (delete_memory category id st)
  end.

Fixpoint after_calls (category : string) (calls : list call) (st : state)
    : state :=
  match calls with
  | [] => st
  | c :: calls' => after_calls category calls' (after_call category c st)
  end.

(** The ids under which the backend was asked to store records of the
    category, oldest first. *)
Definition assigned_ids (category : string) (trace : list event)
    : list string :=
  flat_map (fun e =>
              match e with
              | EvUpsert c ids _ _ =>
                  if String.eqb c category then ids else []
              | _ => []
              end) trace.

Lemma assigned_ids_app category t1 t2 :
  assigned_ids category (t1 ++ t2)
  = assigned_ids category t1 ++ assigned_ids category t2.
Proof. apply flat_map_app. Qed.

Lemma update_rows_ids ids documents metadatas rows :
  map row_id (update_rows ids documents metadatas rows) = map row_id rows.
Proof.
  revert documents metadatas rows.
  induction ids as [|id ids IH]; intros documents metadatas rows;
    unfold update_rows; fold update_rows; auto.
  rewrite IH, map_map. apply map_ext. intros r.
  unfold update_row. now destruct (String.eqb (row_id r) id).
Qed.

Lemma get_memory_state category id include_embeddings st :
  (forall c, rows_of (snd (get_memory category id include_embeddings st)) c
             = rows_of st c)
  /\ st_trace (snd (get_memory category id include_embeddings st))
     = st_trace st ++ [EvGetOrCreateCollection category;
                       EvGet category (Some [id]) None None (Some 1)].
Proof.
  unfold get_memory. run.
  destruct (chroma_collection_to_list _); simpl; split; intros;
    autorewrite with observe; rewrite <- ?app_assoc; reflexivity.
Qed.

(** A call other than a creation or a deletion keeps the ids of the
    category and stores nothing. *)
Lemma after_call_keeps category c st :
  is_create c = false -> is_delete c = false ->
  map row_id (rows_of (after_call category c st) category)
  = map row_id (rows_of st category)
  /\ assigned_ids category (st_trace (after_call category c st))
     = assigned_ids category (st_trace st).
Proof.
  intros Hc Hd. destruct c as [| id text metadata | id | q |];
    try discriminate; unfold after_call.
  - destruct metadata as [md|]; [|destruct text as [t|]].
    + rewrite update_memory_with_metadata. cbv zeta. simpl snd.
      autorewrite with observe. rewrite update_rows_ids.
      rewrite assigned_ids_app, assigned_ids_app. simpl.
      rewrite !app_nil_r. auto.
    + rewrite update_memory_text_only. simpl snd.
      autorewrite with observe.
      rewrite assigned_ids_app. simpl. now rewrite app_nil_r.
    + rewrite update_memory_no_arguments. simpl snd.
      autorewrite with observe.
      rewrite assigned_ids_app. simpl. now rewrite app_nil_r.
  - destruct (get_memory_state category id true st) as [Hrows Htrace].
    rewrite Hrows, Htrace, assigned_ids_app. simpl. now rewrite app_nil_r.
  - destruct (rows_of st category) as [|r rows] eqn:E.
    + unfold search_memory_defaults. rewrite search_memory_empty by auto.
      simpl snd. autorewrite with observe. rewrite E.
      rewrite !assigned_ids_app. simpl. now rewrite !app_nil_r.
    + rewrite search_memory_defaults_run by congruence. simpl snd.
      unfold searched. autorewrite with observe. rewrite E.
      rewrite !assigned_ids_app. simpl. now rewrite !app_nil_r.
Qed.

End Calls.

(** ** Ids assigned by successive creations *)

Section AssignedIds.

Variable clock : nat -> Q.
Variable embed : string -> embedding.
Variable distance : embedding -> embedding -> Q.

Local Abbreviation after_call' := (after_call clock embed distance).
Local Abbreviation after_calls' := (after_calls clock embed distance).

(** The category holds exactly the records with the ids of the counts
    [0 .. n-1], as after [n] creations without id and nothing deleted. *)
Definition counted (rows : list row) : Prop :=
  map row_id rows = map id_of_count (seq 0 (List.length rows)).

Lemma counted_nil : counted [].
Proof. reflexivity. Qed.


Lemma after_create_rows category text metadata embedding st :
  rows_of (after_call' category (CallCreate text metadata embedding) st)
    category
  = upsert_row (rows_of st category)
      (created_row embed (id_of_count (List.length (rows_of st category)))
         text (stringified (stamped clock (st_ticks st) metadata)) embedding).
Proof.
  unfold after_call. rewrite create_memory_run. cbv zeta. simpl snd.
  now autorewrite with observe.
Qed.

(** Every call keeps the ids of the category distinct, so they are distinct
    in every state reached from the empty store. *)
Lemma after_call_distinct category c st :
  NoDup (map row_id (rows_of st category)) ->
  NoDup (map row_id (rows_of (after_call' category c st) category)).
Proof.
  intros Hnd.
  destruct c as [text metadata embedding| id text metadata | id | q | id].
  - rewrite after_create_rows. now apply NoDup_upsert_row.
  - destruct (after_call_keeps clock embed distance category
                (CallUpdate id text metadata) st eq_refl eq_refl) as [-> _].
    exact Hnd.
  - destruct (after_call_keeps clock embed distance category
                (CallGet id) st eq_refl eq_refl) as [-> _].
    exact Hnd.
  - destruct (after_call_keeps clock embed distance category
                (CallSearch q) st eq_refl eq_refl) as [-> _].
    exact Hnd.
  - unfold after_call. rewrite delete_memory_rows, String.eqb_refl.
    now apply NoDup_delete_rows.
Qed.

Lemma after_calls_distinct category calls st :
  NoDup (map row_id (rows_of st category)) ->
  NoDup (map row_id (rows_of (after_calls' category calls st) category)).
Proof.
  revert st. induction calls as [|c calls IH]; intros st Hnd; simpl; auto.
  apply IH. now apply after_call_distinct.
Qed.




End AssignedIds.

(** ** [create_unique_memory] *)

Section UniqueSearch.

Variable embed : string -> embedding.
Variable distance : embedding -> embedding -> Q.

Local Abbreviation dist := (dist_to embed distance).

Lemma filter_distance_hits (keep : Q -> bool) inc q (rows : list row) :
  includes inc IncDistances = true ->
  filter_distance keep (map (hit embed distance inc q) rows)
  = Ok (map (hit embed distance inc q)
          (filter (fun r => keep (dist q r)) rows)).
Proof.
  intros Hinc. induction rows as [|r rows IH]; simpl; auto.
  rewrite Hinc, IH. now destruct (keep (dist q r)).
Qed.

Definition unique_where : option (dict pyval) :=
  Some [("unique", VStr "True")].

(** The row flagged unique that is nearest to the content, if any... *)
Definition nearest_unique (category content : string) (st : state)
    : list row :=
  select_query embed distance content unique_where None
    (Nat.min 1 (List.length (rows_of st category))) (rows_of st category).

(** ... kept when its distance is at most [1 - similarity]; the bound is
    only tested when it is below one. *)
Definition matched (category content : string) (similarity : Q) (st : state)
    : list row :=
  if Qlt_bool (1 - similarity)%Q 1%Q
  then filter (fun r => Qle_bool (dist content r) (1 - similarity)%Q)
         (nearest_unique category content st)
  else nearest_unique category content st.

Lemma search_memory_unique_run category content similarity st :
  exists st1,
    search_memory embed distance category content 1 unique_where None true
      true (Some (1 - similarity)%Q) (Some 0%Q) false st
    = (Ok (map (hit embed distance (get_include_types true true) content)
             (matched category content similarity st)), st1)
    /\ (forall c, rows_of st1 c = rows_of st c)
    /\ st_ticks st1 = st_ticks st.
Proof.
  destruct (rows_of st category) as [|r rows] eqn:E.
  - rewrite search_memory_empty by assumption. eexists. split; [|split].
    + unfold matched, nearest_unique, select_query. rewrite E. simpl.
      now destruct (Qlt_bool _ _).
    + intros c. now autorewrite with observe.
    + now autorewrite with observe.
  - unfold search_memory. run. autorewrite with observe.
    destruct (Nat.eqb_spec (List.length (rows_of st category)) 0) as [E0|E0].
    { rewrite E in E0. discriminate. }
    autorewrite with observe.
    rewrite (min_eqb_0 1) by (assumption || discriminate).
    rewrite query_to_list. autorewrite with observe.
    change (where_filter (Some [("unique", VStr "True")]) false)
      with unique_where.
    fold (nearest_unique category content st).
    unfold matched.
    destruct (Qlt_bool (1 - similarity) 1).
    + unfold lift. rewrite filter_distance_hits by reflexivity.
      eexists. split; [reflexivity|]. split; intros;
        now autorewrite with observe.
    + eexists. split; [reflexivity|]. split; intros;
        now autorewrite with observe.
Qed.

End UniqueSearch.

Section UniqueFacts.

Variable clock : nat -> Q.
Variable embed : string -> embedding.
Variable distance : embedding -> embedding -> Q.

Local Abbreviation dist := (dist_to embed distance).

Definition flagged_unique (r : row) : Prop :=
  dict_get (row_metadata r) "unique" = Some (VStr "True").

Lemma row_matches_unique r :
  row_matches unique_where None r = true <-> flagged_unique r.
Proof.
  unfold row_matches, unique_where, flagged_unique. simpl.
  rewrite andb_true_r. unfold field_eqb.
  destruct (dict_get (row_metadata r) "unique") as [v|].
  - destruct v as [s| | | |]; simpl; split; intros H; try discriminate;
      try (inversion H; subst; reflexivity).
    apply String.eqb_eq in H. now subst.
  - split; discriminate.
Qed.

Lemma nearest_unique_cases category content st :
  (nearest_unique embed distance category content st = []
   /\ forall r, In r (rows_of st category) -> ~ flagged_unique r)
  \/ (exists m,
        nearest_unique embed distance category content st = [m]
        /\ In m (rows_of st category) /\ flagged_unique m
        /\ forall r, In r (rows_of st category) -> flagged_unique r ->
                     (dist content m <= dist content r)%Q).
Proof.
  unfold nearest_unique, select_query.
  set (U := filter (row_matches unique_where None) (rows_of st category)).
  destruct (nearest_first embed distance content U) as [|m S] eqn:ES.
  - left. split; [now rewrite firstn_nil|].
    intros r Hr Hu.
    assert (HU : U = []).
    { apply Permutation_nil. rewrite <- ES. apply nearest_first_perm. }
    assert (Hin : In r U).
    { apply filter_In. split; auto. now apply row_matches_unique. }
    rewrite HU in Hin. contradiction.
  - right. exists m.
    assert (HmU : In m U).
    { apply (Permutation_in _ (nearest_first_perm embed distance content U)).
      rewrite ES. simpl. auto. }
    apply filter_In in HmU. destruct HmU as [Hm Hmu].
    split; [|split; [exact Hm|split; [now apply row_matches_unique|]]].
    + destruct (rows_of st category) as [|r0 rows]; [contradiction|].
      simpl List.length. now destruct (List.length rows).
    + intros r Hr Hu.
      apply (nearest_first_head embed distance content U m S ES).
      apply filter_In. split; auto. now apply row_matches_unique.
Qed.

(** The test the search of [create_unique_memory] makes on a distance: the
    upper bound [1 - similarity] is applied only when it is below one, that
    is for a similarity above zero; the lower bound, zero, is never
    applied. *)
Definition within (similarity d : Q) : Prop :=
  (1 - similarity < 1)%Q -> (d <= 1 - similarity)%Q.

(** A row that can be the match: flagged unique, at a distance that passes
    the test. *)
Definition candidate (category content : string) (similarity : Q)
    (st : state) (r : row) : Prop :=
  In r (rows_of st category) /\ flagged_unique r
  /\ within similarity (dist content r).

(** With a similarity above zero and distances that are never negative the
    rows that pass are those at a distance in [[0, 1 - similarity]]. *)
Lemma candidate_window category content similarity st r :
  (0 < similarity)%Q -> (forall a b, (0 <= distance a b)%Q) ->
  (candidate category content similarity st r
   <-> In r (rows_of st category) /\ flagged_unique r
       /\ (0 <= dist content r <= 1 - similarity)%Q).
Proof.
  intros Hs Hd. unfold candidate, within.
  assert (Hlt : (1 - similarity < 1)%Q).
  { unfold Qminus. rewrite <- (Qplus_0_r 1) at 2.
    apply Qplus_lt_r. change 0%Q with (- 0)%Q. now apply Qopp_lt_compat. }
  split.
  - intros [Hr [Hu Hw]]. repeat split; auto. apply Hd.
  - intros [Hr [Hu [_ Hle]]]. repeat split; auto.
Qed.

Lemma matched_cases category content similarity st :
  (matched embed distance category content similarity st = []
   /\ forall r, ~ candidate category content similarity st r)
  \/ (exists m,
        matched embed distance category content similarity st = [m]
        /\ candidate category content similarity st m
        /\ forall r, candidate category content similarity st r ->
                     (dist content m <= dist content r)%Q).
Proof.
  unfold matched, candidate, within.
  destruct (nearest_unique_cases category content st)
    as [[-> Hnone]|[m [-> [Hm [Hu Hnear]]]]].
  - left. split; [now destruct (Qlt_bool _ _)|].
    intros r [Hr [Hur _]]. now apply (Hnone r).
  - destruct (Qlt_bool (1 - similarity) 1) eqn:Emax.
    + apply Qlt_bool_iff in Emax. simpl.
      destruct (Qle_bool (dist content m) (1 - similarity)) eqn:Ele.
      * right. exists m. split; auto. apply Qle_bool_iff in Ele.
        split; [|intros r [Hr [Hur _]]; now apply Hnear].
        repeat split; auto.
      * left. split; auto. intros r [Hr [Hur Hle]].
        assert (Hmr : (dist content m <= 1 - similarity)%Q).
        { apply Qle_trans with (dist content r); auto. }
        apply Qle_bool_iff in Hmr. congruence.
    + right. exists m. split; auto.
      split; [|intros r [Hr [Hur _]]; now apply Hnear].
      repeat split; auto. intros Hlt.
      apply Qlt_bool_iff in Hlt. congruence.
Qed.

Lemma In_upsert_row_other rows (new r : row) :
  In r rows -> row_id r <> row_id new -> In r (upsert_row rows new).
Proof.
  intros Hr Hne. unfold upsert_row.
  destruct (id_exists (row_id new) rows).
  - apply in_map_iff. exists r. split; auto.
    apply String.eqb_neq in Hne. now rewrite Hne.
  - apply in_or_app. auto.
Qed.

End UniqueFacts.

Section UniqueClaim.

Variable clock : nat -> Q.
Variable embed : string -> embedding.
Variable distance : embedding -> embedding -> Q.

Local Abbreviation dist := (dist_to embed distance).
Local Abbreviation candidate' := (candidate embed distance).

(** The metadata [create_unique_memory] hands to [create_memory]. *)
Definition unique_metadata (metadata : dict pyval) (found : list row)
    : dict pyval :=
  match found with
  | [] => dict_set metadata "unique" (VStr "True")
  | first :: _ =>
      dict_set
        (dict_set (dict_set metadata "unique" (VStr "False"))
           "related_to" (VStr (row_id first)))
        "related_document" (VStr (row_document first))
  end.

Lemma create_unique_memory_run category content metadata similarity st :
  exists st1,
    (forall c, rows_of st1 c = rows_of st c)
    /\ st_ticks st1 = st_ticks st
    /\ create_unique_memory clock embed distance category content metadata
         similarity st
       = create_memory clock embed category content
           (unique_metadata metadata
              (matched embed distance category content similarity st))
           None None st1.
Proof.
  destruct (search_memory_unique_run embed distance category content
              similarity st) as [st1 [Hsearch [Hrows Hticks]]].
  exists st1. split; [exact Hrows|]. split; [exact Hticks|].
  unfold create_unique_memory. unfold bind at 1.
  unfold unique_where in Hsearch. rewrite Hsearch.
  now destruct (matched embed distance category content similarity st).
Qed.

Lemma stored_metadata_get (t : nat) (md : dict pyval) (k : string) (s : string) :
  k <> "created_at" -> k <> "updated_at" ->
  dict_get md k = Some (VStr s) ->
  dict_get (stringified (stamped clock t md)) k = Some (VStr s).
Proof.
  intros H1 H2 H. rewrite dict_get_stringified. unfold stamped.
  rewrite !dict_get_set_other by congruence. now rewrite H.
Qed.

(** C2 (as the code behaves): [create_unique_memory] always returns and
    always stores the new content, under the id made from the record count.
    It takes the record flagged [unique = "True"] that is nearest to the
    content; this record is the match when its distance is at most
    [1 - similarity], a bound that is applied only for a similarity above
    zero: with a similarity of zero or less the nearest flagged record is
    the match whatever its distance.  If there is no match the new record
    is stored with [unique = "True"].  If there is one, [m], the new record
    is stored with [unique = "False"], [related_to] the id of [m] and
    [related_document] its document, and [m] itself is still stored,
    flagged unique, provided its id is not the id given to the new
    record.  Nothing is assumed of the distances. *)
Theorem create_unique_memory_stores_and_relates (category content : string)
    (metadata : dict pyval) (similarity : Q) (st : state) :
  let new_id := zfill 16 (str_nat (List.length (rows_of st category))) in
  exists (st' : state) (new : row),
    create_unique_memory clock embed distance category content metadata
      similarity st = (Ok tt, st')
    /\ In new (rows_of st' category)
    /\ row_id new = new_id
    /\ row_document new = content
    /\ ((forall r, ~ candidate' category content similarity st r) ->
        dict_get (row_metadata new) "unique" = Some (VStr "True"))
    /\ ((exists r, candidate' category content similarity st r) ->
        exists m,
          candidate' category content similarity st m
          /\ (forall r, candidate' category content similarity st r ->
                        (dist content m <= dist content r)%Q)
          /\ dict_get (row_metadata new) "unique" = Some (VStr "False")
          /\ dict_get (row_metadata new) "related_to"
             = Some (VStr (row_id m))
          /\ dict_get (row_metadata new) "related_document"
             = Some (VStr (row_document m))
          /\ (row_id m <> new_id ->
              In m (rows_of st' category) /\ flagged_unique m)).
Proof.
  intros new_id.
  destruct (create_unique_memory_run category content metadata similarity st)
    as [st1 [Hrows [Hticks Hrun]]].
  rewrite Hrun, create_memory_run. cbv zeta.
  rewrite Hrows, Hticks. unfold auto_id. fold new_id.
  set (md := unique_metadata metadata
               (matched embed distance category content similarity st)).
  set (new := created_row embed new_id content
                (stringified (stamped clock (st_ticks st) md)) None).
  eexists. exists (upserted (rows_of st category) new).
  split; [reflexivity|].
  autorewrite with observe.
  split; [apply In_upserted|]. split; [apply upserted_id|].
  split; [apply upserted_document|].
  destruct (matched_cases embed distance category content similarity st)
    as [[Hm Hnone]|[m [Hm [Hcand Hnear]]]].
  - split.
    + intros _. apply upserted_metadata_written.
      unfold new, md. rewrite Hm. simpl row_metadata.
      apply stored_metadata_get; try discriminate.
      apply dict_get_set_same.
    + intros [r Hr]. exfalso. now apply (Hnone r).
  - split.
    + intros Hnone. exfalso. now apply (Hnone m).
    + intros _. exists m. split; [exact Hcand|]. split; [exact Hnear|].
      unfold new, md. rewrite Hm. simpl row_metadata. unfold unique_metadata.
      split; [|split; [|split]].
      * apply upserted_metadata_written. simpl row_metadata.
        apply stored_metadata_get; try discriminate.
        rewrite !dict_get_set_other by discriminate.
        apply dict_get_set_same.
      * apply upserted_metadata_written. simpl row_metadata.
        apply stored_metadata_get; try discriminate.
        rewrite dict_get_set_other by discriminate.
        apply dict_get_set_same.
      * apply upserted_metadata_written. simpl row_metadata.
        apply stored_metadata_get; try discriminate.
        apply dict_get_set_same.
      * intros Hne. destruct Hcand as [Hin [Hu _]]. split; auto.
        apply In_upsert_row_other; auto.
Qed.

End UniqueClaim.

(** * Scenarios

    A concrete clock that advances by one second at each reading, an
    embedding that only looks at the length of a text, and the distance
    that is zero between equal embeddings and one otherwise. *)

Definition clock0 (k : nat) : Q := inject_Z (Z.of_nat k).

Definition embed0 (s : string) : embedding :=
  [inject_Z (Z.of_nat (String.length s))].

Definition distance0 (a b : embedding) : Q :=
  match a, b with
  | [x], [y] => if Qeq_bool x y then 0%Q else 1%Q
  | _, _ => 1%Q
  end.

Lemma distance0_range (a b : embedding) : (0 <= distance0 a b <= 1)%Q.
Proof.
  unfold distance0.
  destruct a as [|x [|? ?]]; try (split; discriminate).
  destruct b as [|y [|? ?]]; try (split; discriminate).
  destruct (Qeq_bool x y); split; discriminate.
Qed.

(** The store before anything is written. *)
Definition st0 : state := mkState [] 0 [] [] [].

Ltac distinct_ids :=
  vm_compute; repeat constructor; simpl; intuition discriminate.

(** ** The filter of [search_memory] with [unique] *)

(** One stored memory in category ["c"]. *)
Definition st_one : state :=
  snd (create_memory clock0 embed0 "c" "a" [] None None st0).

(** C3 (as the code behaves): a [filter_metadata] with more than one key
    becomes one ["$and"] entry holding an ["$eq"] clause per key, and
    [contains_text] becomes a ["$contains"] clause; but with [unique] set the
    entry [unique = "True"] is written next to ["$and"] into the same
    dictionary, which then has two top-level entries and is no expression of
    the filter language.  On the stored memory of [st_one],
    [search_memory("c", "q", filter_metadata={"a": "1", "b": "2"},
    unique=True)] hands that dictionary to the backend's query, which
    refuses it. *)
Theorem search_memory_unique_filter_malformed :
  (forall kv1 kv2 rest,
      where_filter (Some (kv1 :: kv2 :: rest)) false
      = Some [("$and", VList (map eq_clause (kv1 :: kv2 :: rest)))]
      /\ where_filter (Some (kv1 :: kv2 :: rest)) true
         = Some [("$and", VList (map eq_clause (kv1 :: kv2 :: rest)));
                 ("unique", VStr "True")]
      /\ wf_where (VDict [("$and", VList (map eq_clause (kv1 :: kv2 :: rest)));
                          ("unique", VStr "True")]) = false)
  /\ search_memory embed0 distance0 "c" "q" 5
       (Some [("a", VStr "1"); ("b", VStr "2")]) (Some "x") true true None
       None true st_one
     = (Raise (ValueError "malformed filter"),
        record
          (EvQuery "c" ["q"]
             (Some [("$and",
                     VList [VDict [("a", VDict [("$eq", VStr "1")])];
                            VDict [("b", VDict [("$eq", VStr "2")])]]);
                    ("unique", VStr "True")])
             (Some [("$contains", VStr "x")]) 1)
          (record (EvCount "c")
             (record (EvCount "c")
                (ensure "c" (record (EvGetOrCreateCollection "c") st_one))))).
Proof.
  split.
  - intros kv1 kv2 rest. repeat split.
  - vm_compute. reflexivity.
Qed.

(** The same search without [unique] is accepted. *)
Example search_memory_filter_accepted :
  fst (search_memory embed0 distance0 "c" "q" 5
         (Some [("a", VStr "1"); ("b", VStr "2")]) (Some "x") true true None
         None false st_one) = Ok [].
Proof. vm_compute. reflexivity. Qed.

(** ** [update_memory] and [count_memories] on a stored memory *)

Example update_memory_text_only_example :
  fst (update_memory clock0 "c" "0000000000000000" (Some "New text") None
         st_one)
  = Raise (TypeError "'NoneType' object does not support item assignment").
Proof. reflexivity. Qed.

Example count_memories_unique_example :
  fst (count_memories "c" false st_one) = Ok 1
  /\ fst (count_memories "c" true st_one)
     = Raise (AttributeError "'dict' object has no attribute 'count'").
Proof. split; vm_compute; reflexivity. Qed.

(** ** [delete_memory] *)

Lemma delete_memory_witness :
  (id_exists "0000000000000007" (rows_of st_one "c") = false
   /\ List.length
        (rows_of (snd (delete_memory "c" "0000000000000007" st_one)) "c")
      = List.length (rows_of st_one "c"))
  /\ (id_exists "0000000000000000" (rows_of st_one "c") = true
      /\ id_exists "0000000000000000"
           (rows_of (snd (delete_memory "c" "0000000000000000" st_one)) "c")
         = false).
Proof.
  split; (split; [reflexivity|]).
  - destruct (delete_memory_missing_or_present "c" "0000000000000007" st_one)
      as [_ [Hmissing _]].
    destruct (Hmissing eq_refl) as [_ [Hlen _]]. exact Hlen.
  - destruct (delete_memory_missing_or_present "c" "0000000000000000" st_one)
      as [_ [_ Hpresent]].
    destruct (Hpresent eq_refl) as [_ [Hgone _]]. exact Hgone.
Defined.

(** ** [delete_similar_memories] *)

(** Three memories; ["aa"] and ["cc"] are at distance zero of a query of
    two characters, ["bbbb"] at distance one. *)
Definition st_three : state :=
  after_calls clock0 embed0 distance0 "c"
    [CallCreate "aa" [] None; CallCreate "bbbb" [] None;
     CallCreate "cc" [] None] st0.


(** On these memories the two similar ones go and the third stays. *)
Example delete_similar_memories_example :
  fst (delete_similar_memories embed0 distance0 "c" "zz" (95 # 100) st_three)
    = Ok true
  /\ map row_document
       (rows_of (snd (delete_similar_memories embed0 distance0 "c" "zz"
                        (95 # 100) st_three)) "c") = ["bbbb"].
Proof. split; vm_compute; reflexivity. Qed.

(** Six memories, all at distance zero of a query of two characters. *)
Definition st_six : state :=
  after_calls clock0 embed0 distance0 "c"
    (repeat (CallCreate "aa" [] None) 6) st0.


(** All six are above the threshold; one call deletes five of them. *)
Example delete_similar_memories_six :
  List.length (rows_of st_six "c") = 6
  /\ List.length
       (rows_of (snd (delete_similar_memories embed0 distance0 "c" "zz"
                        (95 # 100) st_six)) "c") = 1.
Proof. split; vm_compute; reflexivity. Qed.

(** ** A category without records *)

Lemma empty_category_witness :
  rows_of st0 "c" = []
  /\ (exists st',
        search_memory embed0 distance0 "c" "q" 5 None None true true None
          None false st0 = (Ok [], st')
        /\ st_trace st'
           = st_trace st0 ++ [EvGetOrCreateCollection "c"; EvCount "c"])
  /\ (exists res st',
        get_memories "c" "desc" None None 20 true false st0 = (res, st')
        /\ st_trace st'
           = st_trace st0
               ++ [EvGetOrCreateCollection "c"; EvCount "c";
                   EvGet "c" None (where_filter None false)
                     (contains_clause None) None]
        /\ (valid_filters (where_filter None false) (contains_clause None)
            = true -> res = Ok [])
        /\ (valid_filters (where_filter None false) (contains_clause None)
            = false -> res = Raise (ValueError "malformed filter"))).
Proof.
  split; [reflexivity|].
  destruct (empty_category_search_and_get_memories embed0 distance0 "c" st0
              eq_refl) as [Hsearch Hget].
  split.
  - exact (Hsearch "q" 5 None None true true None None false).
  - exact (Hget "desc" None None 20 true false).
Defined.

(** The claim as stated fails for [get_memories]: on the empty store it
    returns the empty list, and the backend has received a [get]. *)
Lemma get_memories_empty_category_fetches :
  rows_of st0 "c" = []
  /\ fst (get_memories "c" "desc" None None 20 true false st0) = Ok []
  /\ In (EvGet "c" None None None None)
       (st_trace (snd (get_memories "c" "desc" None None 20 true false st0))).
Proof.
  split; [reflexivity|]. split; [reflexivity|].
  vm_compute. auto.
Qed.

(** ** Time stamps of a created memory *)

(** The claim as stated fails: with a clock that advances between its two
    readings, the memory read back has [created_at] different from
    [updated_at]. *)
Lemma create_memory_timestamps_differ :
  exists m created updated,
    fst (get_memory "c" "0000000000000000" true
           (snd (create_memory clock0 embed0 "c" "x" [("k", VStr "v")]
                   None None st0))) = Ok (Some m)
    /\ dict_get (mem_metadata m) "created_at" = Some (VNum created)
    /\ dict_get (mem_metadata m) "updated_at" = Some (VNum updated)
    /\ Qeq_bool created updated = false.
Proof.
  eexists. exists 0%Q, 1%Q.
  split; [vm_compute; reflexivity|]. repeat split.
Qed.

(** ** Ids of successive creations *)

Definition calls_without_delete : list call :=
  [CallCreate "a" [] None;
   CallGet "0000000000000000";
   CallUpdate "0000000000000000" None (Some [("k", VBool true)]);
   CallSearch "a";
   CallCreate "b" [] None].


Example create_memory_ids_example :
  assigned_ids "c"
    (st_trace (after_calls clock0 embed0 distance0 "c" calls_without_delete
                 st0))
  = ["0000000000000000"; "0000000000000001"].
Proof. vm_compute. reflexivity. Qed.


(** ** [create_unique_memory] *)

(** One memory flagged unique, with document ["hello"]. *)
Definition st_unique : state :=
  snd (create_unique_memory clock0 embed0 distance0 "c" "hello" [] (95 # 100)
         st0).

Lemma create_unique_memory_witness :
  let new_id := zfill 16 (str_nat (List.length (rows_of st_unique "c"))) in
  exists (st' : state) (new : row),
    create_unique_memory clock0 embed0 distance0 "c" "world" []
      (95 # 100) st_unique = (Ok tt, st')
    /\ In new (rows_of st' "c")
    /\ row_id new = new_id
    /\ row_document new = "world"
    /\ ((forall r, ~ candidate embed0 distance0 "c" "world" (95 # 100)
                     st_unique r) ->
        dict_get (row_metadata new) "unique" = Some (VStr "True"))
    /\ ((exists r, candidate embed0 distance0 "c" "world" (95 # 100)
                     st_unique r) ->
        exists m,
          candidate embed0 distance0 "c" "world" (95 # 100) st_unique m
          /\ (forall r, candidate embed0 distance0 "c" "world" (95 # 100)
                          st_unique r ->
                        (dist_to embed0 distance0 "world" m
                         <= dist_to embed0 distance0 "world" r)%Q)
          /\ dict_get (row_metadata new) "unique" = Some (VStr "False")
          /\ dict_get (row_metadata new) "related_to"
             = Some (VStr (row_id m))
          /\ dict_get (row_metadata new) "related_document"
             = Some (VStr (row_document m))
          /\ (row_id m <> new_id ->
              In m (rows_of st' "c") /\ flagged_unique m)).
Proof.
  exact (create_unique_memory_stores_and_relates clock0 embed0 distance0
           "c" "world" [] (95 # 100) st_unique).
Defined.

(** Here the second memory is related to the first, which stays unique. *)
Example create_unique_memory_example :
  map (fun r => (row_id r, row_document r, dict_get (row_metadata r) "unique",
                 dict_get (row_metadata r) "related_to"))
    (rows_of (snd (create_unique_memory clock0 embed0 distance0 "c" "world"
                     [] (95 # 100) st_unique)) "c")
  = [("0000000000000000", "hello", Some (VStr "True"), None);
     ("0000000000000001", "world", Some (VStr "False"),
      Some (VStr "0000000000000000"))].
Proof. vm_compute. reflexivity. Qed.

(** Two unique memories are created and the first is deleted: the category
    holds one record, with id [...01]. *)
Definition st_after_delete : state :=
  snd (delete_memory "c" "0000000000000000"
         (snd (create_unique_memory clock0 embed0 distance0 "c" "hello" []
                 (95 # 100)
                 (snd (create_unique_memory clock0 embed0 distance0 "c" "a" []
                         (95 # 100) st0))))).

Definition matched_memory : row :=
  mkRow "0000000000000001" "hello"
    [("unique", VStr "True"); ("created_at", VNum 2); ("updated_at", VNum 3)]
    [5%Q].

(** The claim as stated fails when the id made from the record count is the
    id of the matched memory: the new record is written over the match,
    which does not keep [unique = "True"]. *)
Lemma create_unique_memory_overwrites_match :
  candidate embed0 distance0 "c" "world" (95 # 100) st_after_delete
    matched_memory
  /\ fst (create_unique_memory clock0 embed0 distance0 "c" "world" []
            (95 # 100) st_after_delete) = Ok tt
  /\ map (fun r => (row_id r, row_document r,
                    dict_get (row_metadata r) "unique",
                    dict_get (row_metadata r) "related_to"))
       (rows_of (snd (create_unique_memory clock0 embed0 distance0 "c"
                        "world" [] (95 # 100) st_after_delete)) "c")
     = [("0000000000000001", "world", Some (VStr "False"),
         Some (VStr "0000000000000001"))].
Proof.
  split; [|split; vm_compute; reflexivity].
  unfold candidate. split; [vm_compute; auto|]. split; [reflexivity|].
  intros _. vm_compute. discriminate.
Qed.

(** A distance that is not kept to the unit interval: equal lengths are at
    distance zero, different lengths at distance four. *)
Definition distance4 (a b : embedding) : Q :=
  match a, b with
  | [x], [y] => if Qeq_bool x y then 0%Q else 4%Q
  | _, _ => 4%Q
  end.

(** The claim as stated fails in a second way.  With a similarity of zero
    the bound [1 - similarity] is one and line 187 does not apply it: the
    only flagged memory, at distance four and so outside [[0, 1]], is taken
    as the match, and the new record is stored with [unique = "False"]. *)
Lemma create_unique_memory_bound_not_applied :
  (forall r, In r (rows_of st_unique "c") ->
             ~ (0 <= dist_to embed0 distance4 "hi" r <= 1 - 0)%Q)
  /\ fst (create_unique_memory clock0 embed0 distance4 "c" "hi" [] 0%Q
            st_unique) = Ok tt
  /\ map (fun r => (row_id r, row_document r,
                    dict_get (row_metadata r) "unique",
                    dict_get (row_metadata r) "related_to"))
       (rows_of (snd (create_unique_memory clock0 embed0 distance4 "c" "hi"
                        [] 0%Q st_unique)) "c")
     = [("0000000000000000", "hello", Some (VStr "True"), None);
        ("0000000000000001", "hi", Some (VStr "False"),
         Some (VStr "0000000000000000"))].
Proof.
  split; [|split; vm_compute; reflexivity].
  intros r Hr [_ Hle]. vm_compute in Hr. destruct Hr as [<-|[]].
  vm_compute in Hle. now apply Hle.
Qed.

(** * Further properties of the facade *)

(** ** What [create_memory] stores *)

Section StdoutFacts.

Implicit Types (st : state).

Lemma st_stdout_set_rows st c rows :
  st_stdout (set_rows c rows st) = st_stdout st.
Proof. reflexivity. Qed.

Lemma st_stdout_ensure st name : st_stdout (ensure name st) = st_stdout st.
Proof. unfold ensure. now destruct (dict_get _ _). Qed.

Lemma st_stdout_record st e : st_stdout (record e st) = st_stdout st.
Proof. reflexivity. Qed.

Lemma st_stdout_ticked st : st_stdout (ticked st) = st_stdout st.
Proof. reflexivity. Qed.

Lemma st_stdout_logged st t m : st_stdout (logged t m st) = st_stdout st.
Proof. reflexivity. Qed.

Lemma st_stdout_printed st l :
  st_stdout (printed l st) = st_stdout st ++ l.
Proof. reflexivity. Qed.

End StdoutFacts.

#[global] Hint Rewrite
  st_stdout_set_rows st_stdout_ensure st_stdout_record st_stdout_ticked
  st_stdout_logged st_stdout_printed : observe.

Section CreateProperties.

Variable clock : nat -> Q.
Variable embed : string -> embedding.

Definition is_boolean (v : pyval) : bool :=
  match v with
  | VBool _ => true
  | _ => false
  end.

Lemma stringified_no_boolean (items : dict pyval) :
  forallb (fun kv => negb (is_boolean (snd kv))) (stringified items) = true.
Proof.
  induction items as [|[k v] items IH]; simpl; auto.
  rewrite IH. now destruct v.
Qed.

Lemma dict_get_stamped (t : nat) (metadata : dict pyval) (k : string) :
  dict_get (stamped clock t metadata) k
  = if String.eqb k "updated_at" then Some (VNum (clock (S t)))
    else if String.eqb k "created_at" then Some (VNum (clock t))
    else dict_get metadata k.
Proof.
  unfold stamped.
  destruct (String.eqb_spec k "updated_at") as [->|Hu].
  - apply dict_get_set_same.
  - rewrite dict_get_set_other by congruence.
    destruct (String.eqb_spec k "created_at") as [->|Hc].
    + apply dict_get_set_same.
    + now rewrite dict_get_set_other by congruence.
Qed.

(** Whatever the text, the metadata, the embedding and the id, the memory
    read back under the id of the creation carries the text, the embedding
    given (or computed from the text), the two readings of the clock and
    each metadata value given (a boolean as its string).  A key that is not
    given is absent, unless the id was in use: then it has the value it had
    in the record of that id, whose metadata the backend writes over. *)
Theorem create_memory_get_memory_round_trip (category text : string)
    (metadata : dict pyval) (embedding : option embedding)
    (id : option string) (include_embeddings : bool) (st : state) :
  let new_id :=
    match id with
    | Some i => i
    | None => zfill 16 (str_nat (List.length (rows_of st category)))
    end in
  let st1 :=
    snd (create_memory clock embed category text metadata embedding id st) in
  let old :=
    find (fun r => String.eqb (row_id r) new_id) (rows_of st category) in
  exists m,
    fst (get_memory category new_id include_embeddings st1) = Ok (Some m)
    /\ mem_id m = new_id
    /\ mem_document m = text
    /\ mem_embedding m
       = (if include_embeddings
          then Some (match embedding with Some e => e | None => embed text end)
          else None)
    /\ dict_get (mem_metadata m) "created_at"
       = Some (VNum (clock (st_ticks st)))
    /\ dict_get (mem_metadata m) "updated_at"
       = Some (VNum (clock (S (st_ticks st))))
    /\ forall k, k <> "created_at" -> k <> "updated_at" ->
                 dict_get (mem_metadata m) k
                 = match dict_get metadata k with
                   | Some v => Some (stringify_value v)
                   | None =>
                       match old with
                       | Some r => dict_get (row_metadata r) k
                       | None => None
                       end
                   end.
Proof.
  intros new_id st1 old. unfold st1. rewrite create_memory_run. cbv zeta.
  unfold auto_id. fold new_id. simpl snd. rewrite get_memory_run.
  autorewrite with observe.
  set (new := created_row embed new_id text
                (stringified (stamped clock (st_ticks st) metadata)) embedding).
  change new_id with (row_id new) at 1.
  rewrite select_get_upsert_row.
  eexists. split; [reflexivity|]. unfold fetched. simpl.
  split; [apply upserted_id|]. split; [apply upserted_document|].
  split.
  { rewrite upserted_embedding. now destruct include_embeddings. }
  assert (Hnew : forall k,
             dict_get (row_metadata new) k
             = option_map stringify_value
                 (dict_get (stamped clock (st_ticks st) metadata) k)).
  { intros k. apply dict_get_stringified. }
  split; [|split].
  - apply upserted_metadata_written. now rewrite Hnew, dict_get_stamped.
  - apply upserted_metadata_written. now rewrite Hnew, dict_get_stamped.
  - intros k Hc Hu. rewrite upserted_metadata, Hnew, dict_get_stamped.
    apply String.eqb_neq in Hc, Hu. rewrite Hc, Hu.
    now destruct (dict_get metadata k).
Qed.

(** No boolean reaches the backend: the metadata handed to [upsert] holds no
    boolean value, and one warning is printed for each boolean field of the
    stamped metadata. *)
Theorem create_memory_stores_no_boolean (category text : string)
    (metadata : dict pyval) (embedding : option embedding)
    (id : option string) (st : state) :
  let st1 :=
    snd (create_memory clock embed category text metadata embedding id st) in
  (exists new_id stored,
      last (st_trace st1) (EvCount category)
      = EvUpsert category [new_id] [text] [stored]
      /\ forallb (fun kv => negb (is_boolean (snd kv))) stored = true
      /\ List.length stored
         = List.length (stamped clock (st_ticks st) metadata))
  /\ st_stdout st1
     = st_stdout st ++ boolean_warnings (stamped clock (st_ticks st) metadata)
  /\ List.length (boolean_warnings (stamped clock (st_ticks st) metadata))
     = List.length
         (filter (fun kv => is_boolean (snd kv))
            (stamped clock (st_ticks st) metadata)).
Proof.
  intros st1. unfold st1. rewrite create_memory_run. cbv zeta. simpl snd.
  split; [|split].
  - eexists. eexists. autorewrite with observe. rewrite last_last.
    split; [reflexivity|]. split; [apply stringified_no_boolean|].
    unfold stringified. apply length_map.
  - destruct id; now autorewrite with observe.
  - generalize (stamped clock (st_ticks st) metadata). intros items.
    induction items as [|[k v] items IH]; simpl; auto.
    destruct v; simpl; auto.
Qed.

End CreateProperties.

(** ** Computations that leave the records alone *)

Section Keeps.

Definition keeps_records {A} (m : M A) : Prop :=
  forall st c, rows_of (snd (m st)) c = rows_of st c.

Lemma keeps_ret {A} (a : A) : keeps_records (ret a).
Proof. intros st c. reflexivity. Qed.

Lemma keeps_raise {A} (e : exn) : keeps_records (@raise A e).
Proof. intros st c. reflexivity. Qed.

Lemma keeps_lift {A} (r : result A) : keeps_records (lift r).
Proof. intros st c. reflexivity. Qed.

Lemma keeps_bind {A B} (m : M A) (f : A -> M B) :
  keeps_records m -> (forall a, keeps_records (f a)) ->
  keeps_records (bind m f).
Proof.
  intros Hm Hf st c. unfold bind. specialize (Hm st c).
  destruct (m st) as [[a|e] st1]; simpl in *.
  - now rewrite Hf.
  - exact Hm.
Qed.

Lemma keeps_debug_log t msg : keeps_records (debug_log t msg).
Proof. intros st c. reflexivity. Qed.

Lemma keeps_check_client : keeps_records check_client_initialized.
Proof. intros st c. reflexivity. Qed.

Lemma keeps_get_or_create name : keeps_records (get_or_create_collection name).
Proof.
  intros st c. unfold get_or_create_collection. simpl.
  now autorewrite with observe.
Qed.

Lemma keeps_coll_count name : keeps_records (coll_count name).
Proof. intros st c. reflexivity. Qed.

Lemma keeps_coll_get name ids where_ wd limit inc :
  keeps_records (coll_get name ids where_ wd limit inc).
Proof.
  intros st c. unfold coll_get. now destruct (valid_filters where_ wd).
Qed.

Lemma keeps_coll_query embed distance name texts where_ wd n inc :
  keeps_records (coll_query embed distance name texts where_ wd n inc).
Proof.
  intros st c. unfold coll_query.
  now destruct (valid_filters where_ wd), (n =? 0)%nat.
Qed.

End Keeps.

Ltac keeps :=
  repeat first
    [ apply keeps_ret | apply keeps_raise | apply keeps_lift
    | apply keeps_debug_log | apply keeps_check_client
    | apply keeps_get_or_create | apply keeps_coll_count
    | apply keeps_coll_get | apply keeps_coll_query
    | apply keeps_bind; [|intros ?]
    | match goal with
      | |- keeps_records (if ?b then _ else _) => destruct b
      | |- keeps_records (match ?x with _ => _ end) => destruct x
      end ].

Section StoreProperties.

Variable clock : nat -> Q.
Variable embed : string -> embedding.
Variable distance : embedding -> embedding -> Q.

(** A creation adds one record when the id is new and writes over the
    record of that id otherwise; the records of other ids and the other
    categories are left alone. *)
Theorem create_memory_adds_or_replaces (category text : string)
    (metadata : dict pyval) (embedding : option embedding)
    (id : option string) (st : state) :
  let rows := rows_of st category in
  let new_id :=
    match id with
    | Some i => i
    | None => zfill 16 (str_nat (List.length rows))
    end in
  let st1 :=
    snd (create_memory clock embed category text metadata embedding id st) in
  fst (create_memory clock embed category text metadata embedding id st)
    = Ok tt
  /\ List.length (rows_of st1 category)
     = (if id_exists new_id rows then List.length rows
        else S (List.length rows))
  /\ id_exists new_id (rows_of st1 category) = true
  /\ (forall r, row_id r <> new_id ->
                (In r (rows_of st1 category) <-> In r rows))
  /\ (forall c, c <> category -> rows_of st1 c = rows_of st c).
Proof.
  intros rows new_id st1. unfold st1. rewrite create_memory_run. cbv zeta.
  unfold auto_id. fold rows. fold new_id. simpl.
  split; [reflexivity|]. autorewrite with observe.
  set (new := created_row embed new_id text
                (stringified (stamped clock (st_ticks st) metadata)) embedding).
  assert (Hid : row_id new = new_id) by reflexivity.
  split; [|split; [|split]].
  - unfold upsert_row. rewrite Hid.
    destruct (id_exists new_id rows).
    + apply length_map.
    + rewrite length_app. simpl. lia.
  - apply id_exists_In. rewrite <- Hid, <- (upserted_id rows new).
    apply in_map. apply In_upserted.
  - intros r Hr. split.
    + unfold upsert_row. rewrite Hid.
      destruct (id_exists new_id rows).
      * rewrite in_map_iff. intros [r' [E Hr']].
        destruct (String.eqb_spec (row_id r') new_id) as [Eid|Eid];
          subst; auto.
        contradiction.
      * intros Hin. apply in_app_or in Hin. destruct Hin as [|[<-|[]]]; auto.
        contradiction.
    + intros Hin. apply In_upsert_row_other; auto.
  - intros c Hc. autorewrite with observe.
    rewrite rows_of_set_rows_other by congruence.
    destruct id; now autorewrite with observe.
Qed.

Lemma first_of_selection {A B} (f : A -> B) (p : A -> bool) (l : list A) :
  match map f (firstn 1 (filter p l)) with
  | [] => None
  | x :: _ => Some x
  end = option_map f (find p l).
Proof.
  induction l as [|a l IH]; simpl; auto.
  destruct (p a); simpl; auto.
Qed.

(** [get_memory] never raises: it returns the first stored record of the
    id, or [None] when there is none, in which case the warning is logged;
    no record is changed. *)
Theorem get_memory_finds_or_none (category id : string)
    (include_embeddings : bool) (st : state) :
  let found :=
    find (fun r => String.eqb (row_id r) id) (rows_of st category) in
  let out := get_memory category id include_embeddings st in
  fst out
  = Ok (option_map (fetched (get_include_types include_embeddings false))
          found)
  /\ (forall c, rows_of (snd out) c = rows_of st c)
  /\ st_log (snd out)
     = st_log st
         ++ mkLog "info" ("Got memory " ++ id ++ " from category " ++ category)
         :: match found with
            | Some _ => []
            | None =>
                [mkLog "warning"
                   ("WARNING: Tried to get memory " ++ id ++ " from category "
                      ++ category ++ " but it does not exist")]
            end.
Proof.
  intros found out. unfold out.
  assert (Hsel :
    chroma_collection_to_list
      (columns_of (get_include_types include_embeddings false)
         (select_get (Some [id]) None None (Some 1) (rows_of st category)))
    = match found with
      | Some r => [fetched (get_include_types include_embeddings false) r]
      | None => []
      end).
  { rewrite chroma_collection_to_list_columns_of. unfold select_get, found.
    rewrite (filter_ext _ (fun r => String.eqb (row_id r) id)).
    2:{ intros r. rewrite has_id_one. unfold row_matches. simpl.
        apply andb_true_r. }
    induction (rows_of st category) as [|r rows IH]; simpl; auto.
    destruct (String.eqb (row_id r) id); simpl; auto. }
  unfold get_memory. run. autorewrite with observe. rewrite Hsel.
  destruct found; simpl; (split; [reflexivity|]); split; intros;
    autorewrite with observe; rewrite <- ?app_assoc; reflexivity.
Qed.

(** [memory_exists] answers whether some record has the id and passes the
    metadata filter given; a filter the backend does not accept makes it
    raise. *)
Theorem memory_exists_iff_stored (category id : string)
    (includes_metadata : option (dict pyval)) (st : state) :
  fst (memory_exists category id includes_metadata st)
  = if valid_filters includes_metadata None
    then Ok (existsb (fun r => String.eqb (row_id r) id
                               && row_matches includes_metadata None r)
               (rows_of st category))
    else Raise (ValueError "malformed filter").
Proof.
  unfold memory_exists. run. autorewrite with observe.
  destruct (valid_filters includes_metadata None); simpl; auto.
  unfold columns_of, select_get; simpl col_ids.
  rewrite length_map, existsb_firstn_filter. f_equal.
  apply existsb_eq. intros r. now rewrite has_id_one.
Qed.

(** The reading operations leave every record of every category as it was,
    whatever their arguments and whether they return or raise. *)
Theorem reading_keeps_records (category : string) :
  forall (st : state) (c : string),
  (forall search_text n_results filter_metadata contains_text
          include_embeddings include_distances max_distance min_distance
          unique,
      rows_of
        (snd (search_memory embed distance category search_text n_results
                filter_metadata contains_text include_embeddings
                include_distances max_distance min_distance unique st)) c
      = rows_of st c)
  /\ (forall id include_embeddings,
        rows_of (snd (get_memory category id include_embeddings st)) c
        = rows_of st c)
  /\ (forall sort_order contains_text filter_metadata n_results
             include_embeddings unique,
        rows_of
          (snd (get_memories category sort_order contains_text filter_metadata
                  n_results include_embeddings unique st)) c
        = rows_of st c)
  /\ (forall id includes_metadata,
        rows_of (snd (memory_exists category id includes_metadata st)) c
        = rows_of st c)
  /\ (forall unique,
        rows_of (snd (count_memories category unique st)) c = rows_of st c).
Proof.
  split; [|split; [|split; [|split]]].
  - intros. revert st c. change (keeps_records
      (search_memory embed distance category search_text n_results
         filter_metadata contains_text include_embeddings include_distances
         max_distance min_distance unique)).
    unfold search_memory. keeps.
  - intros. revert st c. change (keeps_records
      (get_memory category id include_embeddings)).
    unfold get_memory. keeps.
  - intros. revert st c. change (keeps_records
      (get_memories category sort_order contains_text filter_metadata
         n_results include_embeddings unique)).
    unfold get_memories. keeps.
  - intros. revert st c. change (keeps_records
      (memory_exists category id includes_metadata)).
    unfold memory_exists. keeps.
  - intros. revert st c. change (keeps_records
      (count_memories category unique)).
    unfold count_memories, obj_count. keeps.
Qed.

End StoreProperties.

(** ** What [search_memory] returns *)

Section SearchProperties.

Variable embed : string -> embedding.
Variable distance : embedding -> embedding -> Q.

Local Abbreviation dist := (dist_to embed distance).

(** The distance test of lines 184-188: a lower bound is applied when it is
    above zero, an upper bound when it is below one. *)
Definition in_window (min_distance max_distance : option Q) (d : Q) : bool :=
  match min_distance with
  | Some lo => if Qlt_bool 0%Q lo then Qle_bool lo d else true
  | None => true
  end &&
  match max_distance with
  | Some hi => if Qlt_bool hi 1%Q then Qle_bool d hi else true
  | None => true
  end.

Lemma filter_twice (p q : row -> bool) (rows : list row) :
  filter q (filter p rows) = filter (fun r => p r && q r) rows.
Proof.
  induction rows as [|r rows IH]; simpl; auto.
  destruct (p r); simpl; [destruct (q r)|]; now rewrite IH.
Qed.

(** The rows a search selects: the nearest [n_results] (at most the record
    count) of the rows passing the filters, then those within the distance
    window. *)
Definition search_selection (category search_text : string) (n_results : nat)
    (filter_metadata : option (dict pyval)) (contains_text : option string)
    (max_distance min_distance : option Q) (unique : bool) (st : state)
    : list row :=
  filter (fun r => in_window min_distance max_distance (dist search_text r))
    (select_query embed distance search_text
       (where_filter filter_metadata unique) (contains_clause contains_text)
       (Nat.min n_results (List.length (rows_of st category)))
       (rows_of st category)).

Lemma search_memory_with_distances category search_text n_results
    filter_metadata contains_text include_embeddings max_distance
    min_distance unique st :
  0 < n_results ->
  valid_filters (where_filter filter_metadata unique)
    (contains_clause contains_text) = true ->
  fst (search_memory embed distance category search_text n_results
         filter_metadata contains_text include_embeddings true max_distance
         min_distance unique st)
  = Ok (map (hit embed distance (get_include_types include_embeddings true)
               search_text)
          (search_selection category search_text n_results filter_metadata
             contains_text max_distance min_distance unique st)).
Proof.
  intros Hn Hvalid. unfold search_selection, contains_clause in *.
  destruct (rows_of st category) as [|r0 rows0] eqn:E.
  - rewrite search_memory_empty by assumption.
    unfold select_query. simpl. now rewrite firstn_nil.
  - rewrite <- E. unfold search_memory. run. autorewrite with observe.
    destruct (Nat.eqb_spec (List.length (rows_of st category)) 0) as [E0|E0].
    { rewrite E in E0. discriminate. }
    match goal with
    | |- context [valid_filters ?a ?b] =>
        change (valid_filters a b = true) in Hvalid
    end.
    rewrite Hvalid. autorewrite with observe.
    rewrite (min_eqb_0 n_results) by (assumption || lia).
    rewrite query_to_list. autorewrite with observe.
    set (sel := select_query embed distance search_text _ _ _ _).
    assert (Hinc : includes (get_include_types include_embeddings true)
                     IncDistances = true)
      by now destruct include_embeddings.
    unfold in_window.
    destruct min_distance as [lo|], max_distance as [hi|]; simpl;
      try destruct (Qlt_bool 0 lo); try destruct (Qlt_bool hi 1);
      unfold lift, ret; simpl;
      rewrite ?(filter_distance_hits embed distance _ _ _ _ Hinc); simpl;
      rewrite ?(filter_distance_hits embed distance _ _ _ _ Hinc); simpl;
      rewrite ?filter_twice; f_equal; f_equal;
      try (apply filter_ext; intros r; now rewrite ?andb_true_r);
      try (symmetry; apply filter_all; reflexivity).
Qed.

Lemma nearer_sorted_filter q (keep : row -> bool) (rows : list row) :
  StronglySorted (nearer embed distance q) rows ->
  StronglySorted (nearer embed distance q) (filter keep rows).
Proof.
  induction 1 as [|r rows Hs IH Hall]; simpl; [constructor|].
  destruct (keep r); auto. constructor; auto.
  rewrite Forall_forall in *. intros x Hx. apply filter_In in Hx.
  apply Hall. tauto.
Qed.

Lemma nearer_sorted_firstn q (n : nat) (rows : list row) :
  StronglySorted (nearer embed distance q) rows ->
  StronglySorted (nearer embed distance q) (firstn n rows).
Proof.
  intros Hs. revert n. induction Hs as [|r rows Hs IH Hall]; intros n.
  - rewrite firstn_nil. constructor.
  - destruct n; simpl; constructor; auto.
    rewrite Forall_forall in *. intros x Hx. apply Hall.
    rewrite <- (firstn_skipn n rows). apply in_or_app. auto.
Qed.

(** A search for one result or more that includes the distances and hands
    the backend filters it accepts returns the records of at most
    [n_results] stored rows that pass the filters and lie in the distance
    window, ordered by non-decreasing distance, each with its distance. *)
Theorem search_memory_results (category search_text : string)
    (n_results : nat) (filter_metadata : option (dict pyval))
    (contains_text : option string) (include_embeddings : bool)
    (max_distance min_distance : option Q) (unique : bool) (st : state) :
  0 < n_results ->
  valid_filters (where_filter filter_metadata unique)
    (contains_clause contains_text) = true ->
  exists selected : list row,
    fst (search_memory embed distance category search_text n_results
           filter_metadata contains_text include_embeddings true max_distance
           min_distance unique st)
    = Ok (map (fun r =>
                 mkMemory (row_id r) (row_document r) (row_metadata r)
                   (if include_embeddings then Some (row_embedding r)
                    else None)
                   (Some (dist search_text r))) selected)
    /\ List.length selected <= n_results
    /\ (forall r, In r selected ->
          In r (rows_of st category)
          /\ row_matches (where_filter filter_metadata unique)
               (contains_clause contains_text) r = true
          /\ in_window min_distance max_distance (dist search_text r) = true)
    /\ StronglySorted
         (fun a b => (dist search_text a <= dist search_text b)%Q) selected.
Proof.
  intros Hn Hvalid.
  exists (search_selection category search_text n_results filter_metadata
            contains_text max_distance min_distance unique st).
  split; [|split; [|split]].
  - rewrite search_memory_with_distances by assumption. f_equal.
    apply map_ext. intros r. unfold hit. now destruct include_embeddings.
  - unfold search_selection, select_query.
    etransitivity; [apply filter_length_le|].
    etransitivity; [apply firstn_le_length|]. apply Nat.le_min_l.
  - intros r Hr. unfold search_selection in Hr. apply filter_In in Hr.
    destruct Hr as [Hr Hw]. apply select_query_incl in Hr. tauto.
  - unfold search_selection. apply nearer_sorted_filter.
    unfold select_query. apply nearer_sorted_firstn.
    apply nearest_first_sorted.
Qed.


End SearchProperties.

(** ** What [get_memories] returns *)

Section GetMemoriesProperties.

(** The order [get_memories] asks for: ids descending for ["desc"],
    ascending otherwise. *)
Definition id_order (desc : bool) (a b : memory) : Prop :=
  (if desc then String.leb (mem_id b) (mem_id a)
   else String.leb (mem_id a) (mem_id b)) = true.

Lemma insert_by_id_perm desc m l :
  Permutation (insert_by_id desc m l) (m :: l).
Proof.
  induction l as [|x l IH]; simpl; auto.
  destruct (if desc then _ else _); auto.
  rewrite IH. apply perm_swap.
Qed.

Lemma sort_by_id_perm desc l : Permutation (sort_by_id desc l) l.
Proof.
  induction l as [|m l IH]; simpl; auto.
  rewrite insert_by_id_perm. now constructor.
Qed.

Lemma insert_by_id_sorted desc m l :
  Sorted (id_order desc) l -> Sorted (id_order desc) (insert_by_id desc m l).
Proof.
  induction 1 as [|x l Hs IH Hx]; simpl.
  - repeat constructor.
  - destruct (if desc then String.leb (mem_id x) (mem_id m)
              else String.leb (mem_id m) (mem_id x)) eqn:E.
    + constructor; [now constructor|]. constructor. exact E.
    + constructor; auto.
      assert (Hxm : id_order desc x m).
      { unfold id_order.
        destruct desc.
        - destruct (String.leb_total (mem_id x) (mem_id m)); congruence.
        - destruct (String.leb_total (mem_id m) (mem_id x)); congruence. }
      destruct l as [|y l']; simpl.
      * now constructor.
      * destruct (if desc then String.leb (mem_id y) (mem_id m)
                  else String.leb (mem_id m) (mem_id y)).
        -- now constructor.
        -- constructor. now inversion Hx.
Qed.

Lemma sort_by_id_sorted desc l : Sorted (id_order desc) (sort_by_id desc l).
Proof.
  induction l as [|m l IH]; simpl; [constructor|].
  now apply insert_by_id_sorted.
Qed.

Lemma id_order_sorted_firstn desc n (l : list memory) :
  Sorted (id_order desc) l -> Sorted (id_order desc) (firstn n l).
Proof.
  intros Hs. revert n. induction Hs as [|x l Hs IH Hx]; intros n.
  - rewrite firstn_nil. constructor.
  - destruct n; simpl; constructor; auto.
    destruct Hx as [|y l' Hy]; [rewrite firstn_nil; constructor|].
    destruct n; simpl; now constructor.
Qed.

(** With filters the backend accepts, [get_memories] returns at most
    [n_results] records, each of a stored row that passes the filters,
    sorted by id in the direction asked for; when [n_results] is at least
    the record count nothing is cut off: they are all the rows that pass. *)
Theorem get_memories_results (category sort_order : string)
    (contains_text : option string) (filter_metadata : option (dict pyval))
    (n_results : nat) (include_embeddings unique : bool) (st : state) :
  let where_ := where_filter filter_metadata unique in
  let wd := contains_clause contains_text in
  let passing := filter (row_matches where_ wd) (rows_of st category) in
  let record_of := fetched (get_include_types include_embeddings false) in
  valid_filters where_ wd = true ->
  exists results,
    fst (get_memories category sort_order contains_text filter_metadata
           n_results include_embeddings unique st) = Ok results
    /\ List.length results <= n_results
    /\ (forall m, In m results -> exists r, In r passing /\ m = record_of r)
    /\ Sorted (id_order (String.eqb sort_order "desc")) results
    /\ (List.length (rows_of st category) <= n_results ->
        Permutation results (map record_of passing)).
Proof.
  intros where_ wd passing record_of Hvalid.
  rewrite get_memories_run. cbv zeta. fold where_ wd. rewrite Hvalid.
  assert (Hsel : select_get None where_ wd None (rows_of st category)
                 = passing).
  { unfold select_get, passing. apply filter_ext. reflexivity. }
  rewrite Hsel. fold record_of.
  set (sorted := sort_by_id (String.eqb sort_order "desc")
                   (map record_of passing)).
  eexists. split; [reflexivity|]. split; [|split; [|split]].
  - etransitivity; [apply firstn_le_length|]. apply Nat.le_min_l.
  - intros m Hm.
    assert (Hin : In m sorted).
    { rewrite <- (firstn_skipn (Nat.min n_results
                                  (List.length (rows_of st category))) sorted).
      apply in_or_app. auto. }
    apply (Permutation_in _ (sort_by_id_perm _ _)) in Hin.
    apply in_map_iff in Hin. destruct Hin as [r [E Hr]]. eauto.
  - apply id_order_sorted_firstn. apply sort_by_id_sorted.
  - intros Hle. rewrite Nat.min_r by assumption.
    rewrite firstn_all2.
    + apply sort_by_id_perm.
    + unfold sorted.
      rewrite (Permutation_length (sort_by_id_perm _ _)), length_map.
      unfold passing. apply filter_length_le.
Qed.

End GetMemoriesProperties.

(** ** [update_memory] with metadata *)

Section UpdateProperties.

Variable clock : nat -> Q.

(** With metadata given, [update_memory] returns normally and asks the
    backend for one update of the id: the documents are the text when there
    is one and absent otherwise; the metadata is the one given with its
    booleans as strings and [updated_at] set to the reading of the clock.
    No record changes its id, and the records of other ids and other
    categories are as before. *)
Theorem update_memory_hands_over (category id : string)
    (text : option string) (metadata : dict pyval) (st : state) :
  let out := update_memory clock category id text (Some metadata) st in
  exists sent,
    fst out = Ok tt
    /\ st_trace (snd out)
       = st_trace st
           ++ [EvGetOrCreateCollection category;
               EvUpdate category [id]
                 (match text with Some t => Some [t] | None => None end)
                 (Some [sent])]
    /\ dict_get sent "updated_at" = Some (VNum (clock (st_ticks st)))
    /\ (forall k, k <> "updated_at" ->
                  dict_get sent k
                  = option_map stringify_value (dict_get metadata k))
    /\ map row_id (rows_of (snd out) category)
       = map row_id (rows_of st category)
    /\ (forall r, row_id r <> id ->
                  (In r (rows_of (snd out) category)
                   <-> In r (rows_of st category)))
    /\ (forall c, c <> category -> rows_of (snd out) c = rows_of st c).
Proof.
  intros out. unfold out. rewrite update_memory_with_metadata. cbv zeta.
  eexists. split; [reflexivity|]. simpl snd. autorewrite with observe.
  split; [now rewrite <- app_assoc|].
  split; [apply dict_get_set_same|].
  split; [|split; [|split]].
  - intros k Hk. rewrite dict_get_set_other by congruence.
    apply dict_get_stringified.
  - apply update_rows_ids.
  - intros r Hr. unfold update_rows. simpl.
    rewrite in_map_iff. split.
    + intros [r' [E Hr']]. unfold update_row in E.
      destruct (String.eqb_spec (row_id r') id) as [Eid|Eid].
      * subst r. simpl in Hr. contradiction.
      * now subst.
    + intros Hin. exists r. split; auto. unfold update_row.
      apply String.eqb_neq in Hr. now rewrite Hr.
  - intros c Hc. autorewrite with observe.
    rewrite rows_of_set_rows_other by congruence.
    now autorewrite with observe.
Qed.

End UpdateProperties.

(** ** Creating and deleting *)

Section CreateDeleteProperties.

Variable clock : nat -> Q.
Variable embed : string -> embedding.

(** Deleting a memory just created under an id that was not in use gives
    back the records the category had before. *)
Theorem create_memory_then_delete_memory (category text : string)
    (metadata : dict pyval) (embedding : option embedding)
    (id : option string) (st : state) :
  let new_id :=
    match id with
    | Some i => i
    | None => zfill 16 (str_nat (List.length (rows_of st category)))
    end in
  id_exists new_id (rows_of st category) = false ->
  rows_of
    (snd (delete_memory category new_id
            (snd (create_memory clock embed category text metadata embedding
                    id st)))) category
  = rows_of st category.
Proof.
  intros new_id Hfresh.
  rewrite delete_memory_rows, String.eqb_refl.
  rewrite create_memory_run. cbv zeta. unfold auto_id. fold new_id.
  simpl snd. autorewrite with observe.
  unfold upsert_row. simpl row_id. rewrite Hfresh.
  unfold delete_rows. rewrite filter_app.
  fold (delete_rows [new_id] (rows_of st category)).
  rewrite (delete_rows_missing _ _ Hfresh).
  cbn [filter]. rewrite has_id_one. simpl row_id. rewrite String.eqb_refl.
  apply app_nil_r.
Qed.

End CreateDeleteProperties.

(** ** More on [delete_similar_memories] *)

Section DeleteSimilarProperties.

Variable embed : string -> embedding.
Variable distance : embedding -> embedding -> Q.

Definition none_found_warning (category content : string) : log_entry :=
  mkLog "warning"
    ("WARNING: Tried to delete similar memories to " ++ content
       ++ " in category " ++ category ++ " but none were found").

(** The closing warning "none were found" is logged by every call, also by
    one that has deleted memories and returns true. *)
Theorem delete_similar_memories_always_warns (category content : string)
    (similarity_threshold : Q) (st : state) :
  exists (deleted : bool) (st1 : state),
    delete_similar_memories embed distance category content
      similarity_threshold st
    = (Ok deleted,
       logged "warning" (log_message (none_found_warning category content))
         st1)
    /\ (deleted = true
        <-> similar_prefix embed distance category content
              similarity_threshold st <> []).
Proof.
  destruct (search_memory_defaults_spec embed distance category content st)
    as [st1 [Hsearch Hrows1]].
  unfold delete_similar_memories. unfold bind at 1. rewrite Hsearch.
  assert (Hids : similar_ids similarity_threshold
                   (search_hits embed distance category content st)
                 = Ok (map mem_id
                         (similar_prefix embed distance category content
                            similarity_threshold st))).
  { apply similar_ids_take_while. apply hits_have_distance. }
  assert (Hsel :
    (if (0 <? List.length (search_hits embed distance category content st))%nat
     then lift (similar_ids similarity_threshold
                  (search_hits embed distance category content st))
     else ret []) st1
    = (Ok (map mem_id (similar_prefix embed distance category content
                         similarity_threshold st)), st1)).
  { unfold similar_prefix in *.
    destruct (search_hits embed distance category content st); simpl in *;
      auto.
    unfold lift. now rewrite Hids. }
  unfold bind at 1. rewrite Hsel. rewrite length_map.
  destruct (similar_prefix embed distance category content
              similarity_threshold st) as [|m prefix] eqn:Eprefix.
  - simpl. run. eexists. eexists. split; [reflexivity|].
    split; [discriminate|congruence].
  - change (0 <? List.length (m :: prefix))%nat with true. cbv iota.
    unfold bind at 1. unfold bind at 1. unfold debug_log at 1.
    destruct (for_each_delete_memory category (map mem_id (m :: prefix))
                (logged "info"
                   ("Deleting similar memories to " ++ content
                      ++ " in category " ++ category) st1))
      as [st2 [Hrun _]].
    rewrite Hrun. run. eexists. eexists. split; [reflexivity|].
    split; [discriminate|reflexivity].
Qed.

Lemma take_while_none {A} (p : A -> bool) (l : list A) :
  (forall x, In x l -> p x = false) -> take_while p l = [].
Proof.
  destruct l as [|x l]; simpl; auto. intros H.
  now rewrite (H x (or_introl eq_refl)).
Qed.

(** The comparison with the threshold is strict: with distances that are
    never negative, a threshold of one or more deletes nothing, not even an
    exact duplicate, and the call returns false. *)
Theorem delete_similar_memories_threshold_one (category content : string)
    (similarity_threshold : Q) (st : state) :
  (forall a b, (0 <= distance a b)%Q) ->
  (1 <= similarity_threshold)%Q ->
  fst (delete_similar_memories embed distance category content
         similarity_threshold st) = Ok false
  /\ forall c,
       rows_of (snd (delete_similar_memories embed distance category content
                       similarity_threshold st)) c = rows_of st c.
Proof.
  intros Hdist Hthr.
  destruct (delete_similar_memories_run embed distance category content
              similarity_threshold st) as [st' [Hrun Hrows]].
  assert (Hnone : similar_prefix embed distance category content
                    similarity_threshold st = []).
  { unfold similar_prefix. apply take_while_none.
    intros m Hm. unfold search_hits in Hm. apply in_map_iff in Hm.
    destruct Hm as [r [<- _]]. unfold similar. simpl.
    unfold Qlt_bool. apply negb_false_iff. apply Qle_bool_iff.
    apply Qle_trans with 1%Q; [|exact Hthr].
    specialize (Hdist (embed content) (row_embedding r)).
    unfold dist_to. unfold Qminus. rewrite <- (Qplus_0_r 1) at 2.
    apply Qplus_le_compat; [apply Qle_refl|].
    change 0%Q with (- 0)%Q. now apply Qopp_le_compat. }
  rewrite Hrun, Hnone in *. split; [reflexivity|].
  intros c. simpl snd. rewrite Hrows. simpl. rewrite delete_rows_nil.
  now destruct (String.eqb category c).
Qed.

End DeleteSimilarProperties.

(** * Wiping *)

(** ** The model of [wipe_category] and [wipe_all_memories] *)

Module Wiping.

Local Open Scope run_scope.

(** The dictionary without the key [k]. *)
Definition dict_remove {V} (d : dict V) (k : string) : dict V :=
  filter (fun kv => negb (String.eqb (fst kv) k)) d.

Definition dropped (name : string) (st : state) : state :=
  mkState (dict_remove (st_store st) name) (st_ticks st) (st_trace st)
    (st_log st) (st_stdout st).

Definition no_collection (name : string) : exn :=
  ValueError ("Collection " ++ name ++ " does not exist.").

(** Modelled from the spec: the three calls of the backend client that only
    the wiping functions use.  [get_collection] and [delete_collection]
    raise when there is no collection of that name; [list_collections] gives
    the collections in the order of their creation.  These calls are not
    written to the trace of the state. *)
Definition get_collection (name : string) : M collection :=
  fun st =>
    match dict_get (st_store st) name with
    | Some _ => (Ok name, st)
    | None => (Raise (no_collection name), st)
    end.

Definition delete_collection (name : string) : M unit :=
  fun st =>
    match dict_get (st_store st) name with
    | Some _ => (Ok tt, dropped name st)
    | None => (Raise (no_collection name), st)
    end.

Definition list_collections : M (list collection) :=
  fun st => (Ok (dict_keys (st_store st)), st).

(** [try: body  except Exception: handler] *)
Definition try_except {A} (body handler : M A) : M A :=
  fun st =>
    match body st with
    | (Ok a, st') => (Ok a, st')
    | (Raise _, st') => handler st'
    end.

Definition wipe_warning (category : string) : string :=
  "WARNING: Tried to wipe category " ++ category ++ " but it does not exist".

Definition wipe_category (category : string) : M unit :=
  collection <-
    try_except
      (c <- get_collection category ;; ret (Some c))
      (debug_log "warning" (wipe_warning category) ;; ret None) ;;
  match collection with
  | Some _ => delete_collection category
  | None => ret tt
  end.

Definition wipe_all_memories : M unit :=
  check_client_initialized ;;
  collections <- list_collections ;;
  for_each collections (fun name => delete_collection name) ;;
  debug_log "system" "Wiped all memories".

End Wiping.
Export Wiping.

(** ** Properties of wiping *)

Section WipeProperties.

Lemma dict_get_remove_same (d : dict (list row)) (k : string) :
  dict_get (dict_remove d k) k = None.
Proof.
  unfold dict_remove. induction d as [|[k' v] d IH]; simpl; auto.
  destruct (String.eqb k' k) eqn:E; simpl; auto. now rewrite E.
Qed.

Lemma dict_get_remove_other (d : dict (list row)) (k k' : string) :
  k <> k' -> dict_get (dict_remove d k) k' = dict_get d k'.
Proof.
  intros Hne. unfold dict_remove.
  induction d as [|[k0 v] d IH]; simpl; auto.
  destruct (String.eqb_spec k0 k) as [->|E]; simpl.
  - apply String.eqb_neq in Hne. now rewrite Hne.
  - now rewrite IH.
Qed.

Lemma dict_remove_absent (d : dict (list row)) (k : string) :
  ~ In k (dict_keys d) -> dict_remove d k = d.
Proof.
  unfold dict_remove. induction d as [|[k' v] d IH]; simpl; auto.
  intros H. destruct (String.eqb_spec k' k) as [->|E]; simpl.
  - exfalso. auto.
  - f_equal. apply IH. tauto.
Qed.

Lemma wipe_category_run (category : string) (st : state) :
  wipe_category category st
  = match dict_get (st_store st) category with
    | Some _ => (Ok tt, dropped category st)
    | None => (Ok tt, logged "warning" (wipe_warning category) st)
    end.
Proof.
  unfold wipe_category, try_except, get_collection, bind at 1.
  unfold bind at 1.
  destruct (dict_get (st_store st) category) eqn:E; run.
  - unfold delete_collection. now rewrite E.
  - reflexivity.
Qed.

(** [wipe_category] never raises.  Afterwards the category does not exist:
    it has no records, and the next automatically assigned id is the one of
    count zero.  The other categories are as they were.  A warning is logged
    exactly when the category did not exist, and then nothing else
    changes. *)
Theorem wipe_category_removes (category : string) (st : state) :
  let out := wipe_category category st in
  fst out = Ok tt
  /\ dict_get (st_store (snd out)) category = None
  /\ rows_of (snd out) category = []
  /\ (forall c, c <> category ->
                dict_get (st_store (snd out)) c = dict_get (st_store st) c)
  /\ st_log (snd out)
     = st_log st
         ++ (match dict_get (st_store st) category with
             | Some _ => []
             | None => [mkLog "warning" (wipe_warning category)]
             end)
  /\ (dict_get (st_store st) category = None ->
      st_store (snd out) = st_store st).
Proof.
  intros out. unfold out. rewrite wipe_category_run.
  destruct (dict_get (st_store st) category) eqn:E; simpl.
  - split; [reflexivity|].
    assert (Hnone : dict_get (dict_remove (st_store st) category) category
                    = None) by apply dict_get_remove_same.
    split; [exact Hnone|]. split.
    + unfold rows_of. simpl. now rewrite Hnone.
    + split; [|split].
      * intros c Hc. apply dict_get_remove_other. congruence.
      * now rewrite app_nil_r.
      * discriminate.
  - split; [reflexivity|]. split; [exact E|]. split.
    + unfold rows_of. simpl. now rewrite E.
    + auto.
Qed.

Lemma wipe_category_rows (category : string) (st : state) :
  rows_of (snd (wipe_category category st)) category = [].
Proof.
  rewrite wipe_category_run. unfold rows_of.
  destruct (dict_get (st_store st) category) eqn:E; simpl.
  - now rewrite dict_get_remove_same.
  - now rewrite E.
Qed.

Lemma delete_each_collection (d : dict (list row)) :
  NoDup (dict_keys d) ->
  forall st,
    st_store st = d ->
    for_each (dict_keys d) (fun name : collection => delete_collection name)
      st
    = (Ok tt,
       mkState [] (st_ticks st) (st_trace st) (st_log st) (st_stdout st)).
Proof.
  induction d as [|[k v] d IH]; intros Hnd st Hst.
  - simpl. unfold ret. destruct st; simpl in *. now subst.
  - simpl in Hnd. inversion Hnd as [|k' l Hk Hnd']. subst.
    simpl for_each. unfold bind at 1, delete_collection at 1.
    rewrite Hst. simpl dict_get. rewrite String.eqb_refl.
    rewrite (IH Hnd' (dropped k st)).
    + reflexivity.
    + unfold dropped. simpl st_store. rewrite Hst.
      unfold dict_remove. simpl filter. rewrite String.eqb_refl. simpl negb.
      cbv iota. now apply dict_remove_absent.
Qed.

(** With the collections named apart, [wipe_all_memories] returns normally
    and leaves no collection, so that every category counts zero memories
    afterwards; it logs one message of type system, and neither reads the
    clock nor prints nor calls a recorded operation of the backend. *)
Theorem wipe_all_memories_empties (st : state) :
  NoDup (dict_keys (st_store st)) ->
  wipe_all_memories st
  = (Ok tt,
     mkState [] (st_ticks st) (st_trace st)
       (st_log st ++ [mkLog "system" "Wiped all memories"]) (st_stdout st))
  /\ forall category,
       fst (count_memories category false (snd (wipe_all_memories st)))
       = Ok 0.
Proof.
  intros Hnd.
  assert (Hrun : wipe_all_memories st
                 = (Ok tt,
                    mkState [] (st_ticks st) (st_trace st)
                      (st_log st ++ [mkLog "system" "Wiped all memories"])
                      (st_stdout st))).
  { unfold wipe_all_memories, check_client_initialized.
    unfold bind at 1, ret at 1. unfold bind at 1, list_collections at 1.
    unfold bind at 1.
    pose proof (delete_each_collection (st_store st) Hnd st eq_refl) as Hdel.
    unfold collection in Hdel |- *. rewrite Hdel. reflexivity. }
  split; [exact Hrun|]. intros category. rewrite Hrun. simpl snd.
  unfold count_memories. run. now autorewrite with observe.
Qed.

End WipeProperties.

Section WipeThenCreate.

Variable clock : nat -> Q.
Variable embed : string -> embedding.

(** A memory created without an id in a category that has just been wiped
    gets the id of count zero and is the only record of the category. *)
Theorem wipe_category_then_create_memory (category text : string)
    (metadata : dict pyval) (embedding : option embedding) (st : state) :
  let st1 := snd (wipe_category category st) in
  let st2 := snd (create_memory clock embed category text metadata embedding
                    None st1) in
  map row_id (rows_of st2 category) = ["0000000000000000"]
  /\ map row_document (rows_of st2 category) = [text].
Proof.
  intros st1 st2.
  assert (Hrows : rows_of st1 category = []) by apply wipe_category_rows.
  unfold st2. rewrite create_memory_run. cbv zeta. unfold auto_id.
  simpl snd. autorewrite with observe. rewrite Hrows.
  unfold upsert_row. simpl. split; reflexivity.
Qed.

End WipeThenCreate.

(** ** What a metadata filter selects *)

Section FilterProperties.




End FilterProperties.

(** ** [get_memories] and the order of creation *)

Section CreationOrder.

(** Ids strictly increasing along the list, in the order of strings. *)
Definition ascending (l : list memory) : Prop :=
  StronglySorted (fun a b => str_lt (mem_id a) (mem_id b)) l.

Lemma str_lt_leb (s t : string) : str_lt s t -> String.leb s t = true.
Proof.
  unfold str_lt, String.ltb, String.leb.
  now destruct (String.compare s t).
Qed.

Lemma str_lt_not_leb (s t : string) : str_lt s t -> String.leb t s = false.
Proof.
  unfold str_lt, String.ltb, String.leb.
  rewrite (String.compare_antisym s t).
  now destruct (String.compare t s).
Qed.

Lemma sort_by_id_ascending (l : list memory) :
  ascending l -> sort_by_id false l = l.
Proof.
  induction 1 as [|m l Hl IH Hm]; simpl; auto.
  fold (sort_by_id false l). rewrite IH.
  destruct Hm as [|x l' Hx _]; simpl; auto.
  now rewrite (str_lt_leb _ _ Hx).
Qed.

Lemma insert_by_id_last (m : memory) (l : list memory) :
  Forall (fun x => str_lt (mem_id m) (mem_id x)) l ->
  insert_by_id true m l = l ++ [m].
Proof.
  induction 1 as [|x l Hx _ IH]; simpl; auto.
  now rewrite (str_lt_not_leb _ _ Hx), IH.
Qed.

Lemma sort_by_id_descending (l : list memory) :
  ascending l -> sort_by_id true l = rev l.
Proof.
  induction 1 as [|m l Hl IH Hm]; simpl; auto.
  fold (sort_by_id true l). rewrite IH.
  apply insert_by_id_last. apply Forall_forall. intros x Hx.
  rewrite Forall_forall in Hm. apply Hm. now apply in_rev.
Qed.

Lemma ascending_fetched (inc : list include_type) (rows : list row) :
  StronglySorted str_lt (map row_id rows) ->
  ascending (map (fetched inc) rows).
Proof.
  unfold ascending. induction rows as [|r rows IH]; simpl; intros H.
  - constructor.
  - inversion H as [|x l Hs Hx]; subst. constructor; auto.
    apply Forall_forall. intros m Hm. apply in_map_iff in Hm.
    destruct Hm as [r' [<- Hr']]. simpl.
    rewrite Forall_forall in Hx. apply Hx. now apply in_map.
Qed.

(** In a category whose records carry the ids of the counts [0 .. n-1] in
    this order, as after [n] creations without id and nothing deleted,
    [get_memories] without filters returns the records in the order of
    their creation, cut to [n_results]; with ["desc"], the default, it is
    the reverse order: the [n_results] newest records, the newest first. *)
Theorem get_memories_creation_order (category sort_order : string)
    (n_results : nat) (include_embeddings : bool) (st : state) :
  counted (rows_of st category) ->
  fits (List.length (rows_of st category)) ->
  fst (get_memories category sort_order None None n_results
         include_embeddings false st)
  = Ok (map (fetched (get_include_types include_embeddings false))
          (firstn n_results
             (if String.eqb sort_order "desc"
              then rev (rows_of st category)
              else rows_of st category))).
Proof.
  intros Hc Hfit. rewrite get_memories_run. cbv zeta.
  change (valid_filters (where_filter None false) (contains_clause None))
    with true. cbv iota. simpl fst. f_equal.
  set (rows := rows_of st category) in *.
  set (inc := get_include_types include_embeddings false).
  match goal with
  | |- context [select_get ?ids ?w ?wd ?limit rows] =>
      replace (select_get ids w wd limit rows) with rows
        by (unfold select_get; symmetry; apply filter_all; reflexivity)
  end.
  assert (Hasc : ascending (map (fetched inc) rows)).
  { apply ascending_fetched. rewrite Hc. apply ids_of_counts_sorted.
    exact Hfit. }
  assert (Hcut : forall l : list memory,
             List.length l = List.length rows ->
             firstn (Nat.min n_results (List.length rows)) l
             = firstn n_results l).
  { intros l Hl. destruct (Nat.le_ge_cases n_results (List.length rows)).
    - now rewrite Nat.min_l.
    - rewrite Nat.min_r by assumption. rewrite !firstn_all2; auto; lia. }
  destruct (String.eqb sort_order "desc").
  - rewrite (sort_by_id_descending _ Hasc), <- map_rev.
    rewrite Hcut by (now rewrite length_map, length_rev).
    apply firstn_map.
  - rewrite (sort_by_id_ascending _ Hasc).
    rewrite Hcut by (now rewrite length_map).
    apply firstn_map.
Qed.

End CreationOrder.

(** ** Reading creates the category *)

Section ReadingCreates.

(** The collections there are stay, each with its records. *)
Definition keeps_collections {A} (m : M A) : Prop :=
  forall st name rows,
    dict_get (st_store st) name = Some rows ->
    dict_get (st_store (snd (m st))) name = Some rows.

Lemma stay_ret {A} (a : A) : keeps_collections (ret a).
Proof. intros st name rows H. exact H. Qed.

Lemma stay_raise {A} (e : exn) : keeps_collections (@raise A e).
Proof. intros st name rows H. exact H. Qed.

Lemma stay_lift {A} (r : result A) : keeps_collections (lift r).
Proof. intros st name rows H. exact H. Qed.

Lemma stay_bind {A B} (m : M A) (f : A -> M B) :
  keeps_collections m -> (forall a, keeps_collections (f a)) ->
  keeps_collections (bind m f).
Proof.
  intros Hm Hf st name rows H. unfold bind. specialize (Hm st name rows H).
  destruct (m st) as [[a|e] st1]; simpl in *.
  - now apply Hf.
  - exact Hm.
Qed.

Lemma stay_debug_log t msg : keeps_collections (debug_log t msg).
Proof. intros st name rows H. exact H. Qed.

Lemma stay_coll_count name : keeps_collections (coll_count name).
Proof. intros st c rows H. exact H. Qed.

Lemma stay_coll_get name ids where_ wd limit inc :
  keeps_collections (coll_get name ids where_ wd limit inc).
Proof.
  intros st c rows H. unfold coll_get. now destruct (valid_filters where_ wd).
Qed.

Lemma stay_coll_query embed distance name texts where_ wd n inc :
  keeps_collections (coll_query embed distance name texts where_ wd n inc).
Proof.
  intros st c rows H. unfold coll_query.
  now destruct (valid_filters where_ wd), (n =? 0)%nat.
Qed.

Lemma ensured_collection category e st :
  dict_get (st_store (ensure category (record e st))) category
  = Some (rows_of st category).
Proof.
  unfold ensure, rows_of. simpl.
  destruct (dict_get (st_store st) category) eqn:E; simpl.
  - exact E.
  - apply dict_get_set_same.
Qed.

(** A function that starts by fetching the collection of the category and
    then keeps the collections leaves the category in existence. *)
Lemma after_get_or_create {A} (rest : collection -> M A) category st :
  (forall c, keeps_collections (rest c)) ->
  dict_get
    (st_store
       (snd (bind check_client_initialized
               (fun _ => bind (get_or_create_collection category) rest) st)))
    category
  = Some (rows_of st category).
Proof.
  intros Hrest. unfold bind at 1, check_client_initialized, ret.
  unfold bind at 1, get_or_create_collection.
  apply Hrest. apply ensured_collection.
Qed.

End ReadingCreates.

Ltac stays :=
  repeat first
    [ apply stay_ret | apply stay_raise | apply stay_lift
    | apply stay_debug_log | apply stay_coll_count
    | apply stay_coll_get | apply stay_coll_query
    | apply stay_bind; [|intros ?]
    | match goal with
      | |- keeps_collections (if ?b then _ else _) => destruct b
      | |- keeps_collections (match ?x with _ => _ end) => destruct x
      end ].

Section ReadingCreatesCategory.

Variable embed : string -> embedding.
Variable distance : embedding -> embedding -> Q.

(** The reading operations are not without effect on the backend: each
    fetches the collection with [get_or_create_collection], so a category
    that did not exist is there afterwards, without records, whatever the
    arguments and whether the call returns or raises.  A category that was
    there keeps its records. *)
Theorem reading_creates_category (category : string) (st : state) :
  (forall search_text n_results filter_metadata contains_text
          include_embeddings include_distances max_distance min_distance
          unique,
      dict_get
        (st_store
           (snd (search_memory embed distance category search_text n_results
                   filter_metadata contains_text include_embeddings
                   include_distances max_distance min_distance unique st)))
        category
      = Some (rows_of st category))
  /\ (forall id include_embeddings,
        dict_get
          (st_store (snd (get_memory category id include_embeddings st)))
          category
        = Some (rows_of st category))
  /\ (forall sort_order contains_text filter_metadata n_results
             include_embeddings unique,
        dict_get
          (st_store
             (snd (get_memories category sort_order contains_text
                     filter_metadata n_results include_embeddings unique st)))
          category
        = Some (rows_of st category))
  /\ (forall id includes_metadata,
        dict_get
          (st_store (snd (memory_exists category id includes_metadata st)))
          category
        = Some (rows_of st category))
  /\ (forall unique,
        dict_get (st_store (snd (count_memories category unique st)))
          category
        = Some (rows_of st category)).
Proof.
  split; [|split; [|split; [|split]]]; intros.
  - unfold search_memory. cbv zeta. apply after_get_or_create.
    intros c. stays.
  - unfold get_memory. apply after_get_or_create. intros c. stays.
  - unfold get_memories. apply after_get_or_create. intros c. stays.
  - unfold memory_exists. apply after_get_or_create. intros c. stays.
  - unfold count_memories. apply after_get_or_create. intros c.
    unfold obj_count. stays.
Qed.

End ReadingCreatesCategory.

(** * The default of [metadata] *)

(** [create_memory] and [create_unique_memory] declare [metadata={}].  The
    default is evaluated once, when the function is defined, so the calls
    that omit the argument all work on one dictionary.  Both functions write
    into the dictionary they are given, and [create_unique_memory] passes it
    on to [create_memory]: what one call writes is there for the next. *)

Module SharedDefault.

Section SharedDefault.

Variable clock : nat -> Q.
Variable embed : string -> embedding.
Variable distance : embedding -> embedding -> Q.

Local Open Scope run_scope.

(** [create_memory], returning what the dictionary bound to [metadata] holds
    when the call ends: lines 37, 38 and 52 write into the dictionary
    itself. *)
Definition create_memory_object (category text : string)
    (metadata : dict pyval) (embedding : option embedding)
    (id : option string) : M (dict pyval) :=
  check_client_initialized ;;
  memories <- get_or_create_collection category ;;
  created_at <- now clock ;;
  let metadata := dict_set metadata "created_at" (VNum created_at) in
  updated_at <- now clock ;;
  let metadata := dict_set metadata "updated_at" (VNum updated_at) in
  id <- match id with
        | None => n <- coll_count memories ;; ret (zfill 16 (str_nat n))
        | Some id => ret id
        end ;;
  metadata <- stringify_booleans metadata ;;
  coll_upsert embed memories [id] [text] [metadata]
    (match embedding with Some e => Some [e] | None => None end) ;;
  debug_log "info" ("Created memory " ++ id ++ ": " ++ text) ;;
  ret metadata.

(** [create_unique_memory], likewise: lines 90 and 94-96 write into the
    dictionary before it is passed on. *)
Definition create_unique_memory_object (category content : string)
    (metadata : dict pyval) (similarity : Q) : M (dict pyval) :=
  let max_distance := (1 - similarity)%Q in
  memories <- search_memory embed distance category content 1
                (Some [("unique", VStr "True")]) None true true
                (Some max_distance) (Some 0%Q) false ;;
  match memories with
  | [] =>
      let metadata := dict_set metadata "unique" (VStr "True") in
      create_memory_object category content metadata None None
  | first :: _ =>
      let metadata := dict_set metadata "unique" (VStr "False") in
      let metadata := dict_set metadata "related_to" (VStr (mem_id first)) in
      let metadata :=
        dict_set metadata "related_document" (VStr (mem_document first)) in
      create_memory_object category content metadata None None
  end.

(** [create_unique_memory(category, content)]: [metadata] is the shared
    dictionary, which holds [shared] before the call and the result after
    it; [similarity] is [0.95]. *)
Definition create_unique_memory_default (category content : string)
    (shared : dict pyval) : M (dict pyval) :=
  create_unique_memory_object category content shared (95 # 100)%Q.

(** The search this call makes. *)
Definition search_unique (category content : string) : M (list memory) :=
  search_memory embed distance category content 1
    (Some [("unique", VStr "True")]) None true true
    (Some (1 - (95 # 100))%Q) (Some 0%Q) false.

End SharedDefault.

End SharedDefault.
Export SharedDefault.

Section SharedDefaultProperties.

Variable clock : nat -> Q.
Variable embed : string -> embedding.
Variable distance : embedding -> embedding -> Q.

(** The two forms of [create_memory] act alike on the state, and the
    dictionary ends as what the backend was handed. *)
Lemma create_memory_object_run category text metadata embedding id st :
  create_memory_object clock embed category text metadata embedding id st
  = (Ok (stringified (stamped clock (st_ticks st) metadata)),
     snd (create_memory clock embed category text metadata embedding id st)).
Proof.
  rewrite create_memory_run. cbv zeta.
  unfold create_memory_object, stamped, auto_id, created_row. run.
  destruct id as [i|]; run; rewrite stringify_booleans_run; run;
    autorewrite with observe; destruct embedding; reflexivity.
Qed.

(** What [create_unique_memory] has written into the dictionary when it
    calls [create_memory]. *)
Definition marked (metadata : dict pyval) (memories : list memory)
    : dict pyval :=
  match memories with
  | [] => dict_set metadata "unique" (VStr "True")
  | first :: _ =>
      dict_set
        (dict_set (dict_set metadata "unique" (VStr "False"))
           "related_to" (VStr (mem_id first)))
        "related_document" (VStr (mem_document first))
  end.

Lemma create_unique_memory_default_run category content shared st :
  create_unique_memory_default clock embed distance category content shared st
  = match search_unique embed distance category content st with
    | (Ok memories, st1) =>
        create_memory_object clock embed category content
          (marked shared memories) None None st1
    | (Raise e, st1) => (Raise e, st1)
    end.
Proof.
  unfold create_unique_memory_default, create_unique_memory_object,
    search_unique.
  unfold bind at 1.
  destruct (search_memory _ _ _ _ _ _ _ _ _ _ _ _ st) as [[memories|e] st1];
    auto.
  now destruct memories.
Qed.

(** The two forms of [create_unique_memory] act alike on the state. *)
Lemma create_unique_memory_default_state category content shared st :
  snd (create_unique_memory_default clock embed distance category content
         shared st)
  = snd (create_unique_memory clock embed distance category content shared
           (95 # 100)%Q st).
Proof.
  rewrite create_unique_memory_default_run.
  unfold search_unique, create_unique_memory. unfold bind at 1.
  destruct (search_memory _ _ _ _ _ _ _ _ _ _ _ _ st) as [[memories|e] st1];
    auto.
  destruct memories; simpl; now rewrite create_memory_object_run.
Qed.

(** A relation written by one call with the default metadata stays in the
    dictionary: when a call finds a similar memory and the next call with
    the default finds none, the record the next call stores is flagged
    unique and still carries [related_to] and [related_document] of the
    memory the earlier call had found. *)
Theorem create_unique_memory_default_carries_relation
    (category content1 content2 : string) (shared : dict pyval)
    (st : state) (first : memory) (rest : list memory) :
  let out1 := create_unique_memory_default clock embed distance category
                content1 shared st in
  fst (search_unique embed distance category content1 st)
    = Ok (first :: rest) ->
  fst (search_unique embed distance category content2 (snd out1)) = Ok [] ->
  exists (shared1 shared2 : dict pyval) (new : row),
    fst out1 = Ok shared1
    /\ fst (create_unique_memory_default clock embed distance category
              content2 shared1 (snd out1)) = Ok shared2
    /\ In new (rows_of
                 (snd (create_unique_memory_default clock embed distance
                         category content2 shared1 (snd out1))) category)
    /\ row_document new = content2
    /\ dict_get (row_metadata new) "unique" = Some (VStr "True")
    /\ dict_get (row_metadata new) "related_to" = Some (VStr (mem_id first))
    /\ dict_get (row_metadata new) "related_document"
       = Some (VStr (mem_document first)).
Proof.
  intros out1 H1 H2. unfold out1 in *.
  rewrite create_unique_memory_default_run in *.
  destruct (search_unique embed distance category content1 st)
    as [r1 stA]. cbn [fst] in H1. subst r1.
  rewrite create_memory_object_run in *. cbn [fst snd] in *.
  set (shared1 := stringified
                    (stamped clock (st_ticks stA)
                       (marked shared (first :: rest)))) in *.
  set (st1 := snd (create_memory clock embed category content1
                     (marked shared (first :: rest)) None None stA)) in *.
  exists shared1.
  rewrite create_unique_memory_default_run.
  destruct (search_unique embed distance category content2 st1)
    as [r2 stB]. cbn [fst] in H2. subst r2.
  rewrite create_memory_object_run. cbn [fst snd].
  rewrite create_memory_run. cbv zeta. cbn [snd]. autorewrite with observe.
  eexists. eexists. split; [reflexivity|]. split; [reflexivity|].
  split; [apply In_upserted|]. split; [apply upserted_document|].
  unfold marked.
  assert (Hrel : dict_get shared1 "related_to" = Some (VStr (mem_id first))).
  { unfold shared1, marked. apply stored_metadata_get; try discriminate.
    rewrite dict_get_set_other by discriminate. apply dict_get_set_same. }
  assert (Hdoc : dict_get shared1 "related_document"
                 = Some (VStr (mem_document first))).
  { unfold shared1, marked. apply stored_metadata_get; try discriminate.
    apply dict_get_set_same. }
  split; [|split]; apply upserted_metadata_written; simpl row_metadata.
  - apply stored_metadata_get; try discriminate. apply dict_get_set_same.
  - apply stored_metadata_get; try discriminate.
    now rewrite dict_get_set_other by discriminate.
  - apply stored_metadata_get; try discriminate.
    now rewrite dict_get_set_other by discriminate.
Qed.

End SharedDefaultProperties.

(** * More scenarios *)

(** ** Searching and listing the three memories *)

Lemma search_memory_results_witness :
  0 < 2
  /\ valid_filters (where_filter None false) (contains_clause (Some "a"))
     = true
  /\ exists selected : list row,
       fst (search_memory embed0 distance0 "c" "zz" 2 None (Some "a") true
              true (Some (1 # 2)%Q) None false st_three)
       = Ok (map (fun r =>
                    mkMemory (row_id r) (row_document r) (row_metadata r)
                      (if true then Some (row_embedding r) else None)
                      (Some (dist_to embed0 distance0 "zz" r))) selected)
       /\ List.length selected <= 2
       /\ (forall r, In r selected ->
             In r (rows_of st_three "c")
             /\ row_matches (where_filter None false)
                  (contains_clause (Some "a")) r = true
             /\ in_window None (Some (1 # 2)%Q)
                  (dist_to embed0 distance0 "zz" r) = true)
       /\ StronglySorted
            (fun a b => (dist_to embed0 distance0 "zz" a
                         <= dist_to embed0 distance0 "zz" b)%Q) selected.
Proof.
  assert (Hn : 0 < 2) by lia.
  assert (H : valid_filters (where_filter None false)
                (contains_clause (Some "a")) = true) by reflexivity.
  split; [exact Hn|]. split; [exact H|].
  exact (search_memory_results embed0 distance0 "c" "zz" 2 None (Some "a")
           true (Some (1 # 2)%Q) None false st_three Hn H).
Defined.

(** The search for two characters finds ["aa"] and ["cc"] at distance zero;
    asking for a document with an [a] leaves the first. *)
Example search_memory_three :
  match fst (search_memory embed0 distance0 "c" "zz" 2 None (Some "a") true
               true (Some (1 # 2)%Q) None false st_three) with
  | Ok results => map mem_document results = ["aa"]
  | Raise _ => False
  end.
Proof. vm_compute. reflexivity. Qed.


Lemma get_memories_results_witness :
  let where_ := where_filter None false in
  let wd := contains_clause (Some "c") in
  let passing := filter (row_matches where_ wd) (rows_of st_three "c") in
  let record_of := fetched (get_include_types true false) in
  valid_filters where_ wd = true
  /\ exists results,
       fst (get_memories "c" "desc" (Some "c") None 5 true false st_three)
       = Ok results
       /\ List.length results <= 5
       /\ (forall m, In m results ->
                     exists r, In r passing /\ m = record_of r)
       /\ Sorted (id_order (String.eqb "desc" "desc")) results
       /\ (List.length (rows_of st_three "c") <= 5 ->
           Permutation results (map record_of passing)).
Proof.
  intros where_ wd passing record_of.
  assert (H : valid_filters where_ wd = true) by reflexivity.
  split; [exact H|].
  exact (get_memories_results "c" "desc" (Some "c") None 5 true false
           st_three H).
Defined.

Lemma get_memories_creation_order_witness :
  counted (rows_of st_three "c")
  /\ fits (List.length (rows_of st_three "c"))
  /\ fst (get_memories "c" "desc" None None 2 false false st_three)
     = Ok (map (fetched (get_include_types false false))
             (firstn 2
                (if String.eqb "desc" "desc"
                 then rev (rows_of st_three "c")
                 else rows_of st_three "c"))).
Proof.
  assert (Hc : counted (rows_of st_three "c")) by (vm_compute; reflexivity).
  assert (Hf : fits (List.length (rows_of st_three "c")))
    by (vm_compute; reflexivity).
  split; [exact Hc|]. split; [exact Hf|].
  exact (get_memories_creation_order "c" "desc" 2 false st_three Hc Hf).
Defined.

(** The two newest of the three memories, the newest first. *)
Example get_memories_newest_two :
  match fst (get_memories "c" "desc" None None 2 false false st_three) with
  | Ok results => map mem_document results = ["cc"; "bbbb"]
  | Raise _ => False
  end.
Proof. vm_compute. reflexivity. Qed.

(** ** Creating, deleting and wiping *)

Lemma create_memory_then_delete_memory_witness :
  id_exists (zfill 16 (str_nat (List.length (rows_of st_three "c"))))
    (rows_of st_three "c") = false
  /\ rows_of
       (snd (delete_memory "c"
               (zfill 16 (str_nat (List.length (rows_of st_three "c"))))
               (snd (create_memory clock0 embed0 "c" "dd" [] None None
                       st_three)))) "c"
     = rows_of st_three "c".
Proof.
  assert (H : id_exists
                (zfill 16 (str_nat (List.length (rows_of st_three "c"))))
                (rows_of st_three "c") = false) by (vm_compute; reflexivity).
  split; [exact H|].
  exact (create_memory_then_delete_memory clock0 embed0 "c" "dd" [] None None
           st_three H).
Defined.

Lemma delete_similar_memories_threshold_one_witness :
  (forall a b, (0 <= distance0 a b)%Q)
  /\ (1 <= 1)%Q
  /\ fst (delete_similar_memories embed0 distance0 "c" "aa" 1%Q st_three)
     = Ok false
  /\ forall c,
       rows_of (snd (delete_similar_memories embed0 distance0 "c" "aa" 1%Q
                       st_three)) c
       = rows_of st_three c.
Proof.
  assert (Hd : forall a b, (0 <= distance0 a b)%Q)
    by (intros a b; apply distance0_range).
  assert (Ht : (1 <= 1)%Q) by apply Qle_refl.
  split; [exact Hd|]. split; [exact Ht|].
  exact (delete_similar_memories_threshold_one embed0 distance0 "c" "aa" 1%Q
           st_three Hd Ht).
Defined.

(** Below the threshold of one the duplicate is deleted, and the warning
    that none were found is logged all the same. *)
Example delete_similar_memories_warns_after_deleting :
  let out := delete_similar_memories embed0 distance0 "c" "aa" (95 # 100)
               st_three in
  fst out = Ok true
  /\ map row_document (rows_of (snd out) "c") = ["bbbb"]
  /\ last (st_log (snd out)) (mkLog "" "") = none_found_warning "c" "aa".
Proof. vm_compute. repeat split. Qed.

Lemma wipe_all_memories_witness :
  NoDup (dict_keys (st_store st_three))
  /\ wipe_all_memories st_three
     = (Ok tt,
        mkState [] (st_ticks st_three) (st_trace st_three)
          (st_log st_three ++ [mkLog "system" "Wiped all memories"])
          (st_stdout st_three))
  /\ forall category,
       fst (count_memories category false (snd (wipe_all_memories st_three)))
       = Ok 0.
Proof.
  assert (H : NoDup (dict_keys (st_store st_three))) by distinct_ids.
  split; [exact H|].
  exact (wipe_all_memories_empties st_three H).
Defined.

(** ** A filter of two keys *)



(** ** Calls with the default metadata *)

Definition hello_memory : memory :=
  mkMemory "0000000000000000" "hello"
    [("unique", VStr "True"); ("created_at", VNum 0); ("updated_at", VNum 1)]
    (Some [5%Q]) (Some 0%Q).

Lemma create_unique_memory_default_witness :
  let out1 := create_unique_memory_default clock0 embed0 distance0 "c"
                "world" [] st_unique in
  fst (search_unique embed0 distance0 "c" "world" st_unique)
    = Ok [hello_memory]
  /\ fst (search_unique embed0 distance0 "c" "hi" (snd out1)) = Ok []
  /\ exists (shared1 shared2 : dict pyval) (new : row),
       fst out1 = Ok shared1
       /\ fst (create_unique_memory_default clock0 embed0 distance0 "c" "hi"
                 shared1 (snd out1)) = Ok shared2
       /\ In new (rows_of
                    (snd (create_unique_memory_default clock0 embed0
                            distance0 "c" "hi" shared1 (snd out1))) "c")
       /\ row_document new = "hi"
       /\ dict_get (row_metadata new) "unique" = Some (VStr "True")
       /\ dict_get (row_metadata new) "related_to"
          = Some (VStr (mem_id hello_memory))
       /\ dict_get (row_metadata new) "related_document"
          = Some (VStr (mem_document hello_memory)).
Proof.
  intros out1.
  assert (H1 : fst (search_unique embed0 distance0 "c" "world" st_unique)
               = Ok [hello_memory]) by (vm_compute; reflexivity).
  assert (H2 : fst (search_unique embed0 distance0 "c" "hi" (snd out1))
               = Ok []) by (vm_compute; reflexivity).
  split; [exact H1|]. split; [exact H2|].
  exact (create_unique_memory_default_carries_relation clock0 embed0
           distance0 "c" "world" "hi" [] st_unique hello_memory [] H1 H2).
Defined.

(** Three calls that leave the metadata out, on an empty store: the third
    memory is unlike the others and is stored as unique, yet it is related
    to the first, as the second was. *)
Example create_unique_memory_default_three_calls :
  let out1 := create_unique_memory_default clock0 embed0 distance0 "c"
                "hello" [] st0 in
  let shared1 := match fst out1 with Ok d => d | Raise _ => [] end in
  let out2 := create_unique_memory_default clock0 embed0 distance0 "c"
                "world" shared1 (snd out1) in
  let shared2 := match fst out2 with Ok d => d | Raise _ => [] end in
  let out3 := create_unique_memory_default clock0 embed0 distance0 "c"
                "hi" shared2 (snd out2) in
  map (fun r => (row_document r, dict_get (row_metadata r) "unique",
                 dict_get (row_metadata r) "related_to"))
    (rows_of (snd out3) "c")
  = [("hello", Some (VStr "True"), None);
     ("world", Some (VStr "False"), Some (VStr "0000000000000000"));
     ("hi", Some (VStr "True"), Some (VStr "0000000000000000"))].
Proof. vm_compute. reflexivity. Qed.

(** ** Counting in a category that was not there *)

Example count_memories_creates_the_category :
  dict_keys (st_store st0) = []
  /\ fst (count_memories "ghost" false st0) = Ok 0
  /\ dict_keys (st_store (snd (count_memories "ghost" false st0)))
     = ["ghost"].
Proof. vm_compute. repeat split. Qed.

(** ** What the backend does with an id in use and with no results asked *)

(** A memory is created under an id in use, with other metadata: the
    document is the new one, and the key that only the first creation gave
    is still there. *)
Example create_memory_keeps_other_keys :
  let st1 := snd (create_memory clock0 embed0 "c" "first"
                    [("old_key", VStr "kept")] None (Some "7") st0) in
  let st2 := snd (create_memory clock0 embed0 "c" "second"
                    [("new_key", VStr "given")] None (Some "7") st1) in
  map (fun r => (row_id r, row_document r,
                 dict_get (row_metadata r) "old_key",
                 dict_get (row_metadata r) "new_key"))
    (rows_of st2 "c")
  = [("7", "second", Some (VStr "kept"), Some (VStr "given"))].
Proof. vm_compute. reflexivity. Qed.

(** A search for no results in a category that has records is refused by
    the backend; in a category without records it returns the empty list
    before the backend is asked. *)
Example search_memory_for_no_results :
  fst (search_memory embed0 distance0 "c" "zz" 0 None None true true None
         None false st_three) = Raise (TypeError no_results)
  /\ fst (search_memory embed0 distance0 "c" "zz" 0 None None true true None
            None false st0) = Ok [].
Proof. split; vm_compute; reflexivity. Qed.
